(** * The raylib auction application (src/main.c), embedded in Rocq

    The program is a single C file: a credential store persisted to a flat
    text file, seven text input boxes, a catalog of three auction items and
    a frame loop that dispatches on the current screen.

    Modelling conventions.
    - A C [char] is the integer it converts to; a string argument
      ([const char*]) is the list of its characters, read up to the first
      NUL. A [char] array that the program indexes (the text of an input
      box) is the list of all its cells, NULs included.
    - [unsigned int] is a [Z] reduced modulo [2^32].
    - [float] is IEEE-754 binary32 with round-to-nearest-even, written out
      below ([f32]); the literal [999999999.0f] and the result of [strtof]
      are rounded the way the C implementation rounds them.
    - Undefined behaviour (a write past the end of an array, a string read
      that meets no NUL) is [None]. Every [strcpy] is checked against
      the capacity of its destination, [uiMessage[100]] included.
    - The raylib queries of one frame (mouse, typed characters, keys, frame
      time) and the outcome of [fopen(USERS_FILE, "w")] form the frame's
      input; drawing changes no state: of it, the array cells it reads
      ([draw_reads]) and the text DrawInputBox draws are modelled. *)

From Stdlib Require Import ZArith QArith List String Ascii Bool Lia Lqa.
Import ListNotations.
Open Scope Z_scope.

(** ** Option monad for code with undefined behaviour *)

Definition bind {A B : Type} (m : option A) (f : A -> option B) : option B :=
  match m with
  | Some a => f a
  | None => None
  end.

Notation "x <- m ;; k" := (bind m (fun x => k))
  (at level 61, m at next level, right associativity).
Notation "' pat <- m ;; k" := (bind m (fun x => match x with pat => k end))
  (at level 61, pat pattern, m at next level, right associativity).

(** ** Constants of main.c *)

Definition MAX_ITEMS : Z := 5.
Definition MAX_USERS : Z := 10.
Definition MAX_NAME_LENGTH : Z := 32.
Definition MAX_DESC_LENGTH : Z := 128.
Definition MAX_BIDDER_LENGTH : Z := 32.
Definition MAX_INPUT_CHARS : Z := 20.

(** ** C strings *)

(** The characters of a string literal. *)
Definition str (s : string) : list Z :=
  map (fun a => Z.of_N (N_of_ascii a)) (list_ascii_of_string s).

(** What a string function reads through a [const char*]: the characters
    before the first NUL. *)
Fixpoint strz (s : list Z) : list Z :=
  match s with
  | [] => []
  | c :: rest => if c =? 0 then [] else c :: strz rest
  end.

(** The string held by a [char] array: defined when a NUL lies inside it. *)
Fixpoint cstr (buf : list Z) : option (list Z) :=
  match buf with
  | [] => None
  | c :: rest => if c =? 0 then Some [] else option_map (cons c) (cstr rest)
  end.

Definition strlen (s : list Z) : Z := Z.of_nat (List.length (strz s)).

Fixpoint list_eqb (a b : list Z) : bool :=
  match a, b with
  | [], [] => true
  | x :: a', y :: b' => (x =? y) && list_eqb a' b'
  | _, _ => false
  end.

(** [strcmp(a, b) == 0]. *)
Definition streq (a b : list Z) : bool := list_eqb (strz a) (strz b).

(** [strcpy] into a [char] array of [cap] cells whose later readers are all
    string functions: the array then holds the string; a string that does
    not fit together with its NUL overflows the array. *)
Definition strcpy_into (cap : Z) (src : list Z) : option (list Z) :=
  if strlen src <? cap then Some (strz src) else None.

(** [a[i] = v] on an array given as the list of its cells. *)
Fixpoint array_set (a : list Z) (i : nat) (v : Z) : option (list Z) :=
  match a, i with
  | [], _ => None
  | _ :: rest, O => Some (v :: rest)
  | x :: rest, S j => option_map (cons x) (array_set rest j v)
  end.

Definition array_set_int (a : list Z) (i : Z) (v : Z) : option (list Z) :=
  if i <? 0 then None else array_set a (Z.to_nat i) v.

(** ** unsigned int *)

Definition UINT_MOD : Z := 2 ^ 32.
Definition to_uint (x : Z) : Z := x mod UINT_MOD.
Definition uint_add (a b : Z) : Z := to_uint (a + b).
Definition uint_shl (a n : Z) : Z := to_uint (Z.shiftl a n).

(** ** HashPassword *)

(** [while ((c = *password++)) hash = ((hash << 5) + hash) + c;] *)
Fixpoint HashPassword_loop (hash : Z) (password : list Z) : Z :=
  match password with
  | [] => hash
  | c :: rest =>
      if c =? 0 then hash
      else HashPassword_loop
             (uint_add (uint_add (uint_shl hash 5) hash) (to_uint c)) rest
  end.

Definition HashPassword (password : list Z) : Z :=
  HashPassword_loop 5381 password.

(** The hash as the specification words it: start from the seed, fold in
    each character as [hash * 33 + c], in 32-bit unsigned arithmetic. *)
Definition rolling_hash_spec (seed : Z) (chars : list Z) : Z :=
  fold_left (fun hash c => (hash * 33 + c) mod 2 ^ 32) chars seed.

(** ** float: IEEE-754 binary32 *)

(** A finite value is [(-1)^neg * m * 2^e] with [0 <= m < 2^24] and
    [-149 <= e <= 104], and [2^23 <= m] unless [e = -149]. *)
Inductive f32 : Type :=
| F32_nan
| F32_inf (neg : bool)
| F32_fin (neg : bool) (m : Z) (e : Z).

(** [floor (log2 (n / d))] for positive [n] and [d]. *)
Definition ilog2_ratio (n d : Z) : Z :=
  let k := Z.log2 n - Z.log2 d in
  if (if 0 <=? k then d * 2 ^ k <=? n else d <=? n * 2 ^ (- k))
  then k else k - 1.

(** [n / d] rounded to the nearest integer, ties to even. *)
Definition rne_div (n d : Z) : Z :=
  let q := n / d in
  let r := n mod d in
  match 2 * r ?= d with
  | Lt => q
  | Gt => q + 1
  | Eq => if Z.even q then q else q + 1
  end.

(** The binary32 nearest to [(-1)^neg * n / d], for [0 <= n] and [0 < d]. *)
Definition round_f32 (neg : bool) (n d : Z) : f32 :=
  if n =? 0 then F32_fin neg 0 (-149)
  else
    let e := Z.max (ilog2_ratio n d - 23) (-149) in
    let m := if 0 <=? e then rne_div n (d * 2 ^ e)
             else rne_div (n * 2 ^ (- e)) d in
    let e' := if m =? 2 ^ 24 then e + 1 else e in
    let m' := if m =? 2 ^ 24 then 2 ^ 23 else m in
    if 104 <? e' then F32_inf neg else F32_fin neg m' e'.

(** An integer literal with the [f] suffix, such as [1500.00f]. *)
Definition f32_of_Z (z : Z) : f32 := round_f32 (z <? 0) (Z.abs z) 1.

Definition f32_zero : f32 := F32_fin false 0 (-149).

Definition signed (neg : bool) (m : Z) : Z := if neg then - m else m.

(** Comparison; [None] when a NaN makes the operands unordered. *)
Definition f32_compare (a b : f32) : option comparison :=
  match a, b with
  | F32_nan, _ | _, F32_nan => None
  | F32_inf sa, F32_inf sb =>
      Some (if Bool.eqb sa sb then Eq else if sa then Lt else Gt)
  | F32_inf sa, F32_fin _ _ _ => Some (if sa then Lt else Gt)
  | F32_fin _ _ _, F32_inf sb => Some (if sb then Gt else Lt)
  | F32_fin sa ma ea, F32_fin sb mb eb =>
      let e := Z.min ea eb in
      Some (signed sa ma * 2 ^ (ea - e) ?= signed sb mb * 2 ^ (eb - e))
  end.

(** The C operators [a <= b], [a > b]: false on unordered operands. *)
Definition f32_le (a b : f32) : bool :=
  match f32_compare a b with
  | Some Lt | Some Eq => true
  | _ => false
  end.

Definition f32_gt (a b : f32) : bool :=
  match f32_compare a b with
  | Some Gt => true
  | _ => false
  end.

(** [a - b]. *)
Definition f32_sub (a b : f32) : f32 :=
  match a, b with
  | F32_nan, _ | _, F32_nan => F32_nan
  | F32_inf sa, F32_inf sb => if Bool.eqb sa sb then F32_nan else F32_inf sa
  | F32_inf sa, F32_fin _ _ _ => F32_inf sa
  | F32_fin _ _ _, F32_inf sb => F32_inf (negb sb)
  | F32_fin sa ma ea, F32_fin sb mb eb =>
      let e := Z.min ea eb in
      let v := signed sa ma * 2 ^ (ea - e) - signed sb mb * 2 ^ (eb - e) in
      if v =? 0 then F32_fin (sa && negb sb) 0 (-149)
      else if 0 <=? e then round_f32 (v <? 0) (Z.abs v * 2 ^ e) 1
      else round_f32 (v <? 0) (Z.abs v) (2 ^ (- e))
  end.

(** ** strtof (C library, "C" locale, round to nearest) *)

Definition isspace (c : Z) : bool := (c =? 32) || ((9 <=? c) && (c <=? 13)).
Definition isdigit (c : Z) : bool := (48 <=? c) && (c <=? 57).
Definition tolower (c : Z) : Z := if (65 <=? c) && (c <=? 90) then c + 32 else c.

(** The value of a hexadecimal digit, if [c] is one. *)
Definition hexval (c : Z) : option Z :=
  if isdigit c then Some (c - 48)
  else let l := tolower c in
       if (97 <=? l) && (l <=? 102) then Some (l - 87) else None.

Fixpoint skip_space (s : list Z) : list Z :=
  match s with
  | c :: rest => if isspace c then skip_space rest else s
  | [] => []
  end.

(** Reads a run of decimal digits onto [acc]: the number read, how many
    digits there were, and the rest of the input. *)
Fixpoint read_digits (s : list Z) (acc cnt : Z) : Z * Z * list Z :=
  match s with
  | c :: rest =>
      if isdigit c then read_digits rest (acc * 10 + (c - 48)) (cnt + 1)
      else (acc, cnt, s)
  | [] => (acc, cnt, [])
  end.

Fixpoint read_hexdigits (s : list Z) (acc cnt : Z) : Z * Z * list Z :=
  match s with
  | c :: rest =>
      match hexval c with
      | Some v => read_hexdigits rest (acc * 16 + v) (cnt + 1)
      | None => (acc, cnt, s)
      end
  | [] => (acc, cnt, [])
  end.

(** An optional sign, [-] or [+]: whether it was [-], and the rest. *)
Definition read_sign (s : list Z) : bool * list Z :=
  match s with
  | c :: r =>
      if c =? 45 then (true, r) else if c =? 43 then (false, r) else (false, s)
  | [] => (false, [])
  end.

(** The optional exponent part: a marker ([e] or [p], either case), an
    optional sign and at least one digit; 0 when there is none. *)
Definition read_exponent (marker : Z) (s : list Z) : Z :=
  match s with
  | c :: rest =>
      if tolower c =? marker then
        let '(neg, rest') := read_sign rest in
        let '(v, cnt, _) := read_digits rest' 0 0 in
        if 0 <? cnt then (if neg then - v else v) else 0
      else 0
  | [] => 0
  end.

(** [m * base^x] rounded to binary32. *)
Definition scale_f32 (neg : bool) (m base x : Z) : f32 :=
  if 0 <=? x then round_f32 neg (m * base ^ x) 1
  else round_f32 neg m (base ^ (- x)).

(** A decimal subject: digits with an optional point, then an exponent.
    [None] when there is no digit at all. *)
Definition read_decimal (neg : bool) (s : list Z) : option f32 :=
  let '(ip, icnt, rest) := read_digits s 0 0 in
  let '(m, fcnt, rest') :=
    match rest with
    | 46 :: r => read_digits r ip 0
    | _ => (ip, 0, rest)
    end in
  if 0 <? icnt + fcnt
  then Some (scale_f32 neg m 10 (read_exponent 101 rest' - fcnt))
  else None.

(** A hexadecimal subject after its [0x] prefix. *)
Definition read_hex (neg : bool) (s : list Z) : option f32 :=
  let '(ip, icnt, rest) := read_hexdigits s 0 0 in
  let '(m, fcnt, rest') :=
    match rest with
    | 46 :: r => read_hexdigits r ip 0
    | _ => (ip, 0, rest)
    end in
  if 0 <? icnt + fcnt
  then Some (scale_f32 neg m 2 (read_exponent 112 rest' - 4 * fcnt))
  else None.

Definition starts_with_ci (prefix s : list Z) : bool :=
  list_eqb prefix (map tolower (firstn (List.length prefix) s)).

Definition strtof (nptr : list Z) : f32 :=
  let '(neg, s) := read_sign (skip_space nptr) in
  if starts_with_ci (str "inf") s then F32_inf neg
  else if starts_with_ci (str "nan") s then F32_nan
  else
    let hex :=
      match s with
      | 48 :: x :: r => if tolower x =? 120 then read_hex neg r else None
      | _ => None
      end in
    match hex with
    | Some v => v
    | None =>
        match read_decimal neg s with
        | Some v => v
        | None => f32_zero
        end
    end.

(** ** Data of main.c *)

Inductive AppScreen : Type :=
| SCREEN_AUTH_MENU
| SCREEN_SIGN_IN
| SCREEN_SIGN_UP
| SCREEN_ITEM_LIST
| SCREEN_ITEM_DETAILS
| SCREEN_PLACE_BID.

Record AuctionItem : Type := mkItem {
  name : list Z;
  description : list Z;
  currentBid : f32;
  highestBidder : list Z;
  auctionClosed : bool
}.

(** raylib's [Vector2] and [Rectangle]. The coordinates are floats in the
    program; every one the program builds is a small integer, and the sums
    [rec.x + rec.width] are exact, so they are kept as rationals. *)
Record Vector2 : Type := mkVector2 { vec_x : Q; vec_y : Q }.

Record Rectangle : Type := mkRectangle {
  rec_x : Q;
  rec_y : Q;
  rec_width : Q;
  rec_height : Q
}.

(** The two border colours an input box takes. *)
Inductive Color : Type :=
| DARKGRAY_CUSTOM
| BLUE_HIGHLIGHT.

Record InputBox : Type := mkInputBox {
  rect : Rectangle;
  text : list Z;          (* char text[MAX_INPUT_CHARS + 1], cell by cell *)
  letterCount : Z;
  active : bool;
  borderColor : Color;
  isPassword : bool
}.

Record User : Type := mkUser {
  username : list Z;
  hashedPassword : Z
}.

(** The message buffer [uiMessage]. Literal messages keep their text; the
    three built by [TextFormat] keep their arguments. *)
Inductive UIMessage : Type :=
| MsgText (s : string)
| MsgWelcome (user : list Z)
| MsgBidFailed (newBid current : f32)
| MsgBidPlaced (newBid : f32) (bidder : list Z).

(** The global variables, and the contents of [USERS_FILE] ([None] when the
    file cannot be opened for reading). [userCount] is the length of
    [users]: the cells of the array past it are never read. *)
Record State : Type := mkState {
  items : list AuctionItem;          (* AuctionItem items[MAX_ITEMS] *)
  itemCount : Z;
  selectedItemIndex : Z;
  currentScreen : AppScreen;
  users : list User;
  loggedInUsername : list Z;
  bidAmountInput : InputBox;
  bidderNameInput : InputBox;
  signInUsernameInput : InputBox;
  signInPasswordInput : InputBox;
  signUpUsernameInput : InputBox;
  signUpPasswordInput : InputBox;
  signUpConfirmPasswordInput : InputBox;
  uiMessage : UIMessage;
  uiMessageTimer : f32;
  users_file : option (list Z)
}.

Definition userCount (s : State) : Z := Z.of_nat (List.length (users s)).

(** What raylib and the file system answer during one frame. *)
Record Frame : Type := mkFrame {
  frameTime : f32;              (* GetFrameTime() *)
  mousePoint : Vector2;         (* GetMousePosition() *)
  mousePressed : bool;          (* IsMouseButtonPressed(MOUSE_LEFT_BUTTON) *)
  charsPressed : list Z;        (* the queue GetCharPressed() empties *)
  backspacePressed : bool;      (* IsKeyPressed(KEY_BACKSPACE) *)
  enterPressed : bool;          (* IsKeyPressed(KEY_ENTER) *)
  usersFileWritable : bool      (* fopen(USERS_FILE, "w") != NULL *)
}.

(** Field updates. *)

Definition set_items v s :=
  mkState v (itemCount s) (selectedItemIndex s) (currentScreen s) (users s)
    (loggedInUsername s) (bidAmountInput s) (bidderNameInput s)
    (signInUsernameInput s) (signInPasswordInput s) (signUpUsernameInput s)
    (signUpPasswordInput s) (signUpConfirmPasswordInput s) (uiMessage s)
    (uiMessageTimer s) (users_file s).

Definition set_itemCount v s :=
  mkState (items s) v (selectedItemIndex s) (currentScreen s) (users s)
    (loggedInUsername s) (bidAmountInput s) (bidderNameInput s)
    (signInUsernameInput s) (signInPasswordInput s) (signUpUsernameInput s)
    (signUpPasswordInput s) (signUpConfirmPasswordInput s) (uiMessage s)
    (uiMessageTimer s) (users_file s).

Definition set_selectedItemIndex v s :=
  mkState (items s) (itemCount s) v (currentScreen s) (users s)
    (loggedInUsername s) (bidAmountInput s) (bidderNameInput s)
    (signInUsernameInput s) (signInPasswordInput s) (signUpUsernameInput s)
    (signUpPasswordInput s) (signUpConfirmPasswordInput s) (uiMessage s)
    (uiMessageTimer s) (users_file s).

Definition set_currentScreen v s :=
  mkState (items s) (itemCount s) (selectedItemIndex s) v (users s)
    (loggedInUsername s) (bidAmountInput s) (bidderNameInput s)
    (signInUsernameInput s) (signInPasswordInput s) (signUpUsernameInput s)
    (signUpPasswordInput s) (signUpConfirmPasswordInput s) (uiMessage s)
    (uiMessageTimer s) (users_file s).

Definition set_users v s :=
  mkState (items s) (itemCount s) (selectedItemIndex s) (currentScreen s) v
    (loggedInUsername s) (bidAmountInput s) (bidderNameInput s)
    (signInUsernameInput s) (signInPasswordInput s) (signUpUsernameInput s)
    (signUpPasswordInput s) (signUpConfirmPasswordInput s) (uiMessage s)
    (uiMessageTimer s) (users_file s).

Definition set_loggedInUsername v s :=
  mkState (items s) (itemCount s) (selectedItemIndex s) (currentScreen s)
    (users s) v (bidAmountInput s) (bidderNameInput s)
    (signInUsernameInput s) (signInPasswordInput s) (signUpUsernameInput s)
    (signUpPasswordInput s) (signUpConfirmPasswordInput s) (uiMessage s)
    (uiMessageTimer s) (users_file s).

Definition set_bidInputs amount bidder s :=
  mkState (items s) (itemCount s) (selectedItemIndex s) (currentScreen s)
    (users s) (loggedInUsername s) amount bidder
    (signInUsernameInput s) (signInPasswordInput s) (signUpUsernameInput s)
    (signUpPasswordInput s) (signUpConfirmPasswordInput s) (uiMessage s)
    (uiMessageTimer s) (users_file s).

Definition set_signInInputs user pass s :=
  mkState (items s) (itemCount s) (selectedItemIndex s) (currentScreen s)
    (users s) (loggedInUsername s) (bidAmountInput s) (bidderNameInput s)
    user pass (signUpUsernameInput s)
    (signUpPasswordInput s) (signUpConfirmPasswordInput s) (uiMessage s)
    (uiMessageTimer s) (users_file s).

Definition set_signUpInputs user pass confirm s :=
  mkState (items s) (itemCount s) (selectedItemIndex s) (currentScreen s)
    (users s) (loggedInUsername s) (bidAmountInput s) (bidderNameInput s)
    (signInUsernameInput s) (signInPasswordInput s) user pass confirm
    (uiMessage s) (uiMessageTimer s) (users_file s).

Definition set_uiMessage v s :=
  mkState (items s) (itemCount s) (selectedItemIndex s) (currentScreen s)
    (users s) (loggedInUsername s) (bidAmountInput s) (bidderNameInput s)
    (signInUsernameInput s) (signInPasswordInput s) (signUpUsernameInput s)
    (signUpPasswordInput s) (signUpConfirmPasswordInput s) v
    (uiMessageTimer s) (users_file s).

Definition set_uiMessageTimer v s :=
  mkState (items s) (itemCount s) (selectedItemIndex s) (currentScreen s)
    (users s) (loggedInUsername s) (bidAmountInput s) (bidderNameInput s)
    (signInUsernameInput s) (signInPasswordInput s) (signUpUsernameInput s)
    (signUpPasswordInput s) (signUpConfirmPasswordInput s) (uiMessage s)
    v (users_file s).

Definition set_users_file v s :=
  mkState (items s) (itemCount s) (selectedItemIndex s) (currentScreen s)
    (users s) (loggedInUsername s) (bidAmountInput s) (bidderNameInput s)
    (signInUsernameInput s) (signInPasswordInput s) (signUpUsernameInput s)
    (signUpPasswordInput s) (signUpConfirmPasswordInput s) (uiMessage s)
    (uiMessageTimer s) v.

(** ** SetUIMessage *)

Definition UI_MESSAGE_DURATION : f32 := f32_of_Z 3.

(** [char uiMessage[100]]. *)
Definition UI_MESSAGE_SIZE : Z := 100.

(** The number of decimal digits of [n >= 0], [fuel] bounding their
    number. *)
Fixpoint count_digits (fuel : nat) (n : Z) : Z :=
  match fuel with
  | O => 0
  | S f => if n <? 10 then 1 else 1 + count_digits f (n / 10)
  end.

(** The number of characters [printf] writes for ["%.2f"]. The float is
    promoted to [double], which is exact; the value is rounded to two
    decimals (half to even) and written as a sign, if the sign bit is set,
    the integer part, the point and two digits. The integer part of a
    binary32 has at most 39 digits. An infinity is written [inf] or [-inf];
    a NaN is written [nan] or [-nan]: the sign of a NaN is not modelled and
    the longer spelling is counted, which no bound below depends on. *)
Definition fmt_2f_width (x : f32) : Z :=
  match x with
  | F32_nan => 4
  | F32_inf neg => (if neg then 1 else 0) + 3
  | F32_fin neg m e =>
      let hundredths := if 0 <=? e then m * 2 ^ e * 100
                        else rne_div (m * 100) (2 ^ (- e)) in
      (if neg then 1 else 0) + count_digits 40 (hundredths / 100) + 3
  end.

Definition text_length (s : string) : Z := Z.of_nat (String.length s).

(** [strlen] of the text of a message: the literal as it is, the others as
    [TextFormat] builds them from their format. *)
Definition message_length (message : UIMessage) : Z :=
  match message with
  | MsgText t => text_length t
  | MsgWelcome user =>
      text_length "Welcome, " + strlen user + text_length "!"
  | MsgBidFailed newBid current =>
      text_length "Bid failed: $" + fmt_2f_width newBid
      + text_length " is not higher than current bid $" + fmt_2f_width current
  | MsgBidPlaced newBid bidder =>
      text_length "Bid of $" + fmt_2f_width newBid
      + text_length " placed successfully by " + strlen bidder
      + text_length "!"
  end.

(** The globals after the two assignments of SetUIMessage. *)
Definition with_message (message : UIMessage) (s : State) : State :=
  set_uiMessageTimer UI_MESSAGE_DURATION (set_uiMessage message s).

(** [strcpy(uiMessage, message)] writes the text and its terminator: a
    text of [UI_MESSAGE_SIZE] characters or more overflows the array. *)
Definition SetUIMessage (message : UIMessage) (s : State) : option State :=
  if message_length message <? UI_MESSAGE_SIZE
  then Some (with_message message s)
  else None.

(** ** The users file: [fprintf "%s %u\n"] and [fscanf "%s %u"] *)

(** The decimal digits of an [unsigned int] (at most ten). *)
Fixpoint print_digits (fuel : nat) (n : Z) (acc : list Z) : list Z :=
  match fuel with
  | O => acc
  | S f =>
      let acc' := (48 + n mod 10) :: acc in
      if n <? 10 then acc' else print_digits f (n / 10) acc'
  end.

Definition print_uint (n : Z) : list Z := print_digits 10 n [].

Definition print_user (u : User) : list Z :=
  strz (username u) ++ [32] ++ print_uint (hashedPassword u) ++ [10].

Definition print_users (us : list User) : list Z :=
  flat_map print_user us.

(** [%s]: skips white space, then takes the characters up to the next
    white space; [None] at the end of the file. *)
Fixpoint take_token (s : list Z) : list Z * list Z :=
  match s with
  | c :: rest =>
      if isspace c then ([], s)
      else let '(tok, rest') := take_token rest in (c :: tok, rest')
  | [] => ([], [])
  end.

Definition scan_s (input : list Z) : option (list Z * list Z) :=
  match skip_space input with
  | [] => None
  | s => Some (take_token s)
  end.

(** [%u]: skips white space, then an optional sign and at least one digit;
    [None] when the input does not match. *)
Definition scan_u (input : list Z) : option (bool * Z * list Z) :=
  let '(neg, s) := read_sign (skip_space input) in
  let '(v, cnt, rest) := read_digits s 0 0 in
  if 0 <? cnt then Some (neg, v, rest) else None.

(** The loop of LoadUsers, [slots] being the cells left in [users]. A token
    of [MAX_NAME_LENGTH] characters or more overflows [username]; a number
    that [unsigned int] cannot hold is undefined for [fscanf]. *)
Fixpoint LoadUsers_loop (slots : nat) (input : list Z) (acc : list User)
  : option (list User) :=
  match slots with
  | O => Some acc
  | S k =>
      match scan_s input with
      | None => Some acc
      | Some (tok, rest) =>
          if Z.of_nat (List.length tok) <? MAX_NAME_LENGTH then
            match scan_u rest with
            | None => Some acc
            | Some (neg, v, rest') =>
                if v <? UINT_MOD then
                  LoadUsers_loop k rest'
                    (acc ++ [mkUser (strz tok) (to_uint (signed neg v))])
                else None
            end
          else None
      end
  end.

Definition LoadUsers (s : State) : option (bool * State) :=
  match users_file s with
  | None => Some (false, s)
  | Some contents =>
      us <- LoadUsers_loop (Z.to_nat MAX_USERS) contents [] ;;
      Some (true, set_users us s)
  end.

Definition SaveUsers (writable : bool) (s : State) : bool * State :=
  if writable then (true, set_users_file (Some (print_users (users s))) s)
  else (false, s).

(** ** UsernameExists, RegisterUser, AuthenticateUser *)

Definition UsernameExists (s : State) (uname : list Z) : bool :=
  existsb (fun u => streq (username u) uname) (users s).

Definition AuthenticateUser (s : State) (uname password : list Z) : bool :=
  let inputHash := HashPassword password in
  existsb (fun u => streq (username u) uname && (hashedPassword u =? inputHash))
    (users s).

Definition RegisterUser (uname password : list Z) (writable : bool) (s : State)
  : option (bool * State) :=
  if MAX_USERS <=? userCount s then
    s <- SetUIMessage (MsgText "Cannot register: maximum user limit reached.") s ;;
    Some (false, s)
  else if UsernameExists s uname then
    s <- SetUIMessage (MsgText "Registration failed: Username already exists.") s ;;
    Some (false, s)
  else
    stored <- strcpy_into MAX_NAME_LENGTH uname ;;
    let s := set_users (users s ++ [mkUser stored (HashPassword password)]) s in
    Some (SaveUsers writable s).

(** ** Input boxes *)

Definition Qlt_bool (a b : Q) : bool := negb (Qle_bool b a).

(** raylib's CheckCollisionPointRec: the left and top edges belong to the
    rectangle, the right and bottom ones do not. *)
Definition CheckCollisionPointRec (point : Vector2) (rec : Rectangle) : bool :=
  Qle_bool (rec_x rec) (vec_x point)
  && Qlt_bool (vec_x point) (rec_x rec + rec_width rec)%Q
  && Qle_bool (rec_y rec) (vec_y point)
  && Qlt_bool (vec_y point) (rec_y rec + rec_height rec)%Q.

Definition IsMouseOver (fr : Frame) (rec : Rectangle) : bool :=
  CheckCollisionPointRec (mousePoint fr) rec.

Definition clicked (fr : Frame) (rec : Rectangle) : bool :=
  IsMouseOver fr rec && mousePressed fr.

Definition rectangle (x y w h : Z) : Rectangle :=
  mkRectangle (inject_Z x) (inject_Z y) (inject_Z w) (inject_Z h).

Definition KEY_MIN : Z := 32.
Definition KEY_MAX : Z := 125.

(** The [while (key > 0)] loop of UpdateInputBox over the queue that
    GetCharPressed empties: the box, and what is left in the queue. *)
Fixpoint type_chars (box : InputBox) (queue : list Z)
  : option (InputBox * list Z) :=
  match queue with
  | [] => Some (box, [])
  | key :: rest =>
      if 0 <? key then
        if ((KEY_MIN <=? key) && (key <=? KEY_MAX))
           && (letterCount box <? MAX_INPUT_CHARS)
        then
          text' <- array_set_int (text box) (letterCount box) key ;;
          type_chars
            (mkInputBox (rect box) text' (letterCount box + 1) (active box)
               (borderColor box) (isPassword box))
            rest
        else type_chars box rest
      else Some (box, rest)
  end.

Definition UpdateInputBox (fr : Frame) (queue : list Z) (box : InputBox)
  : option (InputBox * list Z) :=
  let box :=
    if mousePressed fr then
      if CheckCollisionPointRec (mousePoint fr) (rect box)
      then mkInputBox (rect box) (text box) (letterCount box) true
             BLUE_HIGHLIGHT (isPassword box)
      else mkInputBox (rect box) (text box) (letterCount box) false
             DARKGRAY_CUSTOM (isPassword box)
    else box in
  if active box then
    '(box, queue) <- type_chars box queue ;;
    box <-
      (if backspacePressed fr && (0 <? letterCount box) then
         text' <- array_set_int (text box) (letterCount box - 1) 0 ;;
         Some (mkInputBox (rect box) text' (letterCount box - 1) (active box)
                 (borderColor box) (isPassword box))
       else Some box) ;;
    Some (if enterPressed fr
          then mkInputBox (rect box) (text box) (letterCount box) false
                 DARKGRAY_CUSTOM (isPassword box)
          else box,
          queue)
  else Some (box, queue).

(** What ResetInputBoxes does to one box: [strcpy(text, "")] writes the
    first cell only. *)
Definition ResetInputBox (box : InputBox) : option InputBox :=
  text' <- array_set_int (text box) 0 0 ;;
  Some (mkInputBox (rect box) text' 0 false DARKGRAY_CUSTOM (isPassword box)).

Definition ResetInputBoxes (s : State) : option State :=
  b1 <- ResetInputBox (bidAmountInput s) ;;
  b2 <- ResetInputBox (bidderNameInput s) ;;
  b3 <- ResetInputBox (signInUsernameInput s) ;;
  b4 <- ResetInputBox (signInPasswordInput s) ;;
  b5 <- ResetInputBox (signUpUsernameInput s) ;;
  b6 <- ResetInputBox (signUpPasswordInput s) ;;
  b7 <- ResetInputBox (signUpConfirmPasswordInput s) ;;
  Some (set_signUpInputs b5 b6 b7 (set_signInInputs b3 b4 (set_bidInputs b1 b2 s))).

(** ** DrawInputBox *)

(** A local [char] array that is not initialised: a cell is [None] until
    it is written. *)
Fixpoint cell_set (a : list (option Z)) (i : nat) (v : Z)
  : option (list (option Z)) :=
  match a, i with
  | [], _ => None
  | _ :: rest, O => Some (Some v :: rest)
  | c :: rest, S k => rest' <- cell_set rest k v ;; Some (c :: rest')
  end.

Definition cell_set_int (a : list (option Z)) (i : Z) (v : Z)
  : option (list (option Z)) :=
  if i <? 0 then None else cell_set a (Z.to_nat i) v.

(** The string DrawText reads from such an array; reading a cell that was
    never written, or past the end, is undefined. *)
Fixpoint cells_str (a : list (option Z)) : option (list Z) :=
  match a with
  | Some c :: rest =>
      if c =? 0 then Some [] else s <- cells_str rest ;; Some (c :: s)
  | _ => None
  end.

(** [for (int i = 0; i < box->letterCount; i++) maskedText[i] = '*';],
    [fuel] being the iterations left. *)
Fixpoint mask_loop (fuel : nat) (i : Z) (maskedText : list (option Z))
  : option (list (option Z)) :=
  match fuel with
  | O => Some maskedText
  | S k =>
      maskedText <- cell_set_int maskedText i 42 ;;
      mask_loop k (i + 1) maskedText
  end.

(** The text DrawInputBox hands to DrawText for the content of the box;
    the label, the border and the cursor are left out. *)
Definition DrawInputBox (box : InputBox) : option (list Z) :=
  if isPassword box then
    let maskedText := repeat None (Z.to_nat (MAX_INPUT_CHARS + 1)) in
    maskedText <- mask_loop (Z.to_nat (letterCount box)) 0 maskedText ;;
    maskedText <- cell_set_int maskedText (letterCount box) 0 ;;
    cells_str maskedText
  else cstr (text box).

(** ** InitAuctionData and the start of main *)

Definition screenWidth : Z := 800.
Definition screenHeight : Z := 600.

Definition zero_item : AuctionItem := mkItem [] [] f32_zero [] false.

Definition InitAuctionData (s : State) : State :=
  set_items
    [ mkItem (str "Antique Vase")
        (str "A beautiful ceramic vase from the Ming Dynasty.")
        (f32_of_Z 1500) (str "No Bids Yet") false;
      mkItem (str "Rare Comic Book")
        (str "First edition of 'The Amazing Spider-Man #1'.")
        (f32_of_Z 5000) (str "Peter P.") false;
      mkItem (str "Vintage Guitar")
        (str "1960s electric guitar, well-preserved.")
        (f32_of_Z 2500) (str "Mary J.") true;
      zero_item; zero_item ]
    (set_itemCount 3 s).

(** An input box as main initialises it: empty text, every cell NUL. *)
Definition new_box (x y w h : Z) (password : bool) : InputBox :=
  mkInputBox (rectangle x y w h) (repeat 0 (Z.to_nat (MAX_INPUT_CHARS + 1))) 0
    false DARKGRAY_CUSTOM password.

(** The globals as the program starts, before main runs. *)
Definition globals (file : option (list Z)) : State :=
  let nobox := mkInputBox (rectangle 0 0 0 0)
                 (repeat 0 (Z.to_nat (MAX_INPUT_CHARS + 1))) 0 false
                 DARKGRAY_CUSTOM false in
  mkState (repeat zero_item (Z.to_nat MAX_ITEMS)) 0 (-1) SCREEN_AUTH_MENU []
    [] nobox nobox nobox nobox nobox nobox nobox (MsgText "") f32_zero file.

(** main up to its loop, on a file system whose [USERS_FILE] is [file]. *)
Definition startup (file : option (list Z)) : option State :=
  let s := InitAuctionData (globals file) in
  '(_, s) <- LoadUsers s ;;
  let s := set_bidInputs
             (new_box (screenWidth / 2 - 100) 300 200 40 false)
             (new_box (screenWidth / 2 - 100) 380 200 40 false) s in
  let s := set_signInInputs
             (new_box (screenWidth / 2 - 120) 250 240 40 false)
             (new_box (screenWidth / 2 - 120) 320 240 40 true) s in
  let s := set_signUpInputs
             (new_box (screenWidth / 2 - 120) 200 240 40 false)
             (new_box (screenWidth / 2 - 120) 270 240 40 true)
             (new_box (screenWidth / 2 - 120) 340 240 40 true) s in
  Some s.

(** ** The frame loop of main: one update step *)

Definition signInButton : Rectangle :=
  rectangle (screenWidth / 2 - 100) (screenHeight / 2 - 50) 200 50.
Definition signUpButton : Rectangle :=
  rectangle (screenWidth / 2 - 100) (screenHeight / 2 + 20) 200 50.
Definition loginButton : Rectangle := rectangle (screenWidth / 2 - 80) 400 160 50.
Definition signInBackButton : Rectangle :=
  rectangle (screenWidth / 2 - 80) 470 160 50.
Definition registerButton : Rectangle :=
  rectangle (screenWidth / 2 - 80) 410 160 50.
Definition signUpBackButton : Rectangle :=
  rectangle (screenWidth / 2 - 80) 480 160 50.
Definition itemRect (i : Z) : Rectangle :=
  rectangle 50 (100 + i * 60) (screenWidth - 100) 50.
Definition logoutButtonRect : Rectangle := rectangle (screenWidth - 150) 20 120 40.
Definition backButtonRect : Rectangle := rectangle 50 (screenHeight - 60) 120 40.
Definition placeBidButtonRect : Rectangle :=
  rectangle (screenWidth - 170) (screenHeight - 60) 120 40.
Definition bidButtonRect : Rectangle := rectangle (screenWidth / 2 - 120) 480 100 40.
Definition cancelButtonRect : Rectangle :=
  rectangle (screenWidth / 2 + 20) 480 100 40.

(** The literal [999999999.0f]. *)
Definition BID_CEILING : f32 := f32_of_Z 999999999.

(** [items[i]], an array of [MAX_ITEMS] cells. *)
Definition item_at (s : State) (i : Z) : option AuctionItem :=
  if i <? 0 then None else nth_error (items s) (Z.to_nat i).

Fixpoint list_set (l : list AuctionItem) (i : nat) (v : AuctionItem)
  : option (list AuctionItem) :=
  match l, i with
  | [], _ => None
  | _ :: rest, O => Some (v :: rest)
  | x :: rest, S j => option_map (cons x) (list_set rest j v)
  end.

Definition set_item_at (i : Z) (v : AuctionItem) (s : State) : option State :=
  if i <? 0 then None
  else l <- list_set (items s) (Z.to_nat i) v ;; Some (set_items l s).

(** The message timer, at the top of the loop body. *)
Definition update_timer (fr : Frame) (s : State) : State :=
  if f32_gt (uiMessageTimer s) f32_zero then
    let s := set_uiMessageTimer (f32_sub (uiMessageTimer s) (frameTime fr)) s in
    if f32_le (uiMessageTimer s) f32_zero then set_uiMessage (MsgText "") s
    else s
  else s.

Definition update_auth_menu (fr : Frame) (s : State) : option State :=
  s <- (if clicked fr signInButton then
          s <- ResetInputBoxes (set_currentScreen SCREEN_SIGN_IN s) ;;
          SetUIMessage (MsgText "Enter your credentials.") s
        else Some s) ;;
  if clicked fr signUpButton then
    s <- ResetInputBoxes (set_currentScreen SCREEN_SIGN_UP s) ;;
    SetUIMessage (MsgText "Choose a username and password.") s
  else Some s.

Definition update_sign_in (fr : Frame) (s : State) : option State :=
  '(b1, q) <- UpdateInputBox fr (charsPressed fr) (signInUsernameInput s) ;;
  '(b2, _) <- UpdateInputBox fr q (signInPasswordInput s) ;;
  let s := set_signInInputs b1 b2 s in
  s <- (if clicked fr loginButton then
          uname <- cstr (text (signInUsernameInput s)) ;;
          password <- cstr (text (signInPasswordInput s)) ;;
          if AuthenticateUser s uname password then
            logged <- strcpy_into MAX_NAME_LENGTH uname ;;
            let s := set_loggedInUsername logged s in
            let s := set_currentScreen SCREEN_ITEM_LIST s in
            s <- SetUIMessage (MsgWelcome (loggedInUsername s)) s ;;
            ResetInputBoxes s
          else
            SetUIMessage (MsgText "Login failed. Check username/password.") s
        else Some s) ;;
  if clicked fr signInBackButton then
    s <- ResetInputBoxes (set_currentScreen SCREEN_AUTH_MENU s) ;;
    SetUIMessage (MsgText "") s
  else Some s.

(** The body of the Register click. *)
Definition register_click (fr : Frame) (s : State) : option State :=
  uname <- cstr (text (signUpUsernameInput s)) ;;
  if strlen uname <? 3 then
    SetUIMessage
      (MsgText "Username (min 3 chars) / Password (min 5 chars) too short.") s
  else
    password <- cstr (text (signUpPasswordInput s)) ;;
    if strlen password <? 5 then
      SetUIMessage
        (MsgText "Username (min 3 chars) / Password (min 5 chars) too short.") s
    else
      confirm <- cstr (text (signUpConfirmPasswordInput s)) ;;
      if negb (streq password confirm) then
        SetUIMessage (MsgText "Passwords do not match!") s
      else if UsernameExists s uname then
        SetUIMessage (MsgText "Username already taken.") s
      else
        '(ok, s) <- RegisterUser uname password (usersFileWritable fr) s ;;
        if ok then
          s <- SetUIMessage
                 (MsgText "Registration successful! Please sign in.") s ;;
          ResetInputBoxes (set_currentScreen SCREEN_SIGN_IN s)
        else
          SetUIMessage (MsgText "Registration failed. Try again.") s.

Definition update_sign_up (fr : Frame) (s : State) : option State :=
  '(b1, q) <- UpdateInputBox fr (charsPressed fr) (signUpUsernameInput s) ;;
  '(b2, q) <- UpdateInputBox fr q (signUpPasswordInput s) ;;
  '(b3, _) <- UpdateInputBox fr q (signUpConfirmPasswordInput s) ;;
  let s := set_signUpInputs b1 b2 b3 s in
  s <- (if clicked fr registerButton then register_click fr s else Some s) ;;
  if clicked fr signUpBackButton then
    s <- ResetInputBoxes (set_currentScreen SCREEN_AUTH_MENU s) ;;
    SetUIMessage (MsgText "") s
  else Some s.

(** [for (int i = 0; i < itemCount; i++)] with its [break], [fuel] being
    the iterations left. *)
Fixpoint item_list_loop (fr : Frame) (fuel : nat) (i : Z) (s : State)
  : option State :=
  match fuel with
  | O => Some s
  | S k =>
      if CheckCollisionPointRec (mousePoint fr) (itemRect i) then
        SetUIMessage (MsgText "")
          (set_currentScreen SCREEN_ITEM_DETAILS (set_selectedItemIndex i s))
      else item_list_loop fr k (i + 1) s
  end.

Definition update_item_list (fr : Frame) (s : State) : option State :=
  s <- (if mousePressed fr
        then item_list_loop fr (Z.to_nat (itemCount s)) 0 s else Some s) ;;
  if clicked fr logoutButtonRect then
    SetUIMessage (MsgText "Logged out successfully.")
      (set_currentScreen SCREEN_AUTH_MENU (set_loggedInUsername [] s))
  else Some s.

Definition update_item_details (fr : Frame) (s : State) : option State :=
  s <- (if clicked fr backButtonRect then
          SetUIMessage (MsgText "")
            (set_selectedItemIndex (-1)
               (set_currentScreen SCREEN_ITEM_LIST s))
        else Some s) ;;
  open <- (if selectedItemIndex s =? -1 then Some false
           else it <- item_at s (selectedItemIndex s) ;;
                Some (negb (auctionClosed it))) ;;
  if open && clicked fr placeBidButtonRect then
    s <- ResetInputBoxes (set_currentScreen SCREEN_PLACE_BID s) ;;
    SetUIMessage (MsgText "Enter your bid and name.") s
  else Some s.

(** The body of the BID! click. *)
Definition bid_click (s : State) : option State :=
  amount <- cstr (text (bidAmountInput s)) ;;
  let newBid := strtof amount in
  bidder <- cstr (text (bidderNameInput s)) ;;
  if strlen bidder =? 0 then
    SetUIMessage (MsgText "Please enter your name to bid.") s
  else
    it <- item_at s (selectedItemIndex s) ;;
    if f32_le newBid (currentBid it) then
      SetUIMessage (MsgBidFailed newBid (currentBid it)) s
    else if f32_gt newBid BID_CEILING then
      SetUIMessage (MsgText "Bid amount too large!") s
    else
      stored <- strcpy_into MAX_BIDDER_LENGTH bidder ;;
      s <- set_item_at (selectedItemIndex s)
             (mkItem (name it) (description it) newBid stored (auctionClosed it))
             s ;;
      SetUIMessage (MsgBidPlaced newBid bidder)
        (set_currentScreen SCREEN_ITEM_DETAILS s).

Definition update_place_bid (fr : Frame) (s : State) : option State :=
  '(b1, q) <- UpdateInputBox fr (charsPressed fr) (bidAmountInput s) ;;
  '(b2, _) <- UpdateInputBox fr q (bidderNameInput s) ;;
  let s := set_bidInputs b1 b2 s in
  s <- (if clicked fr bidButtonRect then bid_click s else Some s) ;;
  if clicked fr cancelButtonRect then
    SetUIMessage (MsgText "") (set_currentScreen SCREEN_ITEM_DETAILS s)
  else Some s.

(** The array cells the drawing half of the loop body reads; it writes no
    global. *)
Definition draw_reads (s : State) : option unit :=
  match currentScreen s with
  | SCREEN_ITEM_DETAILS =>
      if selectedItemIndex s =? -1 then Some tt
      else _ <- item_at s (selectedItemIndex s) ;; Some tt
  | SCREEN_PLACE_BID => _ <- item_at s (selectedItemIndex s) ;; Some tt
  | _ => Some tt
  end.

(** One iteration of [while (!WindowShouldClose())]. *)
Definition step (fr : Frame) (s : State) : option State :=
  let s := update_timer fr s in
  s <- match currentScreen s with
       | SCREEN_AUTH_MENU => update_auth_menu fr s
       | SCREEN_SIGN_IN => update_sign_in fr s
       | SCREEN_SIGN_UP => update_sign_up fr s
       | SCREEN_ITEM_LIST => update_item_list fr s
       | SCREEN_ITEM_DETAILS => update_item_details fr s
       | SCREEN_PLACE_BID => update_place_bid fr s
       end ;;
  _ <- draw_reads s ;;
  Some s.

(** Running the loop over the frames of a session. *)
Fixpoint run (frames : list Frame) (s : State) : option State :=
  match frames with
  | [] => Some s
  | fr :: rest => s <- step fr s ;; run rest s
  end.

(** The states the program can be in at the top of its loop. *)
Inductive reachable : State -> Prop :=
| reach_start : forall file s, startup file = Some s -> reachable s
| reach_step : forall fr s s', reachable s -> step fr s = Some s' -> reachable s'.

(** * Invariants, sessions and other definitions used by the properties *)

(** ** The invariant of the frame loop *)

(** What every input box keeps: the array has its [MAX_INPUT_CHARS + 1]
    cells, the count stays within the capacity, and the last cell, which
    no code path writes, is NUL. *)
Definition box_wf (b : InputBox) : Prop :=
  List.length (text b) = 21%nat
  /\ 0 <= letterCount b <= MAX_INPUT_CHARS
  /\ nth_error (text b) 20 = Some 0.

(** An input box within its bounds and at the place main gave it. *)
Definition box_ok (r : Rectangle) (b : InputBox) : Prop :=
  box_wf b /\ rect b = r.

(** The seven input boxes. *)
Definition boxes_wf (s : State) : Prop :=
  box_ok (rectangle (screenWidth / 2 - 100) 300 200 40) (bidAmountInput s)
  /\ box_ok (rectangle (screenWidth / 2 - 100) 380 200 40) (bidderNameInput s)
  /\ box_ok (rectangle (screenWidth / 2 - 120) 250 240 40) (signInUsernameInput s)
  /\ box_ok (rectangle (screenWidth / 2 - 120) 320 240 40) (signInPasswordInput s)
  /\ box_ok (rectangle (screenWidth / 2 - 120) 200 240 40) (signUpUsernameInput s)
  /\ box_ok (rectangle (screenWidth / 2 - 120) 270 240 40) (signUpPasswordInput s)
  /\ box_ok (rectangle (screenWidth / 2 - 120) 340 240 40)
       (signUpConfirmPasswordInput s).

(** The selected index is a seeded item whenever a screen reads it. *)
Definition sel_ok (screen : AppScreen) (sel count : Z) : Prop :=
  match screen with
  | SCREEN_ITEM_DETAILS | SCREEN_PLACE_BID => 0 <= sel < count
  | _ => True
  end.

(** The invariant: the boxes are within bounds, the catalog has its
    MAX_ITEMS cells of which the first three are seeded, the store is
    within its capacity and the selected index is valid where it is read. *)
Definition state_wf (s : State) : Prop :=
  boxes_wf s
  /\ List.length (items s) = 5%nat
  /\ itemCount s = 3
  /\ userCount s <= MAX_USERS
  /\ sel_ok (currentScreen s) (selectedItemIndex s) (itemCount s).

(** The globals other than the input boxes. *)
Definition core (s : State) :=
  (items s, itemCount s, selectedItemIndex s, currentScreen s, users s,
   loggedInUsername s, uiMessage s, uiMessageTimer s, users_file s).

(** [safe P o]: the computation [o] meets no undefined behaviour and its
    result satisfies [P]. *)
Definition safe {A : Type} (P : A -> Prop) (o : option A) : Prop :=
  exists a, o = Some a /\ P a.

(** [kept P o]: if the computation [o] meets no undefined behaviour, its
    result satisfies [P]. *)
Definition kept {A : Type} (P : A -> Prop) (o : option A) : Prop :=
  forall a, o = Some a -> P a.

(** The two screens that read the selected item. *)
Definition bidding (s : State) : Prop :=
  currentScreen s = SCREEN_PLACE_BID \/ currentScreen s = SCREEN_ITEM_DETAILS.

(** ** Sessions: frames, and the states they lead to *)

(** A frame at 60 frames per second. *)
Definition frame_dt : f32 := round_f32 false 1 60.

(** A left click at [(x, y)]. *)
Definition click_at (x y : Z) : Frame :=
  mkFrame frame_dt (mkVector2 (inject_Z x) (inject_Z y)) true [] false false true.

(** The keys of [keys] arrive while the mouse rests at [(x, y)]. *)
Definition type_at (x y : Z) (keys : string) : Frame :=
  mkFrame frame_dt (mkVector2 (inject_Z x) (inject_Z y)) false (str keys)
    false false true.

(** From the menu: register [user] with [password], then sign in. *)
Definition sign_up_and_in (user password : string) : list Frame :=
  [ click_at 400 350;                              (* Sign Up *)
    click_at 300 210; type_at 300 210 user;        (* username box *)
    click_at 300 280; type_at 300 280 password;    (* password box *)
    click_at 300 350; type_at 300 350 password;    (* confirm box *)
    click_at 400 420;                              (* Register *)
    click_at 300 260; type_at 300 260 user;        (* sign-in username *)
    click_at 300 330; type_at 300 330 password;    (* sign-in password *)
    click_at 400 410 ].                            (* Login *)

(** From the details of an open item: enter a bid and click BID!. *)
Definition place_bid (amount bidder : string) : list Frame :=
  [ click_at 700 560;                              (* Place Bid *)
    click_at 310 310; type_at 310 310 amount;      (* amount box *)
    click_at 310 390; type_at 310 390 bidder;      (* name box *)
    click_at 300 490 ].                            (* BID! *)

(** The program started with no users file and run over [frames]. *)
Definition run_from_start (frames : list Frame) : option State :=
  s <- startup None ;; run frames s.

(** The state a defined computation ends in. *)
Definition state_of (o : option State) : State :=
  match o with
  | Some s => s
  | None => globals None
  end.

(** Signed in as bob, looking at the closed item (Vintage Guitar). *)
Definition at_closed_item : State :=
  Eval vm_compute in
    state_of (run_from_start (sign_up_and_in "bob" "12345" ++ [click_at 100 230])).

(** Signed in as bob, on the PlaceBid screen of the first item. *)
Definition at_place_bid : State :=
  Eval vm_compute in
    state_of (run_from_start
                (sign_up_and_in "bob" "12345"
                 ++ [click_at 100 110; click_at 700 560])).

(** The same, with the amount 1600 and the name bob typed in. *)
Definition at_bid_entered : State :=
  Eval vm_compute in
    state_of (run [click_at 310 310; type_at 310 310 "1600";
                   click_at 310 390; type_at 310 390 "bob"] at_place_bid).

(** Signed in as bob: a bid of 1e7 (10000000) is accepted on the first item,
    then the amount -3e38 and the name bob are typed on its PlaceBid
    screen. *)
Definition long_bid_failed_frames : list Frame :=
  sign_up_and_in "bob" "12345" ++ [click_at 100 110]
  ++ place_bid "1e7" "bob" ++ firstn 5 (place_bid "-3e38" "bob").

Definition at_long_bid_failed : State :=
  Eval vm_compute in state_of (run_from_start long_bid_failed_frames).

(** On the SignUp screen with "ab" typed as username. *)
Definition at_sign_up_ab : State :=
  Eval vm_compute in
    state_of (run_from_start
                [click_at 400 350; click_at 300 210; type_at 300 210 "ab"]).

(** The store after [startup None]: no user, no file. *)
Definition empty_store : State := Eval vm_compute in state_of (startup None).

(** A store that already holds alice. *)
Definition store_with_alice : State :=
  Eval vm_compute in
    state_of (option_map snd
                (RegisterUser (str "alice") (str "password1") true empty_store)).

(** The store after registering the username "john doe". *)
Definition store_with_john_doe : State :=
  Eval vm_compute in
    state_of (option_map snd
                (RegisterUser (str "john doe") (str "secret") true empty_store)).

(** ** Outcomes of a click *)

(** An input box after a click that missed it. *)
Definition deactivated (b : InputBox) : InputBox :=
  mkInputBox (rect b) (text b) (letterCount b) false DARKGRAY_CUSTOM
    (isPassword b).

(** The validation message of the SignUp screen. *)
Definition MSG_TOO_SHORT : UIMessage :=
  MsgText "Username (min 3 chars) / Password (min 5 chars) too short.".

(** [items[i].currentBid] and [items[i].highestBidder]. *)
Definition bid_of (s : State) (i : Z) : option f32 :=
  option_map currentBid (item_at s i).

Definition bidder_of (s : State) (i : Z) : option (list Z) :=
  option_map highestBidder (item_at s i).

(** The message a BID! click leaves. *)
Definition bid_outcome_message (newBid current : f32) (bidder : list Z)
  : UIMessage :=
  if strlen bidder =? 0 then MsgText "Please enter your name to bid."
  else if f32_le newBid current then MsgBidFailed newBid current
  else if f32_gt newBid BID_CEILING then MsgText "Bid amount too large!"
  else MsgBidPlaced newBid bidder.

(** Whether a BID! click is turned down. *)
Definition bid_rejected (newBid current : f32) (bidder : list Z) : bool :=
  (strlen bidder =? 0) || f32_le newBid current || f32_gt newBid BID_CEILING.

(** What a frame on the PlaceBid screen does to the items: nothing, or the
    BID! click replaced the selected item [it] by [v], whose bid is not
    [<=] the old one and not [>] the ceiling. *)
Definition bid_written (s s' : State) : Prop :=
  exists it v,
    0 <= selectedItemIndex s
    /\ item_at s (selectedItemIndex s) = Some it
    /\ f32_le (currentBid v) (currentBid it) = false
    /\ f32_gt (currentBid v) BID_CEILING = false
    /\ list_set (items s) (Z.to_nat (selectedItemIndex s)) v = Some (items s').

(** ** What the users file can carry *)

(** A character that [%s] reads as part of a name. *)
Definition plain_char (c : Z) : Prop := isspace c = false /\ c <> 0.

(** A username the file format can carry: not empty, shorter than the
    array, with no white space and no NUL in it. *)
Definition storable_name (n : list Z) : Prop :=
  n <> [] /\ Forall plain_char n /\ Z.of_nat (List.length n) < MAX_NAME_LENGTH.

(** A user whose line of the file reads back as written. *)
Definition storable_user (u : User) : Prop :=
  storable_name (username u) /\ 0 <= hashedPassword u < UINT_MOD.

(** The number a run of decimal digits denotes, continuing [acc]. *)
Definition digits_value (ds : list Z) (acc : Z) : Z :=
  fold_left (fun a d => a * 10 + (d - 48)) ds acc.

(** ** The switch of the loop body, and the arrows between screens *)

(** The arrows of the screen state machine, self-loops included. *)
Definition transition_allowed (from to : AppScreen) : bool :=
  match from, to with
  | SCREEN_AUTH_MENU, (SCREEN_AUTH_MENU | SCREEN_SIGN_IN | SCREEN_SIGN_UP) => true
  | SCREEN_SIGN_IN, (SCREEN_SIGN_IN | SCREEN_ITEM_LIST | SCREEN_AUTH_MENU) => true
  | SCREEN_SIGN_UP, (SCREEN_SIGN_UP | SCREEN_SIGN_IN | SCREEN_AUTH_MENU) => true
  | SCREEN_ITEM_LIST, (SCREEN_ITEM_LIST | SCREEN_ITEM_DETAILS | SCREEN_AUTH_MENU) => true
  | SCREEN_ITEM_DETAILS, (SCREEN_ITEM_DETAILS | SCREEN_ITEM_LIST | SCREEN_PLACE_BID) => true
  | SCREEN_PLACE_BID, (SCREEN_PLACE_BID | SCREEN_ITEM_DETAILS) => true
  | _, _ => false
  end.

(** The [switch (currentScreen)] of the update half of the loop body. *)
Definition dispatch (fr : Frame) (s : State) : option State :=
  match currentScreen s with
  | SCREEN_AUTH_MENU => update_auth_menu fr s
  | SCREEN_SIGN_IN => update_sign_in fr s
  | SCREEN_SIGN_UP => update_sign_up fr s
  | SCREEN_ITEM_LIST => update_item_list fr s
  | SCREEN_ITEM_DETAILS => update_item_details fr s
  | SCREEN_PLACE_BID => update_place_bid fr s
  end.

(** The globals that only a click can change. *)
Definition click_state (s : State) :=
  (items s, itemCount s, selectedItemIndex s, currentScreen s, users s,
   loggedInUsername s, users_file s).

(** ** What a frame may change of the items and the accounts *)

(** What no code path writes after InitAuctionData. *)
Definition item_identity (it : AuctionItem) : list Z * list Z * bool :=
  (name it, description it, auctionClosed it).

(** What a frame adds to the store: nothing, or the one account that a
    click on Register made. *)
Definition account_added (fr : Frame) (s s' : State) : Prop :=
  currentScreen s = SCREEN_SIGN_UP
  /\ clicked fr registerButton = true
  /\ exists u p,
       users s' = users s ++ [mkUser u (HashPassword p)]
       /\ 3 <= strlen u < MAX_NAME_LENGTH
       /\ 5 <= strlen p
       /\ UsernameExists s u = false
       /\ userCount s < MAX_USERS
       /\ users_file s' = (if usersFileWritable fr
                           then Some (print_users (users s'))
                           else users_file s).

(** No two accounts carry the same username (as strcmp compares them). *)
Definition unique_names (us : list User) : Prop :=
  NoDup (map (fun u => strz (username u)) us).

(** The three screens that follow a sign-in. *)
Definition signed_in (s : State) : Prop :=
  currentScreen s = SCREEN_ITEM_LIST
  \/ currentScreen s = SCREEN_ITEM_DETAILS
  \/ currentScreen s = SCREEN_PLACE_BID.

(** ** Outcomes of the clicks on SignIn, SignUp and the item list *)

(** An input box that holds the empty string and is not focused. *)
Definition cleared (b : InputBox) : Prop :=
  cstr (text b) = Some [] /\ letterCount b = 0 /\ active b = false.

(** The Register click adds an account: the lengths, the confirmation, the
    name and the capacity all pass. *)
Definition signup_accepts (s : State) (u p c : list Z) : bool :=
  negb (strlen u <? 3) && negb (strlen p <? 5) && streq p c
  && negb (UsernameExists s u) && (userCount s <? MAX_USERS).

(** The message the frame of a Register click ends with. *)
Definition signup_message (s : State) (writable : bool) (u p c : list Z)
  : UIMessage :=
  if (strlen u <? 3) || (strlen p <? 5) then MSG_TOO_SHORT
  else if negb (streq p c) then MsgText "Passwords do not match!"
  else if UsernameExists s u then MsgText "Username already taken."
  else if (userCount s <? MAX_USERS) && writable
       then MsgText "Registration successful! Please sign in."
       else MsgText "Registration failed. Try again.".

(** The SignUp screen with all three boxes filled in for bob. *)
Definition at_sign_up_bob : State :=
  Eval vm_compute in
    state_of (run_from_start (firstn 7 (sign_up_and_in "bob" "12345"))).

(** A click on Register while the users file cannot be opened. *)
Definition click_register_readonly : Frame :=
  mkFrame frame_dt (mkVector2 (inject_Z 400) (inject_Z 420)) true [] false false
    false.

(** Signed in as bob, on the item list. *)
Definition at_item_list : State :=
  Eval vm_compute in state_of (run_from_start (sign_up_and_in "bob" "12345")).

(** ** Messages, and sessions that show them *)

(** The fixed texts a frame can leave on the message line. *)
Definition frame_texts : list string :=
  [ ""; "Enter your credentials."; "Choose a username and password.";
    "Login failed. Check username/password.";
    "Username (min 3 chars) / Password (min 5 chars) too short.";
    "Passwords do not match!"; "Username already taken.";
    "Registration successful! Please sign in.";
    "Registration failed. Try again."; "Logged out successfully.";
    "Enter your bid and name."; "Please enter your name to bid.";
    "Bid amount too large!" ]%string.

Definition frame_message (m : UIMessage) : bool :=
  match m with
  | MsgText t => existsb (String.eqb t) frame_texts
  | _ => true
  end.

(** A frame in which [seconds] seconds pass and nothing is pressed. *)
Definition idle_for (seconds : Z) : Frame :=
  mkFrame (f32_of_Z seconds) (mkVector2 0 0) false [] false false true.

(** The SignUp screen, five seconds after it was opened. *)
Definition at_sign_up_later : State :=
  Eval vm_compute in
    state_of (run_from_start [click_at 400 350; idle_for 5]).

(** A users file with MAX_USERS accounts. *)
Definition full_users_file : list Z :=
  Eval vm_compute in
    print_users
      (map (fun n => mkUser (str "user" ++ [48 + n]) (HashPassword [48 + n]))
         [0; 1; 2; 3; 4; 5; 6; 7; 8; 9]).

(** Started on that file: the state after a Register click for one more
    account. *)
Definition at_full_store_register : State :=
  Eval vm_compute in
    state_of (s <- startup (Some full_users_file) ;;
              run (firstn 8 (sign_up_and_in "zed" "12345")) s).

(** ** Forms *)

(** The screens that show input boxes. *)
Definition form_screen (screen : AppScreen) : Prop :=
  screen = SCREEN_SIGN_IN \/ screen = SCREEN_SIGN_UP \/ screen = SCREEN_PLACE_BID.

(** All seven input boxes hold the empty string and none is focused. *)
Definition all_cleared (s : State) : Prop :=
  cleared (bidAmountInput s) /\ cleared (bidderNameInput s)
  /\ cleared (signInUsernameInput s) /\ cleared (signInPasswordInput s)
  /\ cleared (signUpUsernameInput s) /\ cleared (signUpPasswordInput s)
  /\ cleared (signUpConfirmPasswordInput s).

(** ** Users files that LoadUsers reads in part *)

(** [fscanf "%s %u"] does not return 2 on [input]: the file ends, or the
    name is not followed by a number. *)
Definition line_unreadable (input : list Z) : Prop :=
  match scan_s input with
  | None => True
  | Some (tok, rest) =>
      Z.of_nat (List.length tok) < MAX_NAME_LENGTH /\ scan_u rest = None
  end.

(** A users file with eleven accounts, one more than the store holds. *)
Definition eleven_users : list User :=
  Eval vm_compute in
    map (fun n => mkUser (str "user" ++ [97 + n]) (HashPassword [97 + n]))
      [0; 1; 2; 3; 4; 5; 6; 7; 8; 9; 10].

(** ** Typed letters *)

(** The first [letterCount] cells of the text hold typed keys. *)
Definition typed_prefix (b : InputBox) : Prop :=
  forall i : nat,
    Z.of_nat i < letterCount b ->
    exists c, nth_error (text b) i = Some c /\ KEY_MIN <= c <= KEY_MAX.

Definition all_boxes (s : State) : list InputBox :=
  [ bidAmountInput s; bidderNameInput s; signInUsernameInput s;
    signInPasswordInput s; signUpUsernameInput s; signUpPasswordInput s;
    signUpConfirmPasswordInput s ].

(** Every box of the state keeps [typed_prefix]. *)
Definition boxes_typed (s : State) : Prop :=
  typed_prefix (bidAmountInput s) /\ typed_prefix (bidderNameInput s)
  /\ typed_prefix (signInUsernameInput s) /\ typed_prefix (signInPasswordInput s)
  /\ typed_prefix (signUpUsernameInput s) /\ typed_prefix (signUpPasswordInput s)
  /\ typed_prefix (signUpConfirmPasswordInput s).

(** ** The selection and the catalog *)

(** The screens that show no single item. *)
Definition no_item_screen (screen : AppScreen) : bool :=
  match screen with
  | SCREEN_ITEM_DETAILS | SCREEN_PLACE_BID => false
  | _ => true
  end.

(** The items InitAuctionData seeds. *)
Definition seeded_items : list AuctionItem :=
  Eval vm_compute in items (InitAuctionData (globals None)).

(** ** Navigation *)

(** What a navigation click leaves alone. *)
Definition stored (s : State) :=
  (items s, users s, users_file s, loggedInUsername s).

(** The frame is defined and ends on [screen] with the selection [sel]
    and the message [m], the items, accounts and session being kept. *)
Definition goes_to (fr : Frame) (s : State) (screen : AppScreen) (sel : Z)
    (m : string) : Prop :=
  exists s',
    step fr s = Some s'
    /\ currentScreen s' = screen
    /\ selectedItemIndex s' = sel
    /\ uiMessage s' = MsgText m
    /\ stored s' = stored s.

(** * Properties *)

(** ** Strings and arrays *)

Lemma list_eqb_eq : forall a b, list_eqb a b = true <-> a = b.
Proof.
  induction a as [|x a IH]; destruct b as [|y b]; simpl; split; intro H;
    try reflexivity; try discriminate.
  - apply andb_true_iff in H. destruct H as [Hxy Hab].
    apply Z.eqb_eq in Hxy. apply IH in Hab. congruence.
  - injection H as -> ->. rewrite Z.eqb_refl. simpl. now apply IH.
Qed.

Lemma list_eqb_refl : forall a, list_eqb a a = true.
Proof. intro a. now apply list_eqb_eq. Qed.

Lemma streq_refl : forall a, streq a a = true.
Proof. intro a. apply list_eqb_refl. Qed.

Lemma strz_idem : forall s, strz (strz s) = strz s.
Proof.
  induction s as [|c s IH]; simpl; [reflexivity|].
  destruct (c =? 0) eqn:E; simpl; [reflexivity|]. now rewrite E, IH.
Qed.

Lemma strz_length : forall s, (List.length (strz s) <= List.length s)%nat.
Proof.
  induction s as [|c s IH]; simpl; [lia|]. destruct (c =? 0); simpl; lia.
Qed.

Lemma cstr_strz : forall buf s, cstr buf = Some s -> s = strz buf.
Proof.
  induction buf as [|c buf IH]; simpl; intros s H; [discriminate|].
  destruct (c =? 0); [congruence|].
  destruct (cstr buf) as [t|]; simpl in H; [|discriminate].
  injection H as <-. f_equal. now apply IH.
Qed.

(** ** HashPassword *)

Lemma hash_step : forall hash c,
  uint_add (uint_add (uint_shl hash 5) hash) (to_uint c)
  = (hash * 33 + c) mod 2 ^ 32.
Proof.
  intros hash c. unfold uint_add, uint_shl, to_uint, UINT_MOD.
  rewrite Z.shiftl_mul_pow2 by lia.
  rewrite <- Z.add_mod by lia.
  rewrite <- Z.add_assoc, Z.add_mod_idemp_l by lia.
  f_equal. lia.
Qed.

Lemma HashPassword_loop_spec : forall password hash,
  HashPassword_loop hash password = rolling_hash_spec hash (strz password).
Proof.
  induction password as [|c rest IH]; intro hash; simpl; [reflexivity|].
  destruct (c =? 0); [reflexivity|].
  rewrite IH, hash_step. reflexivity.
Qed.

(** C5. HashPassword is a function of the string it is given (equal strings
    hash equally), and its value is the rolling hash that starts from the
    seed 5381 and folds in each character [c], in order, as
    [hash * 33 + c] in 32-bit unsigned arithmetic. *)
Theorem C5_HashPassword_rolling_hash : forall p : list Z,
  HashPassword p = rolling_hash_spec 5381 (strz p)
  /\ (forall q : list Z, strz q = strz p -> HashPassword q = HashPassword p).
Proof.
  intro p. split.
  - apply HashPassword_loop_spec.
  - intros q Hq. unfold HashPassword.
    now rewrite !HashPassword_loop_spec, Hq.
Qed.

Lemma C5_HashPassword_witness :
  HashPassword (str "password1")
  = rolling_hash_spec 5381 (strz (str "password1"))
  /\ (strz [112; 119; 0; 120] = strz (str "pw") ->
      HashPassword [112; 119; 0; 120] = HashPassword (str "pw")).
Proof.
  split.
  - apply (proj1 (C5_HashPassword_rolling_hash (str "password1"))).
  - apply (proj2 (C5_HashPassword_rolling_hash (str "pw"))).
Defined.

Lemma HashPassword_range : forall p, 0 <= HashPassword p < UINT_MOD.
Proof.
  intro p. unfold HashPassword.
  assert (G : forall q h, 0 <= h < UINT_MOD ->
                          0 <= HashPassword_loop h q < UINT_MOD).
  { induction q as [|c q IH]; intros h Hh; simpl; [exact Hh|].
    destruct (c =? 0); [exact Hh|]. apply IH.
    unfold uint_add, to_uint. apply Z.mod_pos_bound. reflexivity. }
  apply G. unfold UINT_MOD. lia.
Qed.

(** ** Input boxes keep their bounds *)

Lemma array_set_spec : forall a i v,
  (i < List.length a)%nat ->
  exists a', array_set a i v = Some a'
             /\ List.length a' = List.length a
             /\ nth_error a' i = Some v
             /\ (forall j, j <> i -> nth_error a' j = nth_error a j).
Proof.
  induction a as [|x a IH]; intros i v Hi; simpl in Hi; [lia|].
  destruct i as [|i]; simpl.
  - exists (v :: a). repeat split; try reflexivity.
    intros [|j] Hj; [congruence | reflexivity].
  - destruct (IH i v ltac:(lia)) as (a' & E & L & N & O).
    rewrite E. simpl. exists (x :: a'). repeat split; simpl; try congruence.
    intros [|j] Hj; [reflexivity|]. apply O. congruence.
Qed.

Lemma array_set_int_spec : forall a i v,
  0 <= i < Z.of_nat (List.length a) ->
  exists a', array_set_int a i v = Some a'
             /\ List.length a' = List.length a
             /\ nth_error a' (Z.to_nat i) = Some v
             /\ (forall j, j <> Z.to_nat i -> nth_error a' j = nth_error a j).
Proof.
  intros a i v Hi. unfold array_set_int.
  destruct (i <? 0) eqn:E; [apply Z.ltb_lt in E; lia|].
  apply array_set_spec. lia.
Qed.

Lemma cstr_defined : forall n buf,
  nth_error buf n = Some 0 ->
  exists s, cstr buf = Some s /\ (List.length s <= n)%nat.
Proof.
  induction n as [|n IH]; intros [|c buf] H; simpl in H; try discriminate.
  - injection H as ->. simpl. exists []. split; [reflexivity | simpl; lia].
  - simpl. destruct (c =? 0).
    + exists []. split; [reflexivity | simpl; lia].
    + destruct (IH buf H) as (s & E & L). rewrite E. simpl.
      exists (c :: s). split; [reflexivity | simpl; lia].
Qed.

Lemma cstr_nonzero : forall buf s, cstr buf = Some s -> strz s = s.
Proof.
  intros buf s H. rewrite (cstr_strz buf s H). apply strz_idem.
Qed.

Lemma box_wf_cstr : forall b,
  box_wf b ->
  exists s, cstr (text b) = Some s /\ 0 <= strlen s <= MAX_INPUT_CHARS.
Proof.
  intros b (_ & _ & H). destruct (cstr_defined _ _ H) as (s & E & L).
  exists s. split; [exact E|]. unfold strlen, MAX_INPUT_CHARS.
  rewrite (cstr_nonzero _ _ E). lia.
Qed.

Lemma box_wf_intro : forall r t c a col p,
  List.length t = 21%nat -> 0 <= c <= 20 -> nth_error t 20 = Some 0 ->
  box_wf (mkInputBox r t c a col p).
Proof. intros. repeat split; assumption || (unfold MAX_INPUT_CHARS; simpl; lia). Qed.

Lemma box_wf_elim : forall b,
  box_wf b ->
  List.length (text b) = 21%nat /\ 0 <= letterCount b <= 20
  /\ nth_error (text b) 20 = Some 0.
Proof. intros b H. exact H. Qed.

Lemma type_chars_wf : forall queue b,
  box_wf b ->
  exists b' q', type_chars b queue = Some (b', q')
                /\ box_wf b' /\ rect b' = rect b /\ active b' = active b.
Proof.
  induction queue as [|key rest IH]; intros b Hb; simpl.
  - exists b, []. auto.
  - destruct (0 <? key); [|exists b, rest; auto].
    destruct ((KEY_MIN <=? key) && (key <=? KEY_MAX)
              && (letterCount b <? MAX_INPUT_CHARS)) eqn:E; [|apply IH, Hb].
    apply andb_true_iff in E. destruct E as [_ E]. apply Z.ltb_lt in E.
    apply box_wf_elim in Hb. destruct Hb as (L & C & N).
    unfold MAX_INPUT_CHARS in E.
    destruct (array_set_int_spec (text b) (letterCount b) key ltac:(lia))
      as (a' & Ea & La & _ & Oa).
    rewrite Ea. simpl.
    match goal with |- context [type_chars ?B rest] =>
      destruct (IH B) as (b' & q' & E' & W' & R' & A') end.
    { apply box_wf_intro; [lia | lia | rewrite Oa; [exact N | lia]]. }
    exists b', q'. auto.
Qed.

Lemma UpdateInputBox_wf : forall fr queue b,
  box_wf b ->
  exists b' q', UpdateInputBox fr queue b = Some (b', q')
                /\ box_wf b' /\ rect b' = rect b.
Proof.
  intros fr queue b Hb. unfold UpdateInputBox.
  set (b0 := if mousePressed fr then _ else b).
  assert (H0 : box_wf b0 /\ rect b0 = rect b).
  { subst b0. destruct (mousePressed fr); [|auto].
    destruct (CheckCollisionPointRec _ _); split; auto; exact Hb. }
  destruct H0 as [W0 R0]. clearbody b0.
  destruct (active b0); [|exists b0, queue; auto].
  destruct (type_chars_wf queue b0 W0) as (b1 & q1 & E1 & W1 & R1 & _).
  rewrite E1. simpl.
  destruct (backspacePressed fr && (0 <? letterCount b1)) eqn:E.
  - apply andb_true_iff in E. destruct E as [_ E]. apply Z.ltb_lt in E.
    apply box_wf_elim in W1. destruct W1 as (L & C & N).
    destruct (array_set_int_spec (text b1) (letterCount b1 - 1) 0 ltac:(lia))
      as (a' & Ea & La & _ & Oa).
    rewrite Ea. simpl.
    assert (N' : nth_error a' 20 = Some 0) by (rewrite Oa; [exact N | lia]).
    eexists _, q1. split; [reflexivity|].
    destruct (enterPressed fr); simpl;
      (split; [apply box_wf_intro; [lia | lia | exact N'] | congruence]).
  - simpl. eexists _, q1. split; [reflexivity|].
    destruct (enterPressed fr); simpl; (split; [exact W1 | congruence]).
Qed.

Lemma ResetInputBox_wf : forall b,
  box_wf b ->
  exists b', ResetInputBox b = Some b' /\ box_wf b' /\ rect b' = rect b
             /\ letterCount b' = 0 /\ active b' = false.
Proof.
  intros b Hb. apply box_wf_elim in Hb. destruct Hb as (L & C & N).
  unfold ResetInputBox.
  destruct (array_set_int_spec (text b) 0 0 ltac:(lia))
    as (a' & Ea & La & _ & Oa).
  rewrite Ea. simpl. eexists. split; [reflexivity|].
  split; [|auto].
  apply box_wf_intro; [lia | lia | rewrite Oa; [exact N | simpl; lia]].
Qed.

(** ** The invariant of the frame loop *)

Lemma core_fields : forall s s',
  core s' = core s ->
  items s' = items s /\ itemCount s' = itemCount s
  /\ selectedItemIndex s' = selectedItemIndex s
  /\ currentScreen s' = currentScreen s /\ users s' = users s
  /\ loggedInUsername s' = loggedInUsername s
  /\ uiMessage s' = uiMessage s /\ uiMessageTimer s' = uiMessageTimer s
  /\ users_file s' = users_file s.
Proof. unfold core. intros s s' H. injection H. intros. repeat split; assumption. Qed.

Lemma box_ok_reset : forall r b,
  box_ok r b -> exists b', ResetInputBox b = Some b' /\ box_ok r b'.
Proof.
  intros r b [W R]. destruct (ResetInputBox_wf b W) as (b' & E & W' & R' & _).
  exists b'. split; [exact E|]. split; [exact W' | congruence].
Qed.

Lemma ResetInputBoxes_wf : forall s,
  boxes_wf s ->
  exists s', ResetInputBoxes s = Some s' /\ boxes_wf s' /\ core s' = core s.
Proof.
  intros s (H1 & H2 & H3 & H4 & H5 & H6 & H7). unfold ResetInputBoxes.
  destruct (box_ok_reset _ _ H1) as (b1 & E1 & K1).
  destruct (box_ok_reset _ _ H2) as (b2 & E2 & K2).
  destruct (box_ok_reset _ _ H3) as (b3 & E3 & K3).
  destruct (box_ok_reset _ _ H4) as (b4 & E4 & K4).
  destruct (box_ok_reset _ _ H5) as (b5 & E5 & K5).
  destruct (box_ok_reset _ _ H6) as (b6 & E6 & K6).
  destruct (box_ok_reset _ _ H7) as (b7 & E7 & K7).
  rewrite E1, E2, E3, E4, E5, E6, E7. simpl.
  eexists. split; [reflexivity|]. split; [|reflexivity].
  repeat split; simpl; first [apply K1 | apply K2 | apply K3 | apply K4
                             | apply K5 | apply K6 | apply K7].
Qed.

Lemma box_ok_update : forall fr queue r b,
  box_ok r b ->
  exists b' q', UpdateInputBox fr queue b = Some (b', q') /\ box_ok r b'.
Proof.
  intros fr queue r b [W R].
  destruct (UpdateInputBox_wf fr queue b W) as (b' & q' & E & W' & R').
  exists b', q'. split; [exact E|]. split; [exact W' | congruence].
Qed.

Lemma box_ok_cstr : forall r b,
  box_ok r b ->
  exists s, cstr (text b) = Some s /\ 0 <= strlen s <= MAX_INPUT_CHARS.
Proof. intros r b [W _]. now apply box_wf_cstr. Qed.

Lemma strcpy_into_fits : forall cap s,
  strlen s < cap -> strcpy_into cap s = Some (strz s).
Proof.
  intros cap s H. unfold strcpy_into.
  destruct (strlen s <? cap) eqn:E; [reflexivity|].
  apply Z.ltb_ge in E. lia.
Qed.

(** ** The loop body keeps the invariant, and is defined unless a message
       overflows [uiMessage] *)

Lemma safe_ret : forall (A : Type) (P : A -> Prop) a, P a -> safe P (Some a).
Proof. intros A P a H. exists a. auto. Qed.

Lemma safe_bind : forall (A B : Type) (P : A -> Prop) (Q : B -> Prop) m f,
  safe P m -> (forall a, P a -> safe Q (f a)) -> safe Q (bind m f).
Proof. intros A B P Q m f (a & -> & Ha) Hf. simpl. now apply Hf. Qed.

Lemma safe_kept : forall (A : Type) (P : A -> Prop) o, safe P o -> kept P o.
Proof. intros A P o (a & -> & Ha) b E. now injection E as <-. Qed.

Lemma kept_ret : forall (A : Type) (P : A -> Prop) a, P a -> kept P (Some a).
Proof. intros A P a H b E. now injection E as <-. Qed.

Lemma kept_bind : forall (A B : Type) (P : A -> Prop) (Q : B -> Prop) m f,
  kept P m -> (forall a, P a -> kept Q (f a)) -> kept Q (bind m f).
Proof.
  intros A B P Q m f Hm Hf b E. destruct m as [a|]; [|discriminate].
  exact (Hf a (Hm a eq_refl) b E).
Qed.

(** SetUIMessage on a text that fits, and what a defined call gives. *)
Lemma SetUIMessage_fits : forall m s,
  message_length m < UI_MESSAGE_SIZE ->
  SetUIMessage m s = Some (with_message m s).
Proof.
  intros m s H. unfold SetUIMessage.
  destruct (message_length m <? UI_MESSAGE_SIZE) eqn:E; [reflexivity|].
  apply Z.ltb_ge in E. lia.
Qed.

Lemma SetUIMessage_inv : forall m s s',
  SetUIMessage m s = Some s' ->
  s' = with_message m s /\ message_length m < UI_MESSAGE_SIZE.
Proof.
  intros m s s' H. unfold SetUIMessage in H.
  destruct (message_length m <? UI_MESSAGE_SIZE) eqn:E; [|discriminate].
  apply Z.ltb_lt in E. injection H as <-. auto.
Qed.

Lemma SetUIMessage_long : forall m s,
  UI_MESSAGE_SIZE <= message_length m -> SetUIMessage m s = None.
Proof.
  intros m s H. unfold SetUIMessage.
  destruct (message_length m <? UI_MESSAGE_SIZE) eqn:E; [|reflexivity].
  apply Z.ltb_lt in E. lia.
Qed.

Lemma SetUIMessage_safe : forall (P : State -> Prop) m s,
  message_length m < UI_MESSAGE_SIZE ->
  P (with_message m s) -> safe P (SetUIMessage m s).
Proof.
  intros P m s L H. rewrite (SetUIMessage_fits m s L). now apply safe_ret.
Qed.

Lemma SetUIMessage_kept : forall (P : State -> Prop) m s,
  P (with_message m s) -> kept P (SetUIMessage m s).
Proof.
  intros P m s H a E. apply SetUIMessage_inv in E. destruct E as [-> _].
  exact H.
Qed.

Lemma count_digits_bound : forall fuel n,
  0 <= count_digits fuel n <= Z.of_nat fuel.
Proof.
  induction fuel as [|f IH]; intro n; cbn [count_digits]; [lia|].
  destruct (n <? 10); [lia|]. specialize (IH (n / 10)). lia.
Qed.

(** ["%.2f"] writes at least 3 and at most 44 characters for a float. *)
Lemma fmt_2f_width_bound : forall x, 3 <= fmt_2f_width x <= 44.
Proof.
  intros [|neg|neg m e]; cbn [fmt_2f_width].
  - lia.
  - destruct neg; lia.
  - match goal with
    | |- context [count_digits 40 ?n] =>
        pose proof (count_digits_bound 40 n) as B
    end.
    destruct neg; lia.
Qed.

(** The message of an accepted bid fits when the name comes from an input
    box. *)
Lemma bid_placed_fits : forall x bidder,
  strlen bidder <= MAX_INPUT_CHARS ->
  message_length (MsgBidPlaced x bidder) < UI_MESSAGE_SIZE.
Proof.
  intros x bidder H. cbn [message_length].
  pose proof (fmt_2f_width_bound x) as B.
  change (text_length "Bid of $") with 8.
  change (text_length " placed successfully by ") with 24.
  change (text_length "!") with 1.
  unfold UI_MESSAGE_SIZE, MAX_INPUT_CHARS in *. lia.
Qed.

(** The literal messages of the program fit [uiMessage]. *)
Ltac literal_fits := vm_compute; reflexivity.

(** Replaces the calls of SetUIMessage on a literal by their result. *)
Ltac set_literals :=
  repeat match goal with
         | |- context [SetUIMessage (MsgText ?t) ?s] =>
             rewrite (SetUIMessage_fits (MsgText t) s) by literal_fits
         end.

Ltac set_literals_in H :=
  repeat match type of H with
         | context [SetUIMessage (MsgText ?t) ?s] =>
             rewrite (SetUIMessage_fits (MsgText t) s) in H by literal_fits
         end.

Lemma state_wf_core : forall s s',
  boxes_wf s' -> core s' = core s -> state_wf s -> state_wf s'.
Proof.
  intros s s' B K (_ & I & C & U & S). apply core_fields in K.
  destruct K as (Ki & Kc & Ks & Kscr & Ku & _).
  unfold state_wf, userCount in *. rewrite Ki, Kc, Ks, Kscr, Ku. auto.
Qed.

Lemma ResetInputBoxes_safe : forall s,
  state_wf s -> safe state_wf (ResetInputBoxes s).
Proof.
  intros s H. destruct (ResetInputBoxes_wf s (proj1 H)) as (s' & E & W & K).
  exists s'. split; [exact E|]. now apply (state_wf_core s).
Qed.

Lemma state_wf_with_message : forall m s,
  state_wf s -> state_wf (with_message m s).
Proof. intros m s H. exact H. Qed.

Lemma state_wf_set_currentScreen : forall scr s,
  state_wf s -> sel_ok scr (selectedItemIndex s) (itemCount s) ->
  state_wf (set_currentScreen scr s).
Proof.
  intros scr s (B & I & C & U & S) H. repeat split; try assumption; apply B.
Qed.

Lemma state_wf_select : forall scr i s,
  state_wf s -> sel_ok scr i (itemCount s) ->
  state_wf (set_currentScreen scr (set_selectedItemIndex i s)).
Proof.
  intros scr i s (B & I & C & U & S) H. repeat split; try assumption; apply B.
Qed.

Lemma state_wf_set_loggedInUsername : forall v s,
  state_wf s -> state_wf (set_loggedInUsername v s).
Proof. intros v s H. exact H. Qed.

Lemma state_wf_set_bidInputs : forall b1 b2 s,
  state_wf s ->
  box_ok (rectangle (screenWidth / 2 - 100) 300 200 40) b1 ->
  box_ok (rectangle (screenWidth / 2 - 100) 380 200 40) b2 ->
  state_wf (set_bidInputs b1 b2 s).
Proof.
  intros b1 b2 s (B & I & C & U & S) H1 H2.
  repeat split; try assumption; simpl; try apply H1; try apply H2; apply B.
Qed.

Lemma state_wf_set_signInInputs : forall b1 b2 s,
  state_wf s ->
  box_ok (rectangle (screenWidth / 2 - 120) 250 240 40) b1 ->
  box_ok (rectangle (screenWidth / 2 - 120) 320 240 40) b2 ->
  state_wf (set_signInInputs b1 b2 s).
Proof.
  intros b1 b2 s (B & I & C & U & S) H1 H2.
  repeat split; try assumption; simpl; try apply H1; try apply H2; apply B.
Qed.

Lemma state_wf_set_signUpInputs : forall b1 b2 b3 s,
  state_wf s ->
  box_ok (rectangle (screenWidth / 2 - 120) 200 240 40) b1 ->
  box_ok (rectangle (screenWidth / 2 - 120) 270 240 40) b2 ->
  box_ok (rectangle (screenWidth / 2 - 120) 340 240 40) b3 ->
  state_wf (set_signUpInputs b1 b2 b3 s).
Proof.
  intros b1 b2 b3 s (B & I & C & U & S) H1 H2 H3.
  repeat split; try assumption; simpl;
    try apply H1; try apply H2; try apply H3; apply B.
Qed.

Lemma update_timer_wf : forall fr s, state_wf s -> state_wf (update_timer fr s).
Proof.
  intros fr s H. unfold update_timer.
  destruct (f32_gt _ _); [|exact H].
  destruct (f32_le _ _); exact H.
Qed.

Lemma update_timer_core : forall fr s,
  items (update_timer fr s) = items s
  /\ itemCount (update_timer fr s) = itemCount s
  /\ selectedItemIndex (update_timer fr s) = selectedItemIndex s
  /\ currentScreen (update_timer fr s) = currentScreen s
  /\ users (update_timer fr s) = users s
  /\ users_file (update_timer fr s) = users_file s.
Proof.
  intros fr s. unfold update_timer.
  destruct (f32_gt _ _); [|auto 10].
  destruct (f32_le _ _); auto 10.
Qed.

Lemma box_cstr_safe : forall r b,
  box_ok r b -> safe (fun u => 0 <= strlen u <= MAX_INPUT_CHARS) (cstr (text b)).
Proof. intros r b H. exact (box_ok_cstr r b H). Qed.

Lemma update_box_safe : forall fr queue r b,
  box_ok r b -> safe (fun p => box_ok r (fst p)) (UpdateInputBox fr queue b).
Proof.
  intros fr queue r b H.
  destruct (box_ok_update fr queue r b H) as (b' & q' & E & K).
  exists (b', q'). auto.
Qed.

Lemma update_auth_menu_wf : forall fr s,
  state_wf s -> safe state_wf (update_auth_menu fr s).
Proof.
  intros fr s H. unfold update_auth_menu.
  apply safe_bind with (P := state_wf).
  - destruct (clicked fr signInButton); [|now apply safe_ret].
    apply safe_bind with (P := state_wf).
    + apply ResetInputBoxes_safe. now apply state_wf_set_currentScreen.
    + intros a Ha. now apply SetUIMessage_safe; [literal_fits|].
  - clear s H. intros s H.
    destruct (clicked fr signUpButton); [|now apply safe_ret].
    apply safe_bind with (P := state_wf).
    + apply ResetInputBoxes_safe. now apply state_wf_set_currentScreen.
    + intros a Ha. now apply SetUIMessage_safe; [literal_fits|].
Qed.

Lemma back_to_menu_wf : forall (b : bool) s,
  state_wf s ->
  safe state_wf
    (if b then
       s <- ResetInputBoxes (set_currentScreen SCREEN_AUTH_MENU s) ;;
       SetUIMessage (MsgText "") s
     else Some s).
Proof.
  intros b s H. destruct b; [|now apply safe_ret].
  apply safe_bind with (P := state_wf).
  - apply ResetInputBoxes_safe. now apply state_wf_set_currentScreen.
  - intros a Ha. now apply SetUIMessage_safe; [literal_fits|].
Qed.

Lemma strlen_strz : forall u, strlen (strz u) = strlen u.
Proof. intro u. unfold strlen. now rewrite strz_idem. Qed.

(** The welcome of a username typed into an input box fits. *)
Lemma welcome_fits : forall u,
  0 <= strlen u <= MAX_INPUT_CHARS ->
  message_length (MsgWelcome (strz u)) < UI_MESSAGE_SIZE.
Proof.
  intros u H. cbn [message_length]. rewrite strlen_strz.
  change (text_length "Welcome, ") with 9. change (text_length "!") with 1.
  unfold UI_MESSAGE_SIZE, MAX_INPUT_CHARS in *. lia.
Qed.

Lemma update_sign_in_wf : forall fr s,
  state_wf s -> safe state_wf (update_sign_in fr s).
Proof.
  intros fr s H. unfold update_sign_in.
  destruct (proj1 H) as (_ & _ & B3 & B4 & _).
  eapply safe_bind; [apply update_box_safe, B3|]. intros [b1 q1] K1.
  eapply safe_bind; [apply update_box_safe, B4|]. intros [b2 q2] K2.
  simpl in K1, K2.
  assert (H' := state_wf_set_signInInputs b1 b2 s H K1 K2).
  set (s1 := set_signInInputs b1 b2 s) in *.
  apply safe_bind with (P := state_wf); [|intros; now apply back_to_menu_wf].
  destruct (clicked fr loginButton); [|now apply safe_ret].
  eapply safe_bind; [apply (box_cstr_safe _ b1 K1)|]. intros uname Hu.
  eapply safe_bind; [apply (box_cstr_safe _ b2 K2)|]. intros password Hp.
  destruct (AuthenticateUser s1 uname password).
  - rewrite strcpy_into_fits
      by (unfold MAX_NAME_LENGTH, MAX_INPUT_CHARS in *; lia).
    cbn [bind]. apply safe_bind with (P := state_wf).
    + apply SetUIMessage_safe.
      * cbn [loggedInUsername set_currentScreen set_loggedInUsername].
        apply (welcome_fits uname). exact Hu.
      * apply state_wf_with_message, state_wf_set_currentScreen; [|exact I].
        now apply state_wf_set_loggedInUsername.
    + intros a Ha. now apply ResetInputBoxes_safe.
  - now apply SetUIMessage_safe; [literal_fits|].
Qed.

Lemma SaveUsers_wf : forall w s, state_wf s -> state_wf (snd (SaveUsers w s)).
Proof. intros w s H. unfold SaveUsers. destruct w; exact H. Qed.

Lemma RegisterUser_wf : forall uname password w s,
  state_wf s -> strlen uname < MAX_NAME_LENGTH ->
  safe (fun p => state_wf (snd p)) (RegisterUser uname password w s).
Proof.
  intros uname password w s H L. unfold RegisterUser.
  destruct (MAX_USERS <=? userCount s) eqn:E;
    [set_literals; apply safe_ret; exact H|].
  destruct (UsernameExists s uname); [set_literals; apply safe_ret; exact H|].
  rewrite (strcpy_into_fits _ _ L). simpl. apply safe_ret.
  apply SaveUsers_wf. apply Z.leb_gt in E.
  destruct H as (B & I & C & U & S).
  repeat split; try assumption; try apply B.
  unfold userCount in *. simpl. rewrite length_app. simpl. lia.
Qed.

Lemma register_click_wf : forall fr s,
  state_wf s -> safe state_wf (register_click fr s).
Proof.
  intros fr s H. unfold register_click.
  destruct (proj1 H) as (_ & _ & _ & _ & B5 & B6 & B7).
  eapply safe_bind; [apply (box_cstr_safe _ _ B5)|]. intros uname Hu.
  destruct (strlen uname <? 3); [set_literals; apply safe_ret; exact H|].
  eapply safe_bind; [apply (box_cstr_safe _ _ B6)|]. intros password Hp.
  destruct (strlen password <? 5); [set_literals; apply safe_ret; exact H|].
  eapply safe_bind; [apply (box_cstr_safe _ _ B7)|]. intros confirm Hc.
  destruct (negb (streq password confirm));
    [set_literals; apply safe_ret; exact H|].
  destruct (UsernameExists s uname); [set_literals; apply safe_ret; exact H|].
  eapply safe_bind.
  - apply RegisterUser_wf; [exact H|].
    unfold MAX_NAME_LENGTH, MAX_INPUT_CHARS in *. lia.
  - intros [ok s'] H'. simpl in H'. set_literals. destruct ok.
    + cbn [bind]. apply ResetInputBoxes_safe.
      apply state_wf_set_currentScreen; [|exact I].
      now apply state_wf_with_message.
    + apply safe_ret. now apply state_wf_with_message.
Qed.

Lemma update_sign_up_wf : forall fr s,
  state_wf s -> safe state_wf (update_sign_up fr s).
Proof.
  intros fr s H. unfold update_sign_up.
  destruct (proj1 H) as (_ & _ & _ & _ & B5 & B6 & B7).
  eapply safe_bind; [apply update_box_safe, B5|]. intros [b1 q1] K1.
  eapply safe_bind; [apply update_box_safe, B6|]. intros [b2 q2] K2.
  eapply safe_bind; [apply update_box_safe, B7|]. intros [b3 q3] K3.
  simpl in K1, K2, K3.
  assert (H' := state_wf_set_signUpInputs b1 b2 b3 s H K1 K2 K3).
  apply safe_bind with (P := state_wf); [|intros; now apply back_to_menu_wf].
  destruct (clicked fr registerButton); [|now apply safe_ret].
  now apply register_click_wf.
Qed.

Lemma item_list_loop_wf : forall fr fuel i s,
  state_wf s -> 0 <= i -> i + Z.of_nat fuel <= itemCount s ->
  sel_ok (currentScreen s) (selectedItemIndex s) (itemCount s) ->
  safe state_wf (item_list_loop fr fuel i s).
Proof.
  induction fuel as [|k IH]; intros i s H Hi Hk S; cbn [item_list_loop];
    [now apply safe_ret|].
  destruct (CheckCollisionPointRec _ _).
  - apply SetUIMessage_safe; [literal_fits|].
    apply state_wf_with_message, state_wf_select; [exact H|]. simpl. lia.
  - apply IH; try assumption; lia.
Qed.

Lemma update_item_list_wf : forall fr s,
  state_wf s -> safe state_wf (update_item_list fr s).
Proof.
  intros fr s H. unfold update_item_list.
  apply safe_bind with (P := state_wf).
  - destruct (mousePressed fr); [|now apply safe_ret].
    apply item_list_loop_wf; try exact H; try lia.
    + destruct H as (_ & _ & C & _). rewrite C. simpl. lia.
    + apply H.
  - intros s1 H1.
    destruct (clicked fr logoutButtonRect); [|now apply safe_ret].
    apply SetUIMessage_safe; [literal_fits|].
    apply state_wf_with_message, state_wf_set_currentScreen; [|exact I].
    now apply state_wf_set_loggedInUsername.
Qed.

Lemma item_at_defined : forall s i,
  List.length (items s) = 5%nat -> 0 <= i < 5 ->
  exists it, item_at s i = Some it.
Proof.
  intros s i L Hi. unfold item_at.
  destruct (i <? 0) eqn:E; [apply Z.ltb_lt in E; lia|].
  destruct (nth_error (items s) (Z.to_nat i)) as [it|] eqn:N; [now exists it|].
  apply nth_error_None in N. lia.
Qed.

Lemma update_item_details_wf : forall fr s,
  state_wf s -> currentScreen s = SCREEN_ITEM_DETAILS ->
  safe state_wf (update_item_details fr s).
Proof.
  intros fr s H Scr. unfold update_item_details.
  apply safe_bind
    with (P := fun s1 => state_wf s1
                         /\ (selectedItemIndex s1 = -1
                             \/ 0 <= selectedItemIndex s1 < 3)).
  { destruct (clicked fr backButtonRect).
    - apply SetUIMessage_safe; [literal_fits|].
      split; [|left; reflexivity].
      destruct H as (B & I & C & U & S).
      repeat split; try assumption; apply B.
    - apply safe_ret. split; [exact H|]. right.
      destruct H as (_ & _ & C & _ & S). rewrite Scr, C in S. exact S. }
  intros s1 [H1 Sel].
  destruct (selectedItemIndex s1 =? -1) eqn:E.
  - simpl. now apply safe_ret.
  - apply Z.eqb_neq in E. destruct Sel as [Sel|Sel]; [contradiction|].
    destruct (item_at_defined s1 (selectedItemIndex s1)) as (it & Ei);
      [apply H1 | lia |].
    rewrite Ei. simpl.
    destruct (negb (auctionClosed it) && clicked fr placeBidButtonRect);
      [|now apply safe_ret].
    apply safe_bind with (P := state_wf).
    + apply ResetInputBoxes_safe. apply state_wf_set_currentScreen; [exact H1|].
      simpl. destruct H1 as (_ & _ & C & _). rewrite C. exact Sel.
    + intros a Ha. now apply SetUIMessage_safe; [literal_fits|].
Qed.

Lemma list_set_spec : forall l i v,
  (i < List.length l)%nat ->
  exists l', list_set l i v = Some l' /\ List.length l' = List.length l.
Proof.
  induction l as [|x l IH]; intros i v Hi; simpl in Hi; [lia|].
  destruct i as [|i]; simpl.
  - exists (v :: l). auto.
  - destruct (IH i v ltac:(lia)) as (l' & E & L). rewrite E. simpl.
    exists (x :: l'). simpl. auto.
Qed.

(** The BID! click may overflow [uiMessage] with its "Bid failed" text:
    it keeps the invariant when it is defined. *)
Lemma bid_click_wf : forall s,
  state_wf s -> currentScreen s = SCREEN_PLACE_BID ->
  kept (fun a => state_wf a /\ bidding a) (bid_click s).
Proof.
  intros s H Scr. unfold bid_click.
  assert (K : state_wf s /\ bidding s) by (split; [exact H | now left]).
  destruct (proj1 H) as (B1 & B2 & _).
  eapply kept_bind; [apply safe_kept, (box_cstr_safe _ _ B1)|]. intros amount Ha.
  eapply kept_bind; [apply safe_kept, (box_cstr_safe _ _ B2)|]. intros bidder Hb.
  destruct (strlen bidder =? 0); [apply SetUIMessage_kept; exact K|].
  assert (Sel : 0 <= selectedItemIndex s < 3).
  { destruct H as (_ & _ & C & _ & S). rewrite Scr, C in S. exact S. }
  destruct (item_at_defined s (selectedItemIndex s)) as (it & Ei);
    [apply H | lia |].
  rewrite Ei. cbn [bind].
  destruct (f32_le _ _); [apply SetUIMessage_kept; exact K|].
  destruct (f32_gt _ _); [apply SetUIMessage_kept; exact K|].
  rewrite strcpy_into_fits
    by (unfold MAX_BIDDER_LENGTH, MAX_INPUT_CHARS in *; lia).
  cbn [bind]. unfold set_item_at.
  destruct (selectedItemIndex s <? 0) eqn:E; [apply Z.ltb_lt in E; lia|].
  destruct H as (B & I & C & U & S).
  destruct (list_set_spec (items s) (Z.to_nat (selectedItemIndex s))
              (mkItem (name it) (description it) (strtof amount) (strz bidder)
                 (auctionClosed it)) ltac:(lia)) as (l' & El & Ll).
  rewrite El. cbn [bind]. apply SetUIMessage_kept. split; [|now right].
  repeat split; try assumption; try apply B; simpl; try lia.
Qed.

Lemma bidding_sel : forall s,
  state_wf s -> bidding s -> 0 <= selectedItemIndex s < itemCount s.
Proof.
  intros s (_ & _ & _ & _ & S) [E|E]; rewrite E in S; exact S.
Qed.

Lemma cancel_wf : forall (b : bool) a,
  state_wf a -> bidding a ->
  safe state_wf
    (if b then
       SetUIMessage (MsgText "") (set_currentScreen SCREEN_ITEM_DETAILS a)
     else Some a).
Proof.
  intros b a Ha Sa. destruct b; [|now apply safe_ret].
  apply SetUIMessage_safe; [literal_fits|].
  apply state_wf_with_message, state_wf_set_currentScreen; [exact Ha|].
  now apply bidding_sel.
Qed.

Lemma update_place_bid_wf : forall fr s,
  state_wf s -> currentScreen s = SCREEN_PLACE_BID ->
  kept state_wf (update_place_bid fr s).
Proof.
  intros fr s H Scr. unfold update_place_bid.
  destruct (proj1 H) as (B1 & B2 & _).
  eapply kept_bind; [apply safe_kept, update_box_safe, B1|]. intros [b1 q1] K1.
  eapply kept_bind; [apply safe_kept, update_box_safe, B2|]. intros [b2 q2] K2.
  simpl in K1, K2.
  assert (H' := state_wf_set_bidInputs b1 b2 s H K1 K2).
  apply kept_bind with (P := fun a => state_wf a /\ bidding a).
  - destruct (clicked fr bidButtonRect).
    + now apply bid_click_wf.
    + apply kept_ret. split; [exact H' | now left].
  - intros a [Ha Sa]. now apply safe_kept, cancel_wf.
Qed.

(** A frame on PlaceBid that is no click on BID! is defined. *)
Lemma update_place_bid_defined : forall fr s,
  state_wf s -> currentScreen s = SCREEN_PLACE_BID ->
  clicked fr bidButtonRect = false ->
  safe state_wf (update_place_bid fr s).
Proof.
  intros fr s H Scr NoBid. unfold update_place_bid.
  destruct (proj1 H) as (B1 & B2 & _).
  eapply safe_bind; [apply update_box_safe, B1|]. intros [b1 q1] K1.
  eapply safe_bind; [apply update_box_safe, B2|]. intros [b2 q2] K2.
  simpl in K1, K2.
  assert (H' := state_wf_set_bidInputs b1 b2 s H K1 K2).
  rewrite NoBid. cbn [bind]. apply cancel_wf; [exact H' | now left].
Qed.

Lemma draw_reads_defined : forall s, state_wf s -> draw_reads s = Some tt.
Proof.
  intros s (_ & L & C & _ & S). unfold draw_reads.
  destruct (currentScreen s); try reflexivity; simpl in S; rewrite C in S.
  - destruct (selectedItemIndex s =? -1); [reflexivity|].
    destruct (item_at_defined s (selectedItemIndex s) L) as (it & E); [lia|].
    now rewrite E.
  - destruct (item_at_defined s (selectedItemIndex s) L) as (it & E); [lia|].
    now rewrite E.
Qed.

(** A frame that is defined keeps the invariant. *)
Lemma step_wf : forall fr s, state_wf s -> kept state_wf (step fr s).
Proof.
  intros fr s H. unfold step.
  assert (H0 := update_timer_wf fr s H).
  set (s0 := update_timer fr s) in *. clearbody s0.
  apply kept_bind with (P := state_wf).
  - destruct (currentScreen s0) eqn:Scr.
    + now apply safe_kept, update_auth_menu_wf.
    + now apply safe_kept, update_sign_in_wf.
    + now apply safe_kept, update_sign_up_wf.
    + now apply safe_kept, update_item_list_wf.
    + now apply safe_kept, update_item_details_wf.
    + now apply update_place_bid_wf.
  - intros a Ha. rewrite (draw_reads_defined a Ha). simpl. now apply kept_ret.
Qed.

(** Every frame is defined on a state that keeps the invariant, unless it
    is a click on BID! on the PlaceBid screen. *)
Lemma step_defined : forall fr s,
  state_wf s ->
  (currentScreen s = SCREEN_PLACE_BID -> clicked fr bidButtonRect = false) ->
  safe state_wf (step fr s).
Proof.
  intros fr s H NoBid. unfold step.
  assert (H0 := update_timer_wf fr s H).
  rewrite <- (proj1 (proj2 (proj2 (proj2 (update_timer_core fr s))))) in NoBid.
  set (s0 := update_timer fr s) in *. clearbody s0.
  apply safe_bind with (P := state_wf).
  - destruct (currentScreen s0) eqn:Scr.
    + now apply update_auth_menu_wf.
    + now apply update_sign_in_wf.
    + now apply update_sign_up_wf.
    + now apply update_item_list_wf.
    + now apply update_item_details_wf.
    + apply update_place_bid_defined; auto.
  - intros a Ha. rewrite (draw_reads_defined a Ha). simpl. now apply safe_ret.
Qed.

Lemma LoadUsers_loop_length : forall slots input acc us,
  LoadUsers_loop slots input acc = Some us ->
  (List.length us <= List.length acc + slots)%nat.
Proof.
  induction slots as [|k IH]; intros input acc us H; simpl in H.
  - injection H as <-. lia.
  - destruct (scan_s input) as [[tok rest]|]; [|injection H as <-; lia].
    destruct (Z.of_nat (List.length tok) <? MAX_NAME_LENGTH); [|discriminate].
    destruct (scan_u rest) as [[[neg v] rest']|]; [|injection H as <-; lia].
    destruct (v <? UINT_MOD); [|discriminate].
    apply IH in H. rewrite length_app in H. simpl in H. lia.
Qed.

Lemma new_box_ok : forall x y w h p, box_ok (rectangle x y w h) (new_box x y w h p).
Proof.
  intros. split; [|reflexivity].
  apply box_wf_intro; reflexivity || (simpl; lia).
Qed.

Lemma LoadUsers_fields : forall s ok s1,
  LoadUsers s = Some (ok, s1) ->
  items s1 = items s /\ itemCount s1 = itemCount s
  /\ selectedItemIndex s1 = selectedItemIndex s
  /\ currentScreen s1 = currentScreen s
  /\ (users s1 = users s \/ userCount s1 <= MAX_USERS).
Proof.
  intros s ok s1 H. unfold LoadUsers in H.
  destruct (users_file s) as [contents|].
  - destruct (LoadUsers_loop (Z.to_nat MAX_USERS) contents []) as [us|] eqn:E;
      [|discriminate].
    cbn [bind] in H. injection H as <- <-.
    apply LoadUsers_loop_length in E.
    repeat split. right. unfold userCount, MAX_USERS in *.
    cbn [users set_users]. simpl in E. lia.
  - injection H as <- <-. repeat split. now left.
Qed.

Lemma startup_wf : forall file s, startup file = Some s -> state_wf s.
Proof.
  intros file s H. unfold startup in H.
  destruct (LoadUsers (InitAuctionData (globals file))) as [[ok s1]|] eqn:E;
    [|discriminate].
  cbn [bind] in H. injection H as <-.
  apply LoadUsers_fields in E. destruct E as (Ei & Ec & Es & Escr & Eu).
  unfold state_wf, boxes_wf, userCount in *.
  cbn [set_signUpInputs set_signInInputs set_bidInputs items itemCount users
       selectedItemIndex currentScreen bidAmountInput bidderNameInput
       signInUsernameInput signInPasswordInput signUpUsernameInput
       signUpPasswordInput signUpConfirmPasswordInput].
  rewrite Ei, Ec, Es, Escr.
  repeat split; try apply new_box_ok; try reflexivity.
  destruct Eu as [Eu|Eu]; [rewrite Eu; simpl; unfold MAX_USERS; lia | exact Eu].
Qed.

Lemma reachable_wf : forall s, reachable s -> state_wf s.
Proof.
  induction 1 as [file s H | fr s s' R IH H].
  - exact (startup_wf file s H).
  - exact (step_wf fr s IH s' H).
Qed.

Lemma run_reachable : forall frames s s',
  reachable s -> run frames s = Some s' -> reachable s'.
Proof.
  induction frames as [|fr rest IH]; intros s s' R H; simpl in H.
  - congruence.
  - destruct (step fr s) as [s1|] eqn:E; simpl in H; [|discriminate].
    apply (IH s1 s'); [|exact H]. exact (reach_step fr s s1 R E).
Qed.

(** From a reachable state every frame leads to a next state, unless it
    is a click on BID! on the PlaceBid screen, whose "Bid failed" text can
    overflow [uiMessage]. *)
Lemma reachable_step_defined : forall fr s,
  reachable s ->
  (currentScreen s = SCREEN_PLACE_BID -> clicked fr bidButtonRect = false) ->
  exists s', step fr s = Some s'.
Proof.
  intros fr s R NoBid.
  destruct (step_defined fr s (reachable_wf s R) NoBid) as (a & E & _).
  now exists a.
Qed.

(** ** Sessions used as concrete inputs *)

Lemma run_from_start_reachable : forall frames s,
  run_from_start frames = Some s -> reachable s.
Proof.
  intros frames s H. unfold run_from_start in H.
  destruct (startup None) as [s0|] eqn:E; [|discriminate].
  cbn [bind] in H. apply (run_reachable frames s0 s); [|exact H].
  exact (reach_start None s0 E).
Qed.

Lemma at_closed_item_reachable : reachable at_closed_item.
Proof.
  apply (run_from_start_reachable
           (sign_up_and_in "bob" "12345" ++ [click_at 100 230])).
  vm_compute. reflexivity.
Qed.

Lemma at_place_bid_reachable : reachable at_place_bid.
Proof.
  apply (run_from_start_reachable
           (sign_up_and_in "bob" "12345" ++ [click_at 100 110; click_at 700 560])).
  vm_compute. reflexivity.
Qed.

Lemma at_sign_up_ab_reachable : reachable at_sign_up_ab.
Proof.
  apply (run_from_start_reachable
           [click_at 400 350; click_at 300 210; type_at 300 210 "ab"]).
  vm_compute. reflexivity.
Qed.

(** ** ItemDetails offers Place Bid for open items only *)

Lemma item_at_update_timer : forall fr s i,
  item_at (update_timer fr s) i = item_at s i.
Proof.
  intros fr s i. unfold item_at.
  destruct (update_timer_core fr s) as (E & _). now rewrite E.
Qed.

Lemma update_item_details_screen : forall fr s s',
  currentScreen s = SCREEN_ITEM_DETAILS ->
  update_item_details fr s = Some s' ->
  currentScreen s' = SCREEN_PLACE_BID ->
  exists it, item_at s (selectedItemIndex s) = Some it
             /\ auctionClosed it = false.
Proof.
  intros fr s s' Scr H Scr'. unfold update_item_details in H.
  set_literals_in H. unfold with_message in H.
  destruct (clicked fr backButtonRect).
  - simpl in H. injection H as <-. discriminate.
  - cbn [bind] in H. destruct (selectedItemIndex s =? -1).
    + simpl in H. injection H as <-. congruence.
    + destruct (item_at s (selectedItemIndex s)) as [it|]; [|discriminate].
      exists it. split; [reflexivity|]. simpl in H.
      destruct (auctionClosed it); [|reflexivity].
      simpl in H. injection H as <-. congruence.
Qed.

Lemma update_item_details_closed : forall fr s it,
  item_at s (selectedItemIndex s) = Some it ->
  auctionClosed it = true ->
  exists s', update_item_details fr s = Some s'
             /\ (s' = s
                 \/ (currentScreen s' = SCREEN_ITEM_LIST
                     /\ selectedItemIndex s' = -1)).
Proof.
  intros fr s it E C. unfold update_item_details. set_literals.
  unfold with_message.
  destruct (clicked fr backButtonRect).
  - simpl. eexists. split; [reflexivity|]. right. split; reflexivity.
  - cbn [bind]. destruct (selectedItemIndex s =? -1).
    + simpl. eexists. split; [reflexivity|]. now left.
    + rewrite E. simpl. rewrite C. simpl. eexists. split; [reflexivity|].
      now left.
Qed.

(** C8. On the ItemDetails screen, a frame never leads to PlaceBid while
    the selected item's auction is closed, whatever the input; and a frame
    that does lead to PlaceBid started from a selected item whose auction
    is open. *)
Theorem C8_place_bid_only_when_open : forall (fr : Frame) (s : State),
  currentScreen s = SCREEN_ITEM_DETAILS ->
  (forall it, item_at s (selectedItemIndex s) = Some it ->
              auctionClosed it = true ->
              exists s', step fr s = Some s'
                         /\ currentScreen s' <> SCREEN_PLACE_BID)
  /\ (forall s', step fr s = Some s' ->
                 currentScreen s' = SCREEN_PLACE_BID ->
                 exists it, item_at s (selectedItemIndex s) = Some it
                            /\ auctionClosed it = false).
Proof.
  intros fr s Scr.
  destruct (update_timer_core fr s) as (Ei & _ & Es & Escr & _).
  assert (Eat : forall i, item_at (update_timer fr s) i = item_at s i)
    by (intro i; apply item_at_update_timer).
  unfold step. rewrite Escr, Scr. split.
  - intros it E C. rewrite <- Es, <- Eat in E.
    destruct (update_item_details_closed fr _ it E C) as (s' & E' & K).
    rewrite E'. cbn [bind].
    destruct K as [-> | [K1 K2]].
    + unfold draw_reads. rewrite Escr, Scr, E.
      destruct (selectedItemIndex (update_timer fr s) =? -1); cbn [bind];
        (eexists; split; [reflexivity | congruence]).
    + unfold draw_reads. rewrite K1. cbn [bind].
      eexists. split; [reflexivity | congruence].
  - intros s' H Scr'.
    destruct (update_item_details fr (update_timer fr s)) as [s1|] eqn:E;
      [|discriminate].
    cbn [bind] in H. destruct (draw_reads s1); [|discriminate].
    cbn [bind] in H. injection H as <-.
    rewrite <- Es, <- Eat.
    apply (update_item_details_screen fr _ s1); [congruence | exact E | exact Scr'].
Qed.

Lemma C8_place_bid_only_when_open_witness :
  exists s', step (click_at 700 560) at_closed_item = Some s'
             /\ currentScreen s' <> SCREEN_PLACE_BID.
Proof.
  apply (proj1 (C8_place_bid_only_when_open (click_at 700 560) at_closed_item
                  eq_refl)
           (mkItem (str "Vintage Guitar")
              (str "1960s electric guitar, well-preserved.")
              (f32_of_Z 2500) (str "Mary J.") true)).
  - reflexivity.
  - reflexivity.
Defined.

(** ** The selected index on the PlaceBid screen *)

(** C9. In every state reachable from the start of the program in which
    the current screen is PlaceBid, selectedItemIndex lies in
    [0, itemCount) and the cell items[selectedItemIndex], which the update
    and the draw code of that screen read without a check, exists. *)
Theorem C9_place_bid_index_in_bounds : forall s : State,
  reachable s ->
  currentScreen s = SCREEN_PLACE_BID ->
  0 <= selectedItemIndex s < itemCount s
  /\ (exists it, item_at s (selectedItemIndex s) = Some it).
Proof.
  intros s R Scr. assert (W := reachable_wf s R).
  destruct W as (B & L & C & U & S). rewrite Scr in S. simpl in S.
  split; [exact S|].
  apply item_at_defined; [exact L | lia].
Qed.

Lemma C9_place_bid_index_in_bounds_witness :
  0 <= selectedItemIndex at_place_bid < itemCount at_place_bid
  /\ (exists it, item_at at_place_bid (selectedItemIndex at_place_bid) = Some it).
Proof.
  apply (C9_place_bid_index_in_bounds at_place_bid).
  - exact at_place_bid_reachable.
  - reflexivity.
Defined.

(** ** Geometry of the SignUp and PlaceBid screens *)

Lemma Qle_bool_false : forall a b : Q, Qle_bool a b = false <-> (b < a)%Q.
Proof.
  intros a b. split; intro H.
  - apply Qnot_le_lt. intro K. apply Qle_bool_iff in K. congruence.
  - destruct (Qle_bool a b) eqn:E; [|reflexivity].
    apply Qle_bool_iff in E. apply Qle_not_lt in E. contradiction.
Qed.

Lemma CheckCollisionPointRec_iff : forall p x y w h,
  CheckCollisionPointRec p (rectangle x y w h) = true <->
  (inject_Z x <= vec_x p /\ vec_x p < inject_Z x + inject_Z w
   /\ inject_Z y <= vec_y p /\ vec_y p < inject_Z y + inject_Z h)%Q.
Proof.
  intros p x y w h. unfold CheckCollisionPointRec, Qlt_bool, rectangle. simpl.
  rewrite !andb_true_iff, !negb_true_iff, !Qle_bool_iff, !Qle_bool_false.
  tauto.
Qed.

(** Two rectangles that share no point: a click inside the first misses
    the second. *)
Ltac disjoint_rects H :=
  match goal with
  | |- CheckCollisionPointRec ?p ?r = false =>
      let E := fresh "E" in
      destruct (CheckCollisionPointRec p r) eqn:E; [exfalso | reflexivity];
      apply CheckCollisionPointRec_iff in H;
      apply CheckCollisionPointRec_iff in E;
      unfold screenWidth, screenHeight, inject_Z in *; simpl in *; lra
  end.

Lemma clicked_inv : forall fr r,
  clicked fr r = true ->
  CheckCollisionPointRec (mousePoint fr) r = true /\ mousePressed fr = true.
Proof. intros fr r H. apply andb_true_iff in H. exact H. Qed.

Lemma register_click_misses : forall fr,
  clicked fr registerButton = true ->
  CheckCollisionPointRec (mousePoint fr)
    (rectangle (screenWidth / 2 - 120) 200 240 40) = false
  /\ CheckCollisionPointRec (mousePoint fr)
       (rectangle (screenWidth / 2 - 120) 270 240 40) = false
  /\ CheckCollisionPointRec (mousePoint fr)
       (rectangle (screenWidth / 2 - 120) 340 240 40) = false
  /\ clicked fr signUpBackButton = false.
Proof.
  intros fr H. apply clicked_inv in H. destruct H as [H P].
  unfold registerButton in H. repeat split.
  - disjoint_rects H.
  - disjoint_rects H.
  - disjoint_rects H.
  - unfold clicked, IsMouseOver, signUpBackButton. rewrite P, andb_true_r.
    disjoint_rects H.
Qed.

Lemma bid_click_misses : forall fr,
  clicked fr bidButtonRect = true ->
  CheckCollisionPointRec (mousePoint fr)
    (rectangle (screenWidth / 2 - 100) 300 200 40) = false
  /\ CheckCollisionPointRec (mousePoint fr)
       (rectangle (screenWidth / 2 - 100) 380 200 40) = false
  /\ clicked fr cancelButtonRect = false.
Proof.
  intros fr H. apply clicked_inv in H. destruct H as [H P].
  unfold bidButtonRect in H. repeat split.
  - disjoint_rects H.
  - disjoint_rects H.
  - unfold clicked, IsMouseOver, cancelButtonRect. rewrite P, andb_true_r.
    disjoint_rects H.
Qed.

(** A click outside an input box deactivates it and leaves its text and
    the key queue alone. *)
Lemma UpdateInputBox_click_outside : forall fr queue b,
  mousePressed fr = true ->
  CheckCollisionPointRec (mousePoint fr) (rect b) = false ->
  UpdateInputBox fr queue b = Some (deactivated b, queue).
Proof.
  intros fr queue b P H. unfold UpdateInputBox. rewrite P, H. reflexivity.
Qed.

Lemma update_timer_shape : forall fr s,
  exists m t, update_timer fr s = set_uiMessageTimer t (set_uiMessage m s).
Proof.
  intros fr s. unfold update_timer.
  destruct (f32_gt _ _);
    [|exists (uiMessage s), (uiMessageTimer s); destruct s; reflexivity].
  cbn [uiMessageTimer set_uiMessageTimer].
  destruct (f32_le _ _);
    [ exists (MsgText ""), (f32_sub (uiMessageTimer s) (frameTime fr))
    | exists (uiMessage s), (f32_sub (uiMessageTimer s) (frameTime fr)) ];
    destruct s; reflexivity.
Qed.

(** ** The credential store *)

Lemma RegisterUser_appends : forall uname password writable s,
  strlen uname < MAX_NAME_LENGTH ->
  userCount s < MAX_USERS ->
  UsernameExists s uname = false ->
  RegisterUser uname password writable s
  = Some (SaveUsers writable
            (set_users (users s ++ [mkUser (strz uname) (HashPassword password)])
               s)).
Proof.
  intros uname password writable s L C E. unfold RegisterUser.
  destruct (MAX_USERS <=? userCount s) eqn:F; [apply Z.leb_le in F; lia|].
  rewrite E, (strcpy_into_fits _ _ L). reflexivity.
Qed.

Lemma users_SaveUsers : forall w s, users (snd (SaveUsers w s)) = users s.
Proof. intros w s. unfold SaveUsers. destruct w; reflexivity. Qed.

(** C3, with the bound on the username that the array [username] sets:
    for every username of at most 31 characters that is not in the store
    and every password, RegisterUser called while the store is below
    capacity returns (it meets no undefined behaviour), and AuthenticateUser
    on the store it leaves answers true for that username and password,
    whether or not the file could be written. *)
Theorem C3_register_then_authenticate :
  forall (u p : list Z) (writable : bool) (s : State),
  strlen u < MAX_NAME_LENGTH ->
  UsernameExists s u = false ->
  userCount s < MAX_USERS ->
  exists ok s', RegisterUser u p writable s = Some (ok, s')
                /\ AuthenticateUser s' u p = true.
Proof.
  intros u p writable s L E C.
  rewrite (RegisterUser_appends u p writable s L C E).
  destruct (SaveUsers writable _) as [ok s'] eqn:S.
  exists ok, s'. split; [reflexivity|].
  assert (U : users s' = users s ++ [mkUser (strz u) (HashPassword p)]).
  { change s' with (snd (ok, s')). rewrite <- S. apply users_SaveUsers. }
  unfold AuthenticateUser. rewrite U, existsb_app. apply orb_true_iff. right.
  simpl. unfold streq. rewrite strz_idem, list_eqb_refl, Z.eqb_refl.
  reflexivity.
Qed.

Lemma C3_register_then_authenticate_witness :
  exists ok s', RegisterUser (str "alice") (str "password1") true empty_store
                = Some (ok, s')
                /\ AuthenticateUser s' (str "alice") (str "password1") = true.
Proof.
  apply (C3_register_then_authenticate (str "alice") (str "password1") true
           empty_store).
  - vm_compute. reflexivity.
  - reflexivity.
  - vm_compute. reflexivity.
Defined.

(** C3 as stated, for every username, fails: a username of 32 characters
    is not in the empty store, the store is below capacity, and
    RegisterUser overflows [users[0].username], so that there is no store
    for AuthenticateUser to be called on. *)
Lemma C3_username_of_32_chars_overflows :
  UsernameExists empty_store (repeat 97 32) = false
  /\ userCount empty_store < MAX_USERS
  /\ RegisterUser (repeat 97 32) (str "password1") true empty_store = None.
Proof. vm_compute. repeat split. Qed.

(** C6, with the same bound in its second half. RegisterUser returns false
    and leaves the users and the file as they were when the store holds
    MAX_USERS users or the username exists. Otherwise, for a username of at
    most 31 characters, it appends exactly one user, whose hash is
    HashPassword(password); when the file can be written it returns true and
    the file holds the whole store, one line per user, and when it cannot
    it returns false and the file is as it was. *)
Theorem C6_RegisterUser_outcomes :
  forall (uname password : list Z) (writable : bool) (s : State),
  (MAX_USERS <= userCount s \/ UsernameExists s uname = true ->
   exists s', RegisterUser uname password writable s = Some (false, s')
              /\ users s' = users s /\ users_file s' = users_file s)
  /\ (strlen uname < MAX_NAME_LENGTH ->
      userCount s < MAX_USERS ->
      UsernameExists s uname = false ->
      exists s', RegisterUser uname password writable s = Some (writable, s')
                 /\ users s'
                    = users s ++ [mkUser (strz uname) (HashPassword password)]
                 /\ users_file s'
                    = if writable then Some (print_users (users s'))
                      else users_file s).
Proof.
  intros uname password writable s. split.
  - intros H. unfold RegisterUser.
    destruct (MAX_USERS <=? userCount s) eqn:F.
    + eexists. split; [reflexivity|]. split; reflexivity.
    + apply Z.leb_gt in F. destruct H as [H|H]; [lia|]. rewrite H.
      eexists. split; [reflexivity|]. split; reflexivity.
  - intros L C E. rewrite (RegisterUser_appends uname password writable s L C E).
    unfold SaveUsers. destruct writable;
      (eexists; split; [reflexivity|]; split; reflexivity).
Qed.

Lemma C6_RegisterUser_outcomes_witness :
  (exists s', RegisterUser (str "alice") (str "other") true store_with_alice
              = Some (false, s')
              /\ users s' = users store_with_alice
              /\ users_file s' = users_file store_with_alice)
  /\ (exists s', RegisterUser (str "alice") (str "password1") false empty_store
                 = Some (false, s')
                 /\ users s'
                    = users empty_store
                      ++ [mkUser (strz (str "alice"))
                            (HashPassword (str "password1"))]
                 /\ users_file s' = users_file empty_store).
Proof.
  split.
  - apply (proj1 (C6_RegisterUser_outcomes (str "alice") (str "other") true
                    store_with_alice)).
    right. reflexivity.
  - apply (proj2 (C6_RegisterUser_outcomes (str "alice") (str "password1") false
                    empty_store)).
    + vm_compute. reflexivity.
    + vm_compute. reflexivity.
    + reflexivity.
Defined.

(** C6 as stated fails in its second half: with one user in the store and
    a new username of 40 characters, RegisterUser appends no user and
    returns nothing; it overflows [users[1].username]. *)
Lemma C6_username_of_40_chars_overflows :
  userCount store_with_alice < MAX_USERS
  /\ UsernameExists store_with_alice (repeat 98 40) = false
  /\ RegisterUser (repeat 98 40) (str "secret") true store_with_alice = None.
Proof. vm_compute. repeat split. Qed.

(** ** Where the program departs from its specification *)

(** C1. On the PlaceBid screen of the first item (current bid 1500),
    entering the amount 1000000000 with the name bob and clicking BID! is
    accepted, although the amount exceeds 999,999,999: the literal
    [999999999.0f] is the float 1000000000, which the entered amount
    equals and so does not exceed. *)
Theorem C1_bid_of_one_billion_is_accepted :
  BID_CEILING = f32_of_Z 1000000000
  /\ strtof (str "1000000000") = f32_of_Z 1000000000
  /\ f32_gt (strtof (str "1000000000")) BID_CEILING = false
  /\ reachable at_place_bid
  /\ bid_of at_place_bid 0 = Some (f32_of_Z 1500)
  /\ exists s',
       run (tl (place_bid "1000000000" "bob")) at_place_bid = Some s'
       /\ currentScreen s' = SCREEN_ITEM_DETAILS
       /\ bid_of s' 0 = Some (f32_of_Z 1000000000)
       /\ bidder_of s' 0 = Some (str "bob")
       /\ uiMessage s' = MsgBidPlaced (f32_of_Z 1000000000) (str "bob").
Proof.
  split; [vm_compute; reflexivity|].
  split; [vm_compute; reflexivity|].
  split; [vm_compute; reflexivity|].
  split; [exact at_place_bid_reachable|].
  split; [vm_compute; reflexivity|].
  eexists. split; [vm_compute; reflexivity|].
  repeat split.
Qed.

(** C2. The current bid of an item can decrease: from the PlaceBid screen
    of the first item (current bid 1500), the amount "nan" is accepted and
    makes the current bid a NaN, after which a bid of 100 is accepted and
    the current bid is 100. *)
Theorem C2_current_bid_decreases_after_nan :
  reachable at_place_bid
  /\ bid_of at_place_bid 0 = Some (f32_of_Z 1500)
  /\ exists s1 s2,
       run (tl (place_bid "nan" "bob")) at_place_bid = Some s1
       /\ bid_of s1 0 = Some F32_nan
       /\ run (place_bid "100" "bob") s1 = Some s2
       /\ bid_of s2 0 = Some (f32_of_Z 100)
       /\ f32_gt (f32_of_Z 1500) (f32_of_Z 100) = true.
Proof.
  split; [exact at_place_bid_reachable|].
  split; [vm_compute; reflexivity|].
  eexists. eexists.
  split; [vm_compute; reflexivity|].
  split; [vm_compute; reflexivity|].
  split; [vm_compute; reflexivity|].
  split; vm_compute; reflexivity.
Qed.

(** C4. A user list whose only username, "john doe", is non-empty and
    within the length bounds is not reproduced by SaveUsers followed by
    LoadUsers: the file holds the line [john doe 461122539], which
    [fscanf "%s %u"] reads as the name "john" followed by no number, and
    the loaded store is empty. The same happens to a user who registers
    that name on the SignUp screen and starts the program again. *)
Theorem C4_username_with_space_is_not_reloaded :
  users store_with_john_doe
  = [mkUser (str "john doe") (HashPassword (str "secret"))]
  /\ (exists s1 s2,
        SaveUsers true store_with_john_doe = (true, s1)
        /\ users_file s1
           = Some (str "john doe " ++ print_uint (HashPassword (str "secret"))
                   ++ [10])
        /\ LoadUsers s1 = Some (true, s2)
        /\ users s2 = [])
  /\ (exists s s',
        run_from_start (firstn 8 (sign_up_and_in "john doe" "secret")) = Some s
        /\ uiMessage s = MsgText "Registration successful! Please sign in."
        /\ users s = users store_with_john_doe
        /\ startup (users_file s) = Some s'
        /\ users s' = []).
Proof.
  split; [vm_compute; reflexivity|]. split.
  - eexists. eexists.
    split; [vm_compute; reflexivity|].
    split; [vm_compute; reflexivity|].
    split; vm_compute; reflexivity.
  - eexists. eexists.
    split; [vm_compute; reflexivity|].
    split; [vm_compute; reflexivity|].
    split; [vm_compute; reflexivity|].
    split; vm_compute; reflexivity.
Qed.

(** C7. A password shorter than 5 characters is not always rejected. A
    first visitor of the SignUp screen types "12345" in the password and
    the confirmation boxes and goes back; the form is reset and opens
    empty. The next visitor types the username "bob" and the one-letter
    password "1" in both boxes: each box counts one letter and draws one
    star, but its text still holds the old "2345" behind the new letter,
    so Register reads the password "12345", shows no validation message
    and creates the account. *)
Theorem C7_one_typed_letter_passes_as_password :
  exists s s',
    run_from_start
      [ click_at 400 350;
        click_at 300 280; type_at 300 280 "12345";
        click_at 300 350; type_at 300 350 "12345";
        click_at 400 490;
        click_at 400 350;
        click_at 300 210; type_at 300 210 "bob";
        click_at 300 280; type_at 300 280 "1";
        click_at 300 350; type_at 300 350 "1" ] = Some s
    /\ currentScreen s = SCREEN_SIGN_UP
    /\ letterCount (signUpUsernameInput s) = 3
    /\ letterCount (signUpPasswordInput s) = 1
    /\ letterCount (signUpConfirmPasswordInput s) = 1
    /\ DrawInputBox (signUpPasswordInput s) = Some (str "*")
    /\ cstr (text (signUpPasswordInput s)) = Some (str "12345")
    /\ step (click_at 400 420) s = Some s'
    /\ uiMessage s' = MsgText "Registration successful! Please sign in."
    /\ currentScreen s' = SCREEN_SIGN_IN
    /\ users s' = [mkUser (str "bob") (HashPassword (str "12345"))].
Proof.
  eexists. eexists. split; [vm_compute; reflexivity|].
  split; [reflexivity|]. split; [reflexivity|]. split; [reflexivity|].
  split; [reflexivity|]. split; [vm_compute; reflexivity|].
  split; [vm_compute; reflexivity|]. split; [vm_compute; reflexivity|].
  repeat split.
Qed.

(** C10. The text of an input box does not stay NUL-terminated at
    [letterCount]: on the SignUp screen, typing "hello" in the username
    box, going back to the menu (which resets the boxes), returning and
    typing "a" leaves [letterCount = 1] and [text[1] = 'e']; the box then
    holds the string "aello". *)
Theorem C10_text_not_terminated_at_letterCount :
  exists s,
    run_from_start
      [ click_at 400 350; click_at 300 210; type_at 300 210 "hello";
        click_at 400 490;
        click_at 400 350; click_at 300 210; type_at 300 210 "a" ] = Some s
    /\ currentScreen s = SCREEN_SIGN_UP
    /\ letterCount (signUpUsernameInput s) = 1
    /\ nth_error (text (signUpUsernameInput s)) 1 = Some 101
    /\ cstr (text (signUpUsernameInput s)) = Some (str "aello").
Proof.
  eexists. split; [vm_compute; reflexivity|].
  repeat split.
Qed.

(** ** What the BID! click does *)

(** On the PlaceBid screen a click on BID!, with [newBid] the float that
    strtof reads from the amount box. The bid is rejected if the name box
    is empty, or [newBid <= currentBid], or [newBid > 999999999.0f], and
    accepted otherwise; the outcome has its message. If that message fits
    [uiMessage], a rejected bid leaves the items and the screen as they
    were, and an accepted one gives the selected item [newBid] and the name
    and returns to ItemDetails. If it does not fit, which only the
    "Bid failed" text with its two amounts can do, [strcpy] overflows
    [uiMessage] and the frame is undefined. *)
Theorem PlaceBid_click_outcomes :
  forall (fr : Frame) (s : State) (amount bidder : list Z) (it : AuctionItem),
  reachable s ->
  currentScreen s = SCREEN_PLACE_BID ->
  clicked fr bidButtonRect = true ->
  cstr (text (bidAmountInput s)) = Some amount ->
  cstr (text (bidderNameInput s)) = Some bidder ->
  item_at s (selectedItemIndex s) = Some it ->
  if message_length (bid_outcome_message (strtof amount) (currentBid it) bidder)
     <? UI_MESSAGE_SIZE
  then
    exists s',
      step fr s = Some s'
      /\ uiMessage s' = bid_outcome_message (strtof amount) (currentBid it) bidder
      /\ uiMessageTimer s' = UI_MESSAGE_DURATION
      /\ selectedItemIndex s' = selectedItemIndex s
      /\ if bid_rejected (strtof amount) (currentBid it) bidder
         then items s' = items s /\ currentScreen s' = SCREEN_PLACE_BID
         else list_set (items s) (Z.to_nat (selectedItemIndex s))
                (mkItem (name it) (description it) (strtof amount) bidder
                   (auctionClosed it))
              = Some (items s')
              /\ currentScreen s' = SCREEN_ITEM_DETAILS
  else
    bid_outcome_message (strtof amount) (currentBid it) bidder
    = MsgBidFailed (strtof amount) (currentBid it)
    /\ step fr s = None.
Proof.
  intros fr s amount bidder it R Scr Click Ha Hb Hit.
  assert (W := reachable_wf s R).
  destruct W as (B & L & C & _ & S). rewrite Scr, C in S. simpl in S.
  destruct B as ([W1 R1] & [W2 R2] & _).
  destruct (bid_click_misses fr Click) as (M1 & M2 & Cancel).
  destruct (clicked_inv fr _ Click) as [_ P].
  rewrite <- R1 in M1. rewrite <- R2 in M2.
  assert (Lb : 0 <= strlen bidder <= MAX_INPUT_CHARS).
  { destruct (box_wf_cstr _ W2) as (b' & E & K). congruence. }
  assert (Zb : strz bidder = bidder) by exact (cstr_nonzero _ _ Hb).
  destruct (update_timer_shape fr s) as (m & t & Et).
  unfold step. rewrite Et.
  cbn [currentScreen set_uiMessageTimer set_uiMessage]. rewrite Scr.
  unfold update_place_bid.
  cbn [bidAmountInput bidderNameInput set_uiMessageTimer set_uiMessage].
  rewrite (UpdateInputBox_click_outside fr _ _ P M1). cbn [bind].
  rewrite (UpdateInputBox_click_outside fr _ _ P M2). cbn [bind].
  rewrite Click, Cancel. unfold bid_click, item_at, bid_outcome_message, bid_rejected.
  cbn [bidAmountInput bidderNameInput set_bidInputs deactivated text items
       selectedItemIndex set_uiMessageTimer set_uiMessage].
  rewrite Ha, Hb. cbn [bind]. unfold item_at in Hit.
  destruct (strlen bidder =? 0).
  { set_literals.
    change (message_length (MsgText "Please enter your name to bid.")
            <? UI_MESSAGE_SIZE) with true.
    cbn [bind orb]. unfold draw_reads, item_at.
    cbn [currentScreen with_message set_uiMessageTimer set_uiMessage
         set_bidInputs selectedItemIndex items].
    rewrite Scr, Hit. cbn [bind]. eexists. split; [reflexivity|].
    repeat split. exact Scr. }
  rewrite Hit. cbn [bind orb].
  destruct (f32_le (strtof amount) (currentBid it)).
  { destruct (message_length (MsgBidFailed (strtof amount) (currentBid it))
              <? UI_MESSAGE_SIZE) eqn:F.
    - apply Z.ltb_lt in F. rewrite (SetUIMessage_fits _ _ F).
      cbn [bind orb]. unfold draw_reads, item_at.
      cbn [currentScreen with_message set_uiMessageTimer set_uiMessage
           set_bidInputs selectedItemIndex items].
      rewrite Scr, Hit. cbn [bind]. eexists. split; [reflexivity|].
      repeat split. exact Scr.
    - apply Z.ltb_ge in F. rewrite (SetUIMessage_long _ _ F).
      split; reflexivity. }
  destruct (f32_gt (strtof amount) BID_CEILING).
  { set_literals.
    change (message_length (MsgText "Bid amount too large!")
            <? UI_MESSAGE_SIZE) with true.
    cbn [bind orb]. unfold draw_reads, item_at.
    cbn [currentScreen with_message set_uiMessageTimer set_uiMessage
         set_bidInputs selectedItemIndex items].
    rewrite Scr, Hit. cbn [bind]. eexists. split; [reflexivity|].
    repeat split. exact Scr. }
  assert (F : message_length (MsgBidPlaced (strtof amount) bidder)
              < UI_MESSAGE_SIZE) by (apply bid_placed_fits; lia).
  rewrite (proj2 (Z.ltb_lt _ _) F).
  rewrite strcpy_into_fits
    by (unfold MAX_BIDDER_LENGTH, MAX_INPUT_CHARS in *; lia).
  rewrite Zb. cbn [bind]. unfold set_item_at.
  cbn [selectedItemIndex items set_bidInputs set_uiMessageTimer set_uiMessage].
  destruct (selectedItemIndex s <? 0) eqn:Neg; [apply Z.ltb_lt in Neg; lia|].
  destruct (list_set_spec (items s) (Z.to_nat (selectedItemIndex s))
              (mkItem (name it) (description it) (strtof amount) bidder
                 (auctionClosed it)) ltac:(lia)) as (l' & El & Ll).
  rewrite El. cbn [bind]. rewrite (SetUIMessage_fits _ _ F). cbn [bind].
  unfold draw_reads, item_at.
  cbn [currentScreen with_message set_uiMessageTimer set_uiMessage
       set_currentScreen set_items set_bidInputs selectedItemIndex items].
  rewrite Neg.
  destruct (Z.eqb_spec (selectedItemIndex s) (-1)) as [K|K]; [lia|].
  destruct (nth_error l' (Z.to_nat (selectedItemIndex s))) eqn:N.
  - cbn [bind]. eexists. split; [reflexivity|]. repeat split.
  - apply nth_error_None in N. lia.
Qed.

(** Two clicks on BID!. On the PlaceBid screen of the first item with both
    boxes empty, the click asks for a name. After a bid of 10000000 was
    accepted on that item, the amount -3e38 with the name bob makes a
    "Bid failed" text of 100 characters, and the frame is undefined. *)
Lemma PlaceBid_click_outcomes_witness :
  (exists s',
     step (click_at 300 490) at_place_bid = Some s'
     /\ uiMessage s' = MsgText "Please enter your name to bid."
     /\ uiMessageTimer s' = UI_MESSAGE_DURATION
     /\ selectedItemIndex s' = 0
     /\ items s' = items at_place_bid /\ currentScreen s' = SCREEN_PLACE_BID)
  /\ message_length (MsgBidFailed (strtof (str "-3e38")) (f32_of_Z 10000000))
     = 100
  /\ bid_outcome_message (strtof (str "-3e38")) (f32_of_Z 10000000) (str "bob")
     = MsgBidFailed (strtof (str "-3e38")) (f32_of_Z 10000000)
  /\ step (click_at 300 490) at_long_bid_failed = None.
Proof.
  split; [|split; [vm_compute; reflexivity|]].
  - apply (PlaceBid_click_outcomes (click_at 300 490) at_place_bid [] []
             (mkItem (str "Antique Vase")
                (str "A beautiful ceramic vase from the Ming Dynasty.")
                (f32_of_Z 1500) (str "No Bids Yet") false)).
    + exact at_place_bid_reachable.
    + reflexivity.
    + reflexivity.
    + reflexivity.
    + reflexivity.
    + reflexivity.
  - apply (PlaceBid_click_outcomes (click_at 300 490) at_long_bid_failed
             (str "-3e38") (str "bob")
             (mkItem (str "Antique Vase")
                (str "A beautiful ceramic vase from the Ming Dynasty.")
                (f32_of_Z 10000000) (str "bob") false)).
    + apply (run_from_start_reachable long_bid_failed_frames).
      vm_compute. reflexivity.
    + reflexivity.
    + reflexivity.
    + vm_compute. reflexivity.
    + vm_compute. reflexivity.
    + vm_compute. reflexivity.
Defined.

(** ** The only writer of currentBid is an accepted bid *)

Lemma ResetInputBoxes_core : forall s s',
  ResetInputBoxes s = Some s' -> core s' = core s.
Proof.
  intros s s' H. unfold ResetInputBoxes in H.
  repeat match type of H with
         | bind ?m _ = Some _ =>
             destruct m; cbn [bind] in H; [|discriminate]
         end.
  injection H as <-. reflexivity.
Qed.

Lemma ResetInputBoxes_items : forall s s',
  ResetInputBoxes s = Some s' -> items s' = items s.
Proof.
  intros s s' H. apply ResetInputBoxes_core, core_fields in H. apply H.
Qed.

(** The loop over the rows of the item list changes nothing, or stops at
    the first row [j] that the mouse is over and selects it. *)
Lemma item_list_loop_shape : forall fr fuel i s,
  item_list_loop fr fuel i s = Some s
  \/ exists j, i <= j < i + Z.of_nat fuel
               /\ CheckCollisionPointRec (mousePoint fr) (itemRect j) = true
               /\ (forall k, i <= k < j ->
                     CheckCollisionPointRec (mousePoint fr) (itemRect k) = false)
               /\ item_list_loop fr fuel i s
                  = Some (with_message (MsgText "")
                            (set_currentScreen SCREEN_ITEM_DETAILS
                               (set_selectedItemIndex j s))).
Proof.
  induction fuel as [|k IH]; intros i s; [now left|].
  cbn [item_list_loop].
  destruct (CheckCollisionPointRec (mousePoint fr) (itemRect i)) eqn:E.
  - right. exists i. split; [lia|]. split; [exact E|].
    split; [intros; lia | reflexivity].
  - destruct (IH (i + 1) s) as [K | (j & Hj & Hit & Before & K)]; [now left|].
    right. exists j. split; [lia|]. split; [exact Hit|]. split; [|exact K].
    intros m Hm. destruct (Z.eq_dec m i) as [->|]; [exact E|].
    apply Before. lia.
Qed.

(** Takes apart a hypothesis [H : ... = Some s'] about monadic code. *)
Ltac unfold_some H :=
  lazymatch type of H with
  | bind ?m _ = Some _ =>
      let E := fresh "E" in
      destruct m eqn:E; cbn [bind] in H;
      [unfold_some E; unfold_some H | discriminate H]
  | match ?p with (_, _) => _ end = Some _ => destruct p; unfold_some H
  | (if ?b then _ else _) = Some _ =>
      let E := fresh "E" in destruct b eqn:E; unfold_some H
  | SetUIMessage _ _ = Some _ =>
      apply SetUIMessage_inv in H; destruct H as [H _];
      apply (f_equal Some) in H; symmetry in H
  | item_list_loop ?fr ?fuel ?i ?s = Some _ =>
      let L := fresh "L" in
      let j := fresh "j" in
      let Hj := fresh "Hj" in
      let Hit := fresh "Hit" in
      let Before := fresh "Before" in
      destruct (item_list_loop_shape fr fuel i s)
        as [L | (j & Hj & Hit & Before & L)];
      rewrite L in H; clear L
  | None = Some _ => discriminate H
  | _ => idtac
  end.

Ltac items_done :=
  repeat match goal with
         | H : ResetInputBoxes _ = Some _ |- _ =>
             apply ResetInputBoxes_items in H; cbn in H
         | H : Some _ = Some _ |- _ => injection H as <-
         end;
  cbn in *; congruence.

Lemma update_auth_menu_items : forall fr s s',
  update_auth_menu fr s = Some s' -> items s' = items s.
Proof.
  intros fr s s' H. unfold update_auth_menu in H. unfold_some H; items_done.
Qed.

Lemma update_sign_in_items : forall fr s s',
  update_sign_in fr s = Some s' -> items s' = items s.
Proof.
  intros fr s s' H. unfold update_sign_in in H. unfold_some H; items_done.
Qed.

Lemma RegisterUser_items : forall u p w s ok s',
  RegisterUser u p w s = Some (ok, s') -> items s' = items s.
Proof.
  intros u p w s ok s' H. unfold RegisterUser in H. set_literals_in H.
  cbn [bind] in H.
  destruct (MAX_USERS <=? userCount s); [injection H as _ <-; reflexivity|].
  destruct (UsernameExists s u); [injection H as _ <-; reflexivity|].
  destruct (strcpy_into MAX_NAME_LENGTH u); cbn [bind] in H; [|discriminate].
  unfold SaveUsers in H. destruct w; injection H as _ <-; reflexivity.
Qed.

Lemma register_click_items : forall fr s s',
  register_click fr s = Some s' -> items s' = items s.
Proof.
  intros fr s s' H. unfold register_click in H. unfold_some H;
    repeat match goal with
           | K : RegisterUser _ _ _ _ = Some _ |- _ =>
               apply RegisterUser_items in K
           end;
    items_done.
Qed.

Lemma update_sign_up_items : forall fr s s',
  update_sign_up fr s = Some s' -> items s' = items s.
Proof.
  intros fr s s' H. unfold update_sign_up in H. unfold_some H;
    repeat match goal with
           | K : register_click _ _ = Some _ |- _ =>
               apply register_click_items in K; cbn in K
           end;
    items_done.
Qed.

Lemma update_item_list_items : forall fr s s',
  update_item_list fr s = Some s' -> items s' = items s.
Proof.
  intros fr s s' H. unfold update_item_list in H. unfold_some H; items_done.
Qed.

Lemma update_item_details_items : forall fr s s',
  update_item_details fr s = Some s' -> items s' = items s.
Proof.
  intros fr s s' H. unfold update_item_details in H.
  unfold_some H; items_done.
Qed.

Lemma list_set_nth : forall l i v l',
  list_set l i v = Some l' ->
  nth_error l' i = Some v
  /\ forall j, j <> i -> nth_error l' j = nth_error l j.
Proof.
  induction l as [|x l IH]; intros i v l' H; simpl in H; [discriminate|].
  destruct i as [|i].
  - injection H as <-. split; [reflexivity|].
    intros [|j] Hj; [congruence | reflexivity].
  - destruct (list_set l i v) as [l0|] eqn:E; simpl in H; [|discriminate].
    injection H as <-. destruct (IH i v l0 E) as [N O]. split; [exact N|].
    intros [|j] Hj; [reflexivity|]. simpl. apply O. congruence.
Qed.

Lemma bid_click_items : forall s s',
  bid_click s = Some s' -> items s' = items s \/ bid_written s s'.
Proof.
  intros s s' H. unfold bid_click in H.
  destruct (cstr (text (bidAmountInput s))) as [amount|];
    cbn [bind] in H; [|discriminate].
  destruct (cstr (text (bidderNameInput s))) as [bidder|];
    cbn [bind] in H; [|discriminate].
  destruct (strlen bidder =? 0);
    [unfold_some H; injection H as <-; now left|].
  destruct (item_at s (selectedItemIndex s)) as [it|] eqn:Ei;
    cbn [bind] in H; [|discriminate].
  destruct (f32_le (strtof amount) (currentBid it)) eqn:Hle;
    [unfold_some H; injection H as <-; now left|].
  destruct (f32_gt (strtof amount) BID_CEILING) eqn:Hgt;
    [unfold_some H; injection H as <-; now left|].
  destruct (strcpy_into MAX_BIDDER_LENGTH bidder) as [stored|];
    cbn [bind] in H; [|discriminate].
  unfold set_item_at in H.
  destruct (selectedItemIndex s <? 0) eqn:Neg; [discriminate|].
  apply Z.ltb_ge in Neg.
  destruct (list_set (items s) (Z.to_nat (selectedItemIndex s)) _) as [l|] eqn:El;
    cbn [bind] in H; [|discriminate].
  unfold_some H. injection H as <-. right.
  exists it, (mkItem (name it) (description it) (strtof amount) stored
                (auctionClosed it)).
  split; [exact Neg|]. split; [exact Ei|].
  split; [exact Hle|]. split; [exact Hgt|]. exact El.
Qed.

Lemma update_place_bid_items : forall fr s s',
  update_place_bid fr s = Some s' ->
  items s' = items s \/ (clicked fr bidButtonRect = true /\ bid_written s s').
Proof.
  intros fr s s' H. unfold update_place_bid in H.
  destruct (UpdateInputBox fr (charsPressed fr) (bidAmountInput s))
    as [[b1 q1]|]; cbn [bind] in H; [|discriminate].
  destruct (UpdateInputBox fr q1 (bidderNameInput s)) as [[b2 q2]|];
    cbn [bind] in H; [|discriminate].
  destruct (clicked fr bidButtonRect).
  - destruct (bid_click (set_bidInputs b1 b2 s)) as [s1|] eqn:E;
      cbn [bind] in H; [|discriminate].
    apply bid_click_items in E.
    assert (K : items s' = items s1)
      by (unfold_some H; injection H as <-; reflexivity).
    destruct E as [E|E]; [left; now rewrite K|]. right. split; [reflexivity|].
    destruct E as (it & v & E). rewrite <- K in E. exists it, v. exact E.
  - cbn [bind] in H. left. unfold_some H; injection H as <-; reflexivity.
Qed.

Lemma f32_not_le_gt : forall a b,
  a <> F32_nan -> b <> F32_nan -> f32_le a b = false -> f32_gt a b = true.
Proof.
  intros a b Ha Hb. unfold f32_le, f32_gt.
  destruct a as [|sa|sa ma ea]; [contradiction| |];
    (destruct b as [|sb|sb mb eb]; [contradiction| |]); simpl;
    repeat match goal with
           | |- context [if ?c then _ else _] => destruct c
           | |- context [?x ?= ?y] => destruct (x ?= y)
           end; simpl; congruence.
Qed.

(** An item's currentBid is written by an accepted bid and by nothing
    else: across one frame the bid of every item either stays what it was,
    or the frame was a BID! click on the PlaceBid screen of that item and
    the new bid is not [<=] the old one (so it is strictly greater unless
    one of the two is a NaN) and not above the ceiling. *)
Theorem currentBid_written_only_by_accepted_bid :
  forall (fr : Frame) (s s' : State) (i : Z) (old new : f32),
  step fr s = Some s' ->
  bid_of s i = Some old ->
  bid_of s' i = Some new ->
  new = old
  \/ (currentScreen s = SCREEN_PLACE_BID
      /\ i = selectedItemIndex s
      /\ clicked fr bidButtonRect = true
      /\ f32_le new old = false
      /\ f32_gt new BID_CEILING = false
      /\ (old <> F32_nan -> new <> F32_nan -> f32_gt new old = true)).
Proof.
  intros fr s s' i old new H Ho Hn.
  destruct (update_timer_core fr s) as (Ei & _ & Es & Escr & _).
  unfold step in H.
  set (s0 := update_timer fr s) in *. clearbody s0.
  match type of H with
  | bind ?m _ = _ => destruct m as [s1|] eqn:E; cbn [bind] in H; [|discriminate]
  end.
  destruct (draw_reads s1); cbn [bind] in H; [|discriminate].
  injection H as <-.
  assert (Same : items s1 = items s -> new = old).
  { intro K. unfold bid_of, item_at in *. rewrite K in Hn. congruence. }
  rewrite Escr in E.
  destruct (currentScreen s) eqn:Scr.
  - left. apply Same. rewrite <- Ei. now apply update_auth_menu_items in E.
  - left. apply Same. rewrite <- Ei. now apply update_sign_in_items in E.
  - left. apply Same. rewrite <- Ei. now apply update_sign_up_items in E.
  - left. apply Same. rewrite <- Ei. now apply update_item_list_items in E.
  - left. apply Same. rewrite <- Ei. now apply update_item_details_items in E.
  - apply update_place_bid_items in E.
    destruct E as [E | [Click (it & v & Neg & Hit & Hle & Hgt & Hset)]];
      [left; apply Same; congruence|].
    rewrite Es in Neg, Hit, Hset. rewrite Ei in Hset.
    unfold item_at in Hit. rewrite Ei in Hit.
    apply list_set_nth in Hset. destruct Hset as [N O].
    unfold bid_of, item_at in Ho, Hn.
    destruct (i <? 0) eqn:Ineg; [discriminate|]. apply Z.ltb_ge in Ineg.
    destruct (selectedItemIndex s <? 0) eqn:Sneg; [apply Z.ltb_lt in Sneg; lia|].
    destruct (Z.eq_dec i (selectedItemIndex s)) as [->|Ne].
    + right. rewrite N in Hn. rewrite Hit in Ho. simpl in Ho, Hn.
      injection Ho as <-. injection Hn as <-.
      repeat split; try assumption.
      intros A B. now apply f32_not_le_gt.
    + left. rewrite O in Hn by lia. congruence.
Qed.

Lemma currentBid_written_only_by_accepted_bid_witness :
  f32_of_Z 1600 = f32_of_Z 1500
  \/ (currentScreen at_bid_entered = SCREEN_PLACE_BID
      /\ 0 = selectedItemIndex at_bid_entered
      /\ clicked (click_at 300 490) bidButtonRect = true
      /\ f32_le (f32_of_Z 1600) (f32_of_Z 1500) = false
      /\ f32_gt (f32_of_Z 1600) BID_CEILING = false
      /\ (f32_of_Z 1500 <> F32_nan -> f32_of_Z 1600 <> F32_nan ->
          f32_gt (f32_of_Z 1600) (f32_of_Z 1500) = true)).
Proof.
  apply (currentBid_written_only_by_accepted_bid (click_at 300 490)
           at_bid_entered
           (state_of (step (click_at 300 490) at_bid_entered)) 0).
  - vm_compute. reflexivity.
  - vm_compute. reflexivity.
  - vm_compute. reflexivity.
Defined.

(** ** The users file read back *)

Lemma strz_plain : forall n, Forall plain_char n -> strz n = n.
Proof.
  induction 1 as [|c n [_ Hc] _ IH]; simpl; [reflexivity|].
  destruct (Z.eqb_spec c 0); [contradiction|]. now rewrite IH.
Qed.

Lemma take_token_plain : forall n c rest,
  Forall plain_char n -> isspace c = true ->
  take_token (n ++ c :: rest) = (n, c :: rest).
Proof.
  induction 1 as [|d n [Hd _] _ IH]; intro Hc; simpl.
  - now rewrite Hc.
  - rewrite Hd, IH by exact Hc. reflexivity.
Qed.

Lemma scan_s_plain : forall n c rest,
  n <> [] -> Forall plain_char n -> isspace c = true ->
  scan_s (n ++ c :: rest) = Some (n, c :: rest).
Proof.
  intros n c rest Hn Hp Hc. unfold scan_s.
  destruct n as [|d n]; [contradiction|].
  assert (Hd : isspace d = false) by (inversion Hp as [|? ? [K _]]; exact K).
  change ((d :: n) ++ c :: rest) with (d :: (n ++ c :: rest)).
  cbn [skip_space]. rewrite Hd.
  change (d :: (n ++ c :: rest)) with ((d :: n) ++ c :: rest).
  now rewrite take_token_plain.
Qed.

Lemma read_digits_app : forall ds rest acc cnt,
  Forall (fun d => isdigit d = true) ds ->
  read_digits (ds ++ rest) acc cnt
  = read_digits rest (digits_value ds acc) (cnt + Z.of_nat (List.length ds)).
Proof.
  induction ds as [|d ds IH]; intros rest acc cnt H.
  - simpl. now rewrite Z.add_0_r.
  - inversion H as [|? ? Hd Hds]; subst. cbn [app read_digits]. rewrite Hd.
    rewrite IH by exact Hds. cbn [digits_value fold_left List.length].
    f_equal. lia.
Qed.

Lemma print_digits_spec : forall fuel n acc,
  0 <= n < 10 ^ Z.of_nat fuel -> (0 < fuel)%nat ->
  exists ds, print_digits fuel n acc = ds ++ acc
             /\ ds <> []
             /\ Forall (fun d => isdigit d = true) ds
             /\ forall a, digits_value ds a
                          = a * 10 ^ Z.of_nat (List.length ds) + n.
Proof.
  induction fuel as [|f IH]; intros n acc Hn Hf; [lia|].
  cbn [print_digits]. destruct (n <? 10) eqn:E.
  - apply Z.ltb_lt in E. exists [48 + n mod 10].
    rewrite Z.mod_small by lia.
    split; [reflexivity|]. split; [discriminate|]. split.
    + constructor; [|constructor]. unfold isdigit.
      apply andb_true_iff. split; apply Z.leb_le; lia.
    + intro a. unfold digits_value. cbn [fold_left List.length].
      change (Z.of_nat 1) with 1. rewrite Z.pow_1_r. lia.
  - apply Z.ltb_ge in E.
    assert (Hf' : (0 < f)%nat).
    { destruct f; [|lia]. simpl in Hn. lia. }
    destruct (IH (n / 10) ((48 + n mod 10) :: acc)) as (ds & Eq & Ne & Dg & Val);
      [|exact Hf'|].
    { split; [apply Z.div_pos; lia|].
      apply Z.div_lt_upper_bound; [lia|].
      rewrite Nat2Z.inj_succ, Z.pow_succ_r in Hn by lia. lia. }
    exists (ds ++ [48 + n mod 10]).
    split; [|split; [|split]].
    + rewrite Eq, <- app_assoc. reflexivity.
    + destruct ds; discriminate.
    + apply Forall_app. split; [exact Dg|]. constructor; [|constructor].
      unfold isdigit. pose proof (Z.mod_pos_bound n 10 ltac:(lia)).
      apply andb_true_iff. split; apply Z.leb_le; lia.
    + intro a. unfold digits_value in *. rewrite fold_left_app.
      cbn [fold_left]. rewrite Val, length_app. cbn [List.length].
      rewrite Nat2Z.inj_add, Z.pow_add_r by lia.
      change (Z.of_nat 1) with 1. rewrite Z.pow_1_r.
      pose proof (Z.div_mod n 10 ltac:(lia)). lia.
Qed.

Lemma print_uint_spec : forall n,
  0 <= n < UINT_MOD ->
  exists ds, print_uint n = ds /\ ds <> []
             /\ Forall (fun d => isdigit d = true) ds
             /\ digits_value ds 0 = n.
Proof.
  intros n Hn. unfold print_uint.
  destruct (print_digits_spec 10 n []) as (ds & E & Ne & Dg & Val).
  - unfold UINT_MOD in Hn. simpl. lia.
  - lia.
  - exists (print_digits 10 n []). rewrite E, app_nil_r.
    split; [reflexivity|]. split; [exact Ne|]. split; [exact Dg|].
    rewrite Val. lia.
Qed.

Lemma isdigit_not_space : forall d, isdigit d = true -> isspace d = false.
Proof.
  intros d H. unfold isdigit, isspace in *.
  apply andb_true_iff in H. destruct H as [A B].
  apply Z.leb_le in A, B.
  destruct (Z.eqb_spec d 32); [lia|].
  destruct (Z.leb_spec 9 d); destruct (Z.leb_spec d 13); simpl; try reflexivity; lia.
Qed.

Lemma scan_u_printed : forall n rest,
  0 <= n < UINT_MOD ->
  scan_u (32 :: print_uint n ++ 10 :: rest) = Some (false, n, 10 :: rest).
Proof.
  intros n rest Hn. destruct (print_uint_spec n Hn) as (ds & -> & Ne & Dg & Val).
  unfold scan_u. cbn [skip_space]. change (isspace 32) with true. cbn iota.
  destruct ds as [|d ds]; [contradiction|].
  assert (Hd : isdigit d = true) by (inversion Dg; assumption).
  change ((d :: ds) ++ 10 :: rest) with (d :: (ds ++ 10 :: rest)).
  cbn [skip_space]. rewrite (isdigit_not_space d Hd).
  unfold read_sign.
  assert (R : 48 <= d <= 57).
  { unfold isdigit in Hd. apply andb_true_iff in Hd. destruct Hd as [A B].
    apply Z.leb_le in A, B. lia. }
  destruct (Z.eqb_spec d 45); [lia|]. destruct (Z.eqb_spec d 43); [lia|].
  change (d :: (ds ++ 10 :: rest)) with ((d :: ds) ++ 10 :: rest).
  rewrite read_digits_app by exact Dg.
  cbn [read_digits]. change (isdigit 10) with false. cbn iota.
  rewrite Val. cbn [List.length].
  destruct (0 <? 0 + Z.of_nat (S (List.length ds))) eqn:C;
    [reflexivity | apply Z.ltb_ge in C; lia].
Qed.

Lemma LoadUsers_loop_printed : forall us slots acc,
  Forall storable_user us -> (List.length us <= slots)%nat ->
  LoadUsers_loop slots (print_users us) acc = Some (acc ++ us).
Proof.
  induction us as [|u us IH]; intros slots acc Hus Hlen.
  - rewrite app_nil_r. destruct slots; reflexivity.
  - destruct slots as [|k]; [simpl in Hlen; lia|].
    inversion Hus as [|? ? [(Ne & Pl & Ln) Hh] Hrest]; subst.
    cbn [LoadUsers_loop print_users flat_map]. unfold print_user.
    rewrite (strz_plain _ Pl).
    repeat rewrite <- app_assoc. cbn [app].
    rewrite (scan_s_plain (username u) 32 _ Ne Pl eq_refl).
    destruct (Z.of_nat (List.length (username u)) <? MAX_NAME_LENGTH) eqn:C;
      [|apply Z.ltb_ge in C; lia].
    rewrite (scan_u_printed (hashedPassword u) _ Hh).
    destruct (hashedPassword u <? UINT_MOD) eqn:D;
      [|apply Z.ltb_ge in D; lia].
    change (flat_map print_user us) with (print_users us).
    assert (Skip : forall k' a,
              LoadUsers_loop k' (10 :: print_users us) a
              = LoadUsers_loop k' (print_users us) a).
    { intros k' a. destruct k'; [reflexivity|]. reflexivity. }
    rewrite Skip, IH by (assumption || (simpl in Hlen; lia)).
    rewrite <- app_assoc. cbn [app]. unfold to_uint, signed.
    rewrite Z.mod_small by exact Hh. rewrite (strz_plain _ Pl).
    destruct u. reflexivity.
Qed.

(** SaveUsers then LoadUsers gives back the users, in the same order and
    number, when every username can be carried by the file format (not
    empty, at most 31 characters, no white space, no NUL) and the store
    holds at most MAX_USERS users whose hashes are unsigned ints. *)
Theorem SaveUsers_LoadUsers_roundtrip : forall s : State,
  Forall storable_user (users s) ->
  userCount s <= MAX_USERS ->
  exists s1 s2,
    SaveUsers true s = (true, s1)
    /\ LoadUsers s1 = Some (true, s2)
    /\ users s2 = users s
    /\ users_file s2 = Some (print_users (users s)).
Proof.
  intros s Hus Hn. unfold SaveUsers. eexists. eexists.
  split; [reflexivity|]. unfold LoadUsers. cbn [users_file set_users_file].
  rewrite LoadUsers_loop_printed.
  - cbn [bind app]. split; [reflexivity|]. split; reflexivity.
  - exact Hus.
  - unfold userCount, MAX_USERS in *. cbn [users]. lia.
Qed.

Lemma SaveUsers_LoadUsers_roundtrip_witness :
  exists s1 s2,
    SaveUsers true store_with_alice = (true, s1)
    /\ LoadUsers s1 = Some (true, s2)
    /\ users s2 = users store_with_alice
    /\ users_file s2 = Some (print_users (users store_with_alice)).
Proof.
  apply (SaveUsers_LoadUsers_roundtrip store_with_alice).
  - constructor; [|constructor]. split.
    + split; [discriminate|]. split.
      * repeat (constructor; [split; [reflexivity | discriminate]|]).
        constructor.
      * vm_compute. reflexivity.
    + vm_compute. split; [discriminate | reflexivity].
  - vm_compute. discriminate.
Defined.

(** ** What an input box does keep *)

(** A key outside 32..125, or any key once the box holds
    MAX_INPUT_CHARS characters, is taken from the queue and dropped. *)
Lemma type_chars_dropped : forall b key rest,
  0 < key ->
  key < KEY_MIN \/ KEY_MAX < key \/ MAX_INPUT_CHARS <= letterCount b ->
  type_chars b (key :: rest) = type_chars b rest.
Proof.
  intros b key rest Hk H. cbn [type_chars].
  destruct (0 <? key) eqn:E; [|apply Z.ltb_ge in E; lia].
  destruct ((KEY_MIN <=? key) && (key <=? KEY_MAX)
            && (letterCount b <? MAX_INPUT_CHARS)) eqn:F; [|reflexivity].
  apply andb_true_iff in F. destruct F as [F1 F2].
  apply andb_true_iff in F1. destruct F1 as [F0 F1].
  apply Z.leb_le in F0, F1. apply Z.ltb_lt in F2. lia.
Qed.

(** The bounds of an input box are kept by UpdateInputBox, whatever the
    frame and the key queue, and by the reset of ResetInputBoxes:
    [0 <= letterCount <= MAX_INPUT_CHARS], the array keeps its 21 cells and
    its last cell stays NUL, so the text always holds a string of at most
    20 characters; a key that is dropped and a backspace on an empty box
    change nothing. *)
Theorem InputBox_bounds_kept : forall (fr : Frame) (queue : list Z) (b : InputBox),
  box_wf b ->
  (exists b' q', UpdateInputBox fr queue b = Some (b', q') /\ box_wf b')
  /\ (exists b', ResetInputBox b = Some b' /\ box_wf b' /\ letterCount b' = 0)
  /\ (exists u, cstr (text b) = Some u /\ 0 <= strlen u <= MAX_INPUT_CHARS)
  /\ (active b = true -> mousePressed fr = false -> enterPressed fr = false ->
      letterCount b = 0 ->
      UpdateInputBox fr [] b = Some (b, [])).
Proof.
  intros fr queue b W. split; [|split; [|split]].
  - destruct (UpdateInputBox_wf fr queue b W) as (b' & q' & E & W' & _).
    now exists b', q'.
  - destruct (ResetInputBox_wf b W) as (b' & E & W' & _ & C & _).
    now exists b'.
  - now apply box_wf_cstr.
  - intros A P N C. unfold UpdateInputBox. rewrite P, A. cbn [type_chars bind].
    rewrite C, N. rewrite andb_false_r. reflexivity.
Qed.

Lemma InputBox_bounds_kept_witness :
  (exists b' q',
     UpdateInputBox (type_at 300 210 "hello") (str "hello")
       (signUpUsernameInput at_sign_up_ab) = Some (b', q') /\ box_wf b')
  /\ (exists b', ResetInputBox (signUpUsernameInput at_sign_up_ab) = Some b'
                 /\ box_wf b' /\ letterCount b' = 0)
  /\ (exists u, cstr (text (signUpUsernameInput at_sign_up_ab)) = Some u
                /\ 0 <= strlen u <= MAX_INPUT_CHARS)
  /\ (active (signUpUsernameInput at_sign_up_ab) = true ->
      mousePressed (type_at 300 210 "hello") = false ->
      enterPressed (type_at 300 210 "hello") = false ->
      letterCount (signUpUsernameInput at_sign_up_ab) = 0 ->
      UpdateInputBox (type_at 300 210 "hello") []
        (signUpUsernameInput at_sign_up_ab)
      = Some (signUpUsernameInput at_sign_up_ab, [])).
Proof.
  apply (InputBox_bounds_kept (type_at 300 210 "hello") (str "hello")
           (signUpUsernameInput at_sign_up_ab)).
  apply box_wf_intro; [reflexivity | lia | reflexivity].
Defined.

Lemma RegisterUser_fields : forall u p w s ok s',
  RegisterUser u p w s = Some (ok, s') ->
  core s' = (items s, itemCount s, selectedItemIndex s, currentScreen s,
             users s', loggedInUsername s, uiMessage s', uiMessageTimer s',
             users_file s').
Proof.
  intros u p w s ok s' H. unfold RegisterUser in H.
  destruct (MAX_USERS <=? userCount s); [injection H as _ <-; reflexivity|].
  destruct (UsernameExists s u); [injection H as _ <-; reflexivity|].
  destruct (strcpy_into MAX_NAME_LENGTH u); cbn [bind] in H; [|discriminate].
  unfold SaveUsers in H. destruct w; injection H as _ <-; reflexivity.
Qed.

(** Replaces what is known about the results of resets and registrations
    by equations between fields. *)
Ltac to_fields :=
  repeat match goal with
         | H : ResetInputBoxes _ = Some _ |- _ =>
             apply ResetInputBoxes_core, core_fields in H; cbn in H;
             decompose [and] H; clear H
         | H : RegisterUser _ _ _ _ = Some _ |- _ =>
             apply RegisterUser_fields in H; unfold core in H; cbn in H;
             injection H; clear H; intros
         | H : Some _ = Some _ |- _ => injection H as <-
         end.

Lemma step_inv : forall fr s s',
  step fr s = Some s' -> dispatch fr (update_timer fr s) = Some s'.
Proof.
  intros fr s s' H. unfold step in H. fold (dispatch fr (update_timer fr s)) in H.
  destruct (dispatch fr (update_timer fr s)) as [s1|]; cbn [bind] in H;
    [|discriminate].
  destruct (draw_reads s1); cbn [bind] in H; [|discriminate].
  congruence.
Qed.

Lemma update_screen_allowed : forall fr s s',
  dispatch fr s = Some s' ->
  transition_allowed (currentScreen s) (currentScreen s') = true.
Proof.
  intros fr s s' H. unfold dispatch in H. destruct (currentScreen s) eqn:Scr.
  - unfold update_auth_menu in H. unfold_some H; to_fields; cbn in *;
      repeat match goal with K : currentScreen _ = _ |- _ => rewrite K end;
      try rewrite Scr; reflexivity.
  - unfold update_sign_in in H. unfold_some H; to_fields; cbn in *;
      repeat match goal with K : currentScreen _ = _ |- _ => rewrite K end;
      try rewrite Scr; reflexivity.
  - unfold update_sign_up, register_click in H. unfold_some H; to_fields; cbn in *;
      repeat match goal with K : currentScreen _ = _ |- _ => rewrite K end;
      try rewrite Scr; reflexivity.
  - unfold update_item_list in H. unfold_some H; to_fields; cbn in *;
      repeat match goal with K : currentScreen _ = _ |- _ => rewrite K end;
      try rewrite Scr; reflexivity.
  - unfold update_item_details in H. unfold_some H; to_fields; cbn in *;
      repeat match goal with K : currentScreen _ = _ |- _ => rewrite K end;
      try rewrite Scr; reflexivity.
  - unfold update_place_bid, bid_click, set_item_at in H.
    unfold_some H; to_fields; cbn in *;
      repeat match goal with K : currentScreen _ = _ |- _ => rewrite K end;
      try rewrite Scr; reflexivity.
Qed.

(** The screen after a frame is one the state machine allows from the
    screen before it: the menu leads to SignIn or SignUp; SignIn to the
    item list or back to the menu; SignUp to SignIn or back to the menu;
    the item list to the details of an item or (logout) to the menu; the
    details to the list or to PlaceBid; PlaceBid to the details. No frame
    jumps anywhere else, and no screen is reached from the item screens
    without passing the menu. *)
Theorem screen_follows_state_machine : forall (fr : Frame) (s s' : State),
  step fr s = Some s' ->
  transition_allowed (currentScreen s) (currentScreen s') = true.
Proof.
  intros fr s s' H. apply step_inv in H.
  destruct (update_timer_core fr s) as (_ & _ & _ & Escr & _).
  rewrite <- Escr. now apply (update_screen_allowed fr).
Qed.

Lemma screen_follows_state_machine_witness :
  transition_allowed (currentScreen at_place_bid)
    (currentScreen (state_of (step (click_at 460 490) at_place_bid))) = true.
Proof.
  apply (screen_follows_state_machine (click_at 460 490) at_place_bid).
  vm_compute. reflexivity.
Defined.

Lemma clicked_no_press : forall fr r, mousePressed fr = false -> clicked fr r = false.
Proof. intros fr r H. unfold clicked. rewrite H. apply andb_false_r. Qed.

Lemma update_no_press : forall fr s s',
  mousePressed fr = false ->
  dispatch fr s = Some s' ->
  click_state s' = click_state s
  /\ uiMessage s' = uiMessage s /\ uiMessageTimer s' = uiMessageTimer s.
Proof.
  intros fr s s' P H. unfold dispatch in H.
  destruct (currentScreen s) eqn:Scr;
    [ unfold update_auth_menu in H
    | unfold update_sign_in in H
    | unfold update_sign_up in H
    | unfold update_item_list in H
    | unfold update_item_details in H
    | unfold update_place_bid in H ];
    rewrite ?P in H; rewrite ?(clicked_no_press fr _ P) in H;
    rewrite ?andb_false_r in H; cbn [bind] in H;
    unfold_some H;
    try match goal with
        | E : _ && false = true |- _ => rewrite andb_false_r in E; discriminate E
        end;
    to_fields; unfold click_state; cbn; rewrite ?Scr; auto.
Qed.

(** A frame without a mouse press (keys typed, Enter and backspace
    included) changes nothing but the input boxes and the message timer:
    the screen, the selection, the items, the users, the users file and the
    session stay as they were. In particular Enter submits nothing. *)
Theorem only_a_click_changes_the_application :
  forall (fr : Frame) (s s' : State),
  mousePressed fr = false ->
  step fr s = Some s' ->
  currentScreen s' = currentScreen s
  /\ selectedItemIndex s' = selectedItemIndex s
  /\ items s' = items s
  /\ users s' = users s
  /\ users_file s' = users_file s
  /\ loggedInUsername s' = loggedInUsername s.
Proof.
  intros fr s s' P H. apply step_inv in H.
  destruct (update_timer_core fr s) as (Ei & Ec & Es & Escr & Eu & Ef).
  assert (El : loggedInUsername (update_timer fr s) = loggedInUsername s).
  { destruct (update_timer_shape fr s) as (m & t & ->). reflexivity. }
  apply (update_no_press fr _ _ P) in H. destruct H as (E & _).
  unfold click_state in E. injection E. intros. repeat split; congruence.
Qed.

Lemma only_a_click_changes_the_application_witness :
  currentScreen (state_of (step (type_at 310 310 "1600") at_place_bid))
  = currentScreen at_place_bid
  /\ selectedItemIndex (state_of (step (type_at 310 310 "1600") at_place_bid))
     = selectedItemIndex at_place_bid
  /\ items (state_of (step (type_at 310 310 "1600") at_place_bid))
     = items at_place_bid
  /\ users (state_of (step (type_at 310 310 "1600") at_place_bid))
     = users at_place_bid
  /\ users_file (state_of (step (type_at 310 310 "1600") at_place_bid))
     = users_file at_place_bid
  /\ loggedInUsername (state_of (step (type_at 310 310 "1600") at_place_bid))
     = loggedInUsername at_place_bid.
Proof.
  apply (only_a_click_changes_the_application (type_at 310 310 "1600")
           at_place_bid).
  - reflexivity.
  - vm_compute. reflexivity.
Defined.

(** ** An item keeps its identity, and a closed item its bid *)

Lemma list_set_identity : forall l i it v l',
  nth_error l i = Some it ->
  item_identity v = item_identity it ->
  list_set l i v = Some l' ->
  map item_identity l' = map item_identity l.
Proof.
  induction l as [|x l IH]; intros i it v l' N E H; simpl in H; [discriminate|].
  destruct i as [|i]; simpl in N.
  - injection N as ->. injection H as <-. simpl. now rewrite E.
  - destruct (list_set l i v) as [l0|] eqn:K; simpl in H; [|discriminate].
    injection H as <-. simpl. f_equal. exact (IH i it v l0 N E K).
Qed.

Lemma bid_click_static : forall s s',
  bid_click s = Some s' ->
  map item_identity (items s') = map item_identity (items s)
  /\ selectedItemIndex s' = selectedItemIndex s
  /\ itemCount s' = itemCount s.
Proof.
  intros s s' H. unfold bid_click in H.
  destruct (cstr (text (bidAmountInput s))) as [amount|];
    cbn [bind] in H; [|discriminate].
  destruct (cstr (text (bidderNameInput s))) as [bidder|];
    cbn [bind] in H; [|discriminate].
  destruct (strlen bidder =? 0); [unfold_some H; injection H as <-; auto|].
  destruct (item_at s (selectedItemIndex s)) as [it|] eqn:Ei;
    cbn [bind] in H; [|discriminate].
  destruct (f32_le _ _); [unfold_some H; injection H as <-; auto|].
  destruct (f32_gt _ _); [unfold_some H; injection H as <-; auto|].
  destruct (strcpy_into MAX_BIDDER_LENGTH bidder) as [stored|];
    cbn [bind] in H; [|discriminate].
  unfold set_item_at in H. unfold item_at in Ei.
  destruct (selectedItemIndex s <? 0); [discriminate|].
  destruct (list_set (items s) _ _) as [l|] eqn:El; cbn [bind] in H;
    [|discriminate].
  unfold_some H. injection H as <-. cbn. split; [|auto].
  eapply list_set_identity; [exact Ei | | exact El]. reflexivity.
Qed.

Lemma dispatch_static : forall fr s s',
  dispatch fr s = Some s' ->
  map item_identity (items s') = map item_identity (items s)
  /\ itemCount s' = itemCount s.
Proof.
  intros fr s s' H. unfold dispatch in H.
  destruct (currentScreen s) eqn:Scr.
  - apply update_auth_menu_items in H as K. rewrite K. split; [reflexivity|].
    unfold update_auth_menu in H. unfold_some H; to_fields; cbn in *; congruence.
  - apply update_sign_in_items in H as K. rewrite K. split; [reflexivity|].
    unfold update_sign_in in H. unfold_some H; to_fields; cbn in *; congruence.
  - apply update_sign_up_items in H as K. rewrite K. split; [reflexivity|].
    unfold update_sign_up, register_click in H.
    unfold_some H; to_fields; cbn in *; congruence.
  - apply update_item_list_items in H as K. rewrite K. split; [reflexivity|].
    unfold update_item_list in H.
    unfold_some H; to_fields; cbn in *; congruence.
  - apply update_item_details_items in H as K. rewrite K. split; [reflexivity|].
    unfold update_item_details in H.
    unfold_some H; to_fields; cbn in *; congruence.
  - unfold update_place_bid in H.
    destruct (UpdateInputBox fr (charsPressed fr) (bidAmountInput s))
      as [[b1 q1]|]; cbn [bind] in H; [|discriminate].
    destruct (UpdateInputBox fr q1 (bidderNameInput s)) as [[b2 q2]|];
      cbn [bind] in H; [|discriminate].
    destruct (clicked fr bidButtonRect).
    + destruct (bid_click (set_bidInputs b1 b2 s)) as [s1|] eqn:E;
        cbn [bind] in H; [|discriminate].
      apply bid_click_static in E. cbn in E. destruct E as (E1 & _ & E2).
      unfold_some H; injection H as <-; cbn; auto.
    + cbn [bind] in H. unfold_some H; injection H as <-; cbn; auto.
Qed.

Lemma identity_at : forall s s' i it,
  map item_identity (items s') = map item_identity (items s) ->
  item_at s i = Some it ->
  exists it', item_at s' i = Some it' /\ item_identity it' = item_identity it.
Proof.
  intros s s' i it M H. unfold item_at in *.
  destruct (i <? 0); [discriminate|].
  assert (K : nth_error (map item_identity (items s)) (Z.to_nat i)
              = Some (item_identity it)) by now apply map_nth_error.
  rewrite <- M, nth_error_map in K.
  destruct (nth_error (items s') (Z.to_nat i)) as [it'|]; [|discriminate].
  exists it'. split; [reflexivity|]. simpl in K. congruence.
Qed.

Lemma update_place_bid_sel : forall fr s s',
  update_place_bid fr s = Some s' -> selectedItemIndex s' = selectedItemIndex s.
Proof.
  intros fr s s' H. unfold update_place_bid in H.
  destruct (UpdateInputBox fr (charsPressed fr) (bidAmountInput s))
    as [[b1 q1]|]; cbn [bind] in H; [|discriminate].
  destruct (UpdateInputBox fr q1 (bidderNameInput s)) as [[b2 q2]|];
    cbn [bind] in H; [|discriminate].
  destruct (clicked fr bidButtonRect).
  - destruct (bid_click (set_bidInputs b1 b2 s)) as [s1|] eqn:E;
      cbn [bind] in H; [|discriminate].
    apply bid_click_static in E. cbn in E. destruct E as (_ & E & _).
    unfold_some H; injection H as <-; cbn; auto.
  - cbn [bind] in H. unfold_some H; injection H as <-; reflexivity.
Qed.

Lemma update_item_details_to_bid : forall fr s s',
  update_item_details fr s = Some s' ->
  currentScreen s' = SCREEN_PLACE_BID ->
  currentScreen s <> SCREEN_PLACE_BID ->
  selectedItemIndex s' = selectedItemIndex s
  /\ exists it, item_at s (selectedItemIndex s) = Some it
                /\ auctionClosed it = false.
Proof.
  intros fr s s' H Scr' Scr. unfold update_item_details in H.
  set_literals_in H. unfold with_message in H.
  destruct (clicked fr backButtonRect).
  - simpl in H. injection H as <-. discriminate.
  - cbn [bind] in H. destruct (selectedItemIndex s =? -1).
    + simpl in H. injection H as <-. contradiction.
    + destruct (item_at s (selectedItemIndex s)) as [it|]; [|discriminate].
      cbn [bind] in H.
      destruct (auctionClosed it) eqn:C.
      * simpl in H. injection H as <-. contradiction.
      * simpl in H. destruct (clicked fr placeBidButtonRect).
        -- unfold_some H. to_fields. cbn in *. split; [congruence|].
           exists it. auto.
        -- injection H as <-. contradiction.
Qed.

(** In every reachable state on the PlaceBid screen the selected item's
    auction is open. *)
Lemma reachable_bids_on_open_item : forall s,
  reachable s ->
  currentScreen s = SCREEN_PLACE_BID ->
  exists it, item_at s (selectedItemIndex s) = Some it
             /\ auctionClosed it = false.
Proof.
  induction 1 as [file s H | fr s s' R IH H]; intro Scr.
  - unfold startup in H.
    destruct (LoadUsers (InitAuctionData (globals file))) as [[ok s1]|] eqn:E;
      [|discriminate].
    cbn [bind] in H. injection H as <-.
    apply LoadUsers_fields in E. cbn in Scr. destruct E as (_ & _ & _ & E & _).
    rewrite E in Scr. discriminate.
  - apply step_inv in H.
    destruct (update_timer_core fr s) as (Ei & Ec & Es & Escr & _).
    set (s0 := update_timer fr s) in *.
    assert (At : forall i, item_at s0 i = item_at s i)
      by (intro i; apply item_at_update_timer).
    pose proof (dispatch_static fr s0 s' H) as (M & _).
    pose proof (update_screen_allowed fr s0 s' H) as T. rewrite Scr in T.
    unfold dispatch in H. destruct (currentScreen s0) eqn:Scr0; try discriminate.
    + destruct (update_item_details_to_bid fr s0 s' H Scr) as (Sel & it & Hit & C);
        [congruence|].
      destruct (identity_at s0 s' _ it M Hit) as (it' & Hit' & Id).
      rewrite Sel. exists it'. split; [exact Hit'|].
      unfold item_identity in Id. congruence.
    + destruct IH as (it & Hit & C); [congruence|].
      rewrite <- Es, <- At in Hit.
      destruct (identity_at s0 s' _ it M Hit) as (it' & Hit' & Id).
      rewrite (update_place_bid_sel fr s0 s' H). exists it'.
      split; [exact Hit'|]. unfold item_identity in Id. congruence.
Qed.

(** Across a frame from a reachable state, every item keeps its name, its
    description and its open or closed status, and an item whose auction is
    closed keeps its bid and its bidder as well: no input places a bid on a
    closed auction. *)
Theorem closed_item_is_never_changed :
  forall (fr : Frame) (s s' : State) (i : Z) (it : AuctionItem),
  reachable s ->
  step fr s = Some s' ->
  item_at s i = Some it ->
  exists it',
    item_at s' i = Some it'
    /\ name it' = name it
    /\ description it' = description it
    /\ auctionClosed it' = auctionClosed it
    /\ (auctionClosed it = true -> it' = it).
Proof.
  intros fr s s' i it R H Hit.
  pose proof H as H0. apply step_inv in H0.
  destruct (update_timer_core fr s) as (Ei & Ec & Es & Escr & _).
  pose proof (dispatch_static fr _ s' H0) as (M & _). rewrite Ei in M.
  destruct (identity_at s s' i it M Hit) as (it' & Hit' & Id).
  exists it'. unfold item_identity in Id. injection Id as I1 I2 I3.
  repeat split; try assumption.
  intro C.
  unfold dispatch in H0. rewrite Escr in H0.
  destruct (currentScreen s) eqn:Scr;
    try (assert (K : items s' = items s)
           by (first [ apply update_auth_menu_items in H0
                     | apply update_sign_in_items in H0
                     | apply update_sign_up_items in H0
                     | apply update_item_list_items in H0
                     | apply update_item_details_items in H0 ]; congruence);
         unfold item_at in *; rewrite K in Hit'; congruence).
  (* PlaceBid: the item written, if any, is the selected one, which is open *)
  apply update_place_bid_items in H0.
  destruct H0 as [K | (_ & v & w & Neg & Hv & _ & _ & Hset)].
  - unfold item_at in *. rewrite K, Ei in Hit'. congruence.
  - destruct (reachable_bids_on_open_item s R Scr) as (o & Ho & Co).
    rewrite Es in Neg, Hset. rewrite Ei in Hset.
    apply list_set_nth in Hset. destruct Hset as [_ O].
    unfold item_at in Hit, Hit', Ho.
    destruct (i <? 0) eqn:Ineg; [discriminate|]. apply Z.ltb_ge in Ineg.
    destruct (selectedItemIndex s <? 0) eqn:Sneg; [discriminate|].
    destruct (Z.eq_dec i (selectedItemIndex s)) as [->|Ne]; [congruence|].
    rewrite O in Hit' by lia. congruence.
Qed.

Lemma closed_item_is_never_changed_witness :
  exists it',
    item_at (state_of (step (click_at 300 490) at_bid_entered)) 2 = Some it'
    /\ name it' = str "Vintage Guitar"
    /\ description it' = str "1960s electric guitar, well-preserved."
    /\ auctionClosed it' = true
    /\ (true = true ->
        it' = mkItem (str "Vintage Guitar")
                (str "1960s electric guitar, well-preserved.")
                (f32_of_Z 2500) (str "Mary J.") true).
Proof.
  apply (closed_item_is_never_changed (click_at 300 490) at_bid_entered
           (state_of (step (click_at 300 490) at_bid_entered)) 2
           (mkItem (str "Vintage Guitar")
              (str "1960s electric guitar, well-preserved.")
              (f32_of_Z 2500) (str "Mary J.") true)).
  - apply (run_reachable [click_at 310 310; type_at 310 310 "1600";
                          click_at 310 390; type_at 310 390 "bob"]
             at_place_bid).
    + exact at_place_bid_reachable.
    + vm_compute. reflexivity.
  - vm_compute. reflexivity.
  - reflexivity.
Defined.

(** ** Accounts are only ever added *)

Lemma RegisterUser_users : forall u p w s ok s',
  RegisterUser u p w s = Some (ok, s') ->
  (users s' = users s /\ users_file s' = users_file s /\ ok = false)
  \/ (UsernameExists s u = false /\ userCount s < MAX_USERS
      /\ strlen u < MAX_NAME_LENGTH
      /\ users s' = users s ++ [mkUser (strz u) (HashPassword p)]
      /\ users_file s' = (if w then Some (print_users (users s'))
                          else users_file s)
      /\ ok = w).
Proof.
  intros u p w s ok s' H. unfold RegisterUser in H.
  destruct (MAX_USERS <=? userCount s) eqn:C;
    [injection H as <- <-; left; auto|].
  destruct (UsernameExists s u) eqn:E; [injection H as <- <-; left; auto|].
  unfold strcpy_into in H.
  destruct (strlen u <? MAX_NAME_LENGTH) eqn:L; cbn [bind] in H; [|discriminate].
  apply Z.leb_gt in C. apply Z.ltb_lt in L. right.
  unfold SaveUsers in H. destruct w; injection H as <- <-; cbn; auto 10.
Qed.

Lemma register_click_users : forall fr s s',
  register_click fr s = Some s' ->
  (users s' = users s /\ users_file s' = users_file s)
  \/ exists u p,
       users s' = users s ++ [mkUser u (HashPassword p)]
       /\ 3 <= strlen u < MAX_NAME_LENGTH
       /\ 5 <= strlen p
       /\ UsernameExists s u = false
       /\ userCount s < MAX_USERS
       /\ users_file s' = (if usersFileWritable fr
                           then Some (print_users (users s'))
                           else users_file s).
Proof.
  intros fr s s' H. unfold register_click in H.
  destruct (cstr (text (signUpUsernameInput s))) as [u|] eqn:Eu;
    cbn [bind] in H; [|discriminate].
  destruct (strlen u <? 3) eqn:L3; [injection H as <-; left; auto|].
  destruct (cstr (text (signUpPasswordInput s))) as [p|] eqn:Ep;
    cbn [bind] in H; [|discriminate].
  destruct (strlen p <? 5) eqn:L5; [injection H as <-; left; auto|].
  destruct (cstr (text (signUpConfirmPasswordInput s))) as [c|];
    cbn [bind] in H; [|discriminate].
  destruct (negb (streq p c)); [injection H as <-; left; auto|].
  destruct (UsernameExists s u) eqn:Ex; [injection H as <-; left; auto|].
  destruct (RegisterUser u p (usersFileWritable fr) s) as [[ok s1]|] eqn:R;
    cbn [bind] in H; [|discriminate].
  assert (K : users s' = users s1 /\ users_file s' = users_file s1).
  { clear R. destruct ok; unfold_some H; to_fields; cbn in *;
      split; congruence. }
  destruct K as [K1 K2]. rewrite K1, K2.
  apply RegisterUser_users in R.
  destruct R as [(R1 & R2 & _) | (_ & R2 & R3 & R4 & R5 & _)]; [left; auto|].
  right. exists u, p. rewrite (cstr_nonzero _ _ Eu) in R4.
  apply Z.ltb_ge in L3, L5. auto 10.
Qed.

Lemma dispatch_users : forall fr s s',
  dispatch fr s = Some s' ->
  (users s' = users s /\ users_file s' = users_file s)
  \/ account_added fr s s'.
Proof.
  intros fr s s' H. unfold dispatch in H.
  destruct (currentScreen s) eqn:Scr.
  - left. unfold update_auth_menu in H.
    unfold_some H; to_fields; cbn in *; split; congruence.
  - left. unfold update_sign_in in H.
    unfold_some H; to_fields; cbn in *; split; congruence.
  - unfold update_sign_up in H.
    destruct (UpdateInputBox fr (charsPressed fr) (signUpUsernameInput s))
      as [[b1 q1]|]; cbn [bind] in H; [|discriminate].
    destruct (UpdateInputBox fr q1 (signUpPasswordInput s)) as [[b2 q2]|];
      cbn [bind] in H; [|discriminate].
    destruct (UpdateInputBox fr q2 (signUpConfirmPasswordInput s)) as [[b3 q3]|];
      cbn [bind] in H; [|discriminate].
    destruct (clicked fr registerButton) eqn:Click.
    + destruct (register_click fr (set_signUpInputs b1 b2 b3 s)) as [s1|] eqn:R;
        cbn [bind] in H; [|discriminate].
      assert (K : users s' = users s1 /\ users_file s' = users_file s1).
      { destruct (clicked fr signUpBackButton); unfold_some H; to_fields;
          cbn in *; split; congruence. }
      destruct K as [Ku Kf]. rewrite Ku, Kf.
      apply register_click_users in R. cbn in R.
      destruct R as [R | (u & p & R)]; [now left|].
      right. split; [exact Scr|]. split; [exact Click|].
      exists u, p. unfold UsernameExists, userCount in *. cbn in R.
      destruct R as (R1 & R2 & R3 & R4 & R5 & R6). rewrite Ku, Kf.
      repeat split; try assumption; lia.
    + cbn [bind] in H. left.
      destruct (clicked fr signUpBackButton); unfold_some H; to_fields;
        cbn in *; split; congruence.
  - left. unfold update_item_list in H.
    unfold_some H; to_fields; cbn in *; split; congruence.
  - left. unfold update_item_details in H.
    unfold_some H; to_fields; cbn in *; split; congruence.
  - left. unfold update_place_bid, bid_click, set_item_at in H.
    unfold_some H; to_fields; cbn in *; split; congruence.
Qed.

(** An account is never removed or altered. Across a frame the users and
    the users file stay as they were, unless the frame is a click on
    Register on the SignUp screen that appends exactly one account: its
    username has at least 3 characters and was not in the store, its
    password had at least 5, the store was below MAX_USERS, and the file
    is rewritten from the whole store when it can be opened and left alone
    when it cannot. *)
Theorem accounts_are_only_added : forall (fr : Frame) (s s' : State),
  step fr s = Some s' ->
  (users s' = users s /\ users_file s' = users_file s)
  \/ account_added fr s s'.
Proof.
  intros fr s s' H. apply step_inv in H.
  destruct (update_timer_core fr s) as (_ & _ & _ & Escr & Eu & Ef).
  apply dispatch_users in H. unfold account_added, userCount in *.
  assert (Ex : forall u, UsernameExists (update_timer fr s) u = UsernameExists s u)
    by (intro u; unfold UsernameExists; now rewrite Eu).
  rewrite Escr, Eu, Ef in H.
  destruct H as [H | (H1 & H2 & u & p & H3)]; [now left|].
  right. split; [exact H1|]. split; [exact H2|]. exists u, p.
  rewrite <- Ex. exact H3.
Qed.

Lemma accounts_are_only_added_witness :
  (users (state_of (step (click_at 400 420) at_sign_up_bob)) = users at_sign_up_bob
   /\ users_file (state_of (step (click_at 400 420) at_sign_up_bob))
      = users_file at_sign_up_bob)
  \/ account_added (click_at 400 420) at_sign_up_bob
       (state_of (step (click_at 400 420) at_sign_up_bob)).
Proof.
  apply (accounts_are_only_added (click_at 400 420) at_sign_up_bob).
  vm_compute. reflexivity.
Defined.

(** ** Usernames stay unique *)

Lemma streq_eq : forall a b, streq a b = true <-> strz a = strz b.
Proof. intros a b. unfold streq. apply list_eqb_eq. Qed.

Lemma UsernameExists_false : forall s u,
  UsernameExists s u = false ->
  ~ In (strz u) (map (fun x => strz (username x)) (users s)).
Proof.
  intros s u H K. apply in_map_iff in K. destruct K as (x & E & I).
  unfold UsernameExists in H.
  assert (T : existsb (fun x => streq (username x) u) (users s) = true).
  { apply existsb_exists. exists x. split; [exact I|]. now apply streq_eq. }
  congruence.
Qed.

Lemma NoDup_snoc : forall (A : Type) (l : list A) (x : A),
  NoDup l -> ~ In x l -> NoDup (l ++ [x]).
Proof.
  intros A l x N I. induction N as [|y l Hy N IH]; simpl.
  - constructor; [intros []|constructor].
  - constructor.
    + intro K. apply in_app_or in K. destruct K as [K|[K|[]]].
      * contradiction.
      * apply I. left. symmetry. exact K.
    + apply IH. intro K. apply I. right. exact K.
Qed.

Lemma dispatch_unique : forall fr s s',
  dispatch fr s = Some s' ->
  unique_names (users s) ->
  unique_names (users s').
Proof.
  intros fr s s' H U. apply dispatch_users in H.
  destruct H as [[E _] | (_ & _ & u & p & E & Lu & _ & Ex & _)].
  - now rewrite E.
  - rewrite E. unfold unique_names. rewrite map_app. cbn [map username].
    apply NoDup_snoc; [exact U|]. now apply UsernameExists_false.
Qed.

(** If no two accounts share a username before a frame, none do after it:
    the only account a frame can add was checked against the store. *)
Theorem usernames_stay_unique : forall (fr : Frame) (s s' : State),
  step fr s = Some s' ->
  unique_names (users s) ->
  unique_names (users s').
Proof.
  intros fr s s' H U. apply step_inv in H.
  apply (dispatch_unique fr _ s' H).
  destruct (update_timer_core fr s) as (_ & _ & _ & _ & Eu & _).
  now rewrite Eu.
Qed.

Lemma usernames_stay_unique_witness :
  unique_names (users (state_of (step (click_at 400 420) at_sign_up_bob))).
Proof.
  apply (usernames_stay_unique (click_at 400 420) at_sign_up_bob).
  - vm_compute. reflexivity.
  - constructor.
Defined.

(** ** The item screens are behind the sign-in *)

Lemma UsernameExists_strz : forall s u,
  UsernameExists s (strz u) = UsernameExists s u.
Proof.
  intros s u. unfold UsernameExists, streq. now rewrite strz_idem.
Qed.

Lemma AuthenticateUser_exists : forall s u p,
  AuthenticateUser s u p = true -> UsernameExists s u = true.
Proof.
  intros s u p H. unfold AuthenticateUser in H. unfold UsernameExists.
  apply existsb_exists in H. destruct H as (x & I & H).
  apply andb_true_iff in H. apply existsb_exists. exists x. tauto.
Qed.

Lemma UsernameExists_users : forall s s' u,
  users s' = users s -> UsernameExists s' u = UsernameExists s u.
Proof. intros s s' u E. unfold UsernameExists. now rewrite E. Qed.

Lemma dispatch_session : forall fr s s',
  dispatch fr s = Some s' ->
  (signed_in s -> UsernameExists s (loggedInUsername s) = true) ->
  signed_in s' -> UsernameExists s' (loggedInUsername s') = true.
Proof.
  intros fr s s' H IH S'. unfold signed_in in *.
  pose proof (update_screen_allowed fr s s' H) as T.
  unfold dispatch in H. destruct (currentScreen s) eqn:Scr.
  - destruct S' as [S'|[S'|S']]; rewrite S' in T; discriminate.
  - (* SignIn: only a successful login leads to the item list *)
    unfold update_sign_in in H.
    destruct (UpdateInputBox fr (charsPressed fr) (signInUsernameInput s))
      as [[b1 q1]|]; cbn [bind] in H; [|discriminate].
    destruct (UpdateInputBox fr q1 (signInPasswordInput s)) as [[b2 q2]|];
      cbn [bind] in H; [|discriminate].
    set (s1 := set_signInInputs b1 b2 s) in *.
    destruct (clicked fr loginButton).
    + destruct (cstr (text (signInUsernameInput s1))) as [u|];
        cbn [bind] in H; [|discriminate].
      destruct (cstr (text (signInPasswordInput s1))) as [p|];
        cbn [bind] in H; [|discriminate].
      destruct (AuthenticateUser s1 u p) eqn:A.
      * unfold strcpy_into in H. destruct (strlen u <? MAX_NAME_LENGTH);
          cbn [bind] in H; [|discriminate].
        apply AuthenticateUser_exists in A.
        assert (K : users s' = users s /\ (loggedInUsername s' = strz u
                     \/ currentScreen s' = SCREEN_AUTH_MENU)).
        { unfold_some H; to_fields; cbn in *;
            (split; [congruence | first [left; congruence | right; congruence]]). }
        destruct K as [Ku [Kl|Km]].
        -- rewrite Kl, UsernameExists_strz.
           rewrite (UsernameExists_users s s' u Ku). exact A.
        -- destruct S' as [S'|[S'|S']]; congruence.
      * exfalso.
        unfold_some H; to_fields;
          cbn in *; destruct S' as [S'|[S'|S']]; congruence.
    + cbn [bind] in H. exfalso.
      unfold_some H; to_fields;
        cbn in *; destruct S' as [S'|[S'|S']]; congruence.
  - destruct S' as [S'|[S'|S']]; rewrite S' in T; discriminate.
  - unfold update_item_list in H.
    assert (IH' : UsernameExists s (loggedInUsername s) = true)
      by (apply IH; left; reflexivity).
    assert (K : currentScreen s' = SCREEN_AUTH_MENU
                \/ (users s' = users s
                    /\ loggedInUsername s' = loggedInUsername s)).
    { unfold_some H; to_fields; cbn in *;
        first [left; reflexivity | right; split; reflexivity]. }
    destruct K as [K | [Ku Kl]].
    + destruct S' as [S'|[S'|S']]; congruence.
    + rewrite Kl, (UsernameExists_users s s' _ Ku). exact IH'.
  - assert (IH' : UsernameExists s (loggedInUsername s) = true)
      by (apply IH; right; left; reflexivity).
    unfold update_item_details in H.
    assert (K : users s' = users s /\ loggedInUsername s' = loggedInUsername s).
    { unfold_some H; to_fields; cbn in *; split; congruence. }
    destruct K as [Ku Kl]. rewrite Kl, (UsernameExists_users s s' _ Ku). exact IH'.
  - assert (IH' : UsernameExists s (loggedInUsername s) = true)
      by (apply IH; right; right; reflexivity).
    assert (K : users s' = users s /\ loggedInUsername s' = loggedInUsername s).
    { unfold update_place_bid, bid_click, set_item_at in H.
      unfold_some H; to_fields; cbn in *; split; congruence. }
    destruct K as [Ku Kl]. rewrite Kl, (UsernameExists_users s s' _ Ku). exact IH'.
Qed.

(** In every reachable state on the item list, the item details or the
    PlaceBid screen, loggedInUsername is the username of an account of the
    store: these screens are reached only through a login that
    AuthenticateUser accepted, and the session lasts until Logout. *)
Theorem item_screens_need_a_signed_in_user : forall s : State,
  reachable s ->
  signed_in s ->
  UsernameExists s (loggedInUsername s) = true.
Proof.
  induction 1 as [file s H | fr s s' R IH H]; intro S.
  - exfalso. unfold startup in H.
    destruct (LoadUsers (InitAuctionData (globals file))) as [[ok s1]|] eqn:E;
      [|discriminate].
    cbn [bind] in H. injection H as <-.
    apply LoadUsers_fields in E. destruct E as (_ & _ & _ & E & _).
    unfold signed_in in S. cbn in S. rewrite E in S. cbn in S.
    destruct S as [S|[S|S]]; discriminate.
  - apply step_inv in H.
    destruct (update_timer_core fr s) as (_ & _ & _ & Escr & Eu & _).
    destruct (update_timer_shape fr s) as (m & t & Et).
    apply (dispatch_session fr (update_timer fr s) s' H); [|exact S].
    intro S0. unfold signed_in in S0. rewrite Escr in S0.
    rewrite (UsernameExists_users s (update_timer fr s) _ Eu).
    rewrite Et. cbn. now apply IH.
Qed.

Lemma item_screens_need_a_signed_in_user_witness :
  UsernameExists at_place_bid (loggedInUsername at_place_bid) = true.
Proof.
  apply (item_screens_need_a_signed_in_user at_place_bid).
  - exact at_place_bid_reachable.
  - right. right. reflexivity.
Defined.

(** ** What the Login click does *)

Lemma ResetInputBox_cleared : forall b b',
  ResetInputBox b = Some b' ->
  cstr (text b') = Some [] /\ letterCount b' = 0 /\ active b' = false.
Proof.
  intros b b' H. unfold ResetInputBox, array_set_int in H. cbn in H.
  destruct (text b) as [|c rest]; cbn in H; [discriminate|].
  injection H as <-. cbn. auto.
Qed.

Lemma ResetInputBoxes_cleared : forall s s',
  ResetInputBoxes s = Some s' ->
  cleared (bidAmountInput s') /\ cleared (bidderNameInput s')
  /\ cleared (signInUsernameInput s') /\ cleared (signInPasswordInput s')
  /\ cleared (signUpUsernameInput s') /\ cleared (signUpPasswordInput s')
  /\ cleared (signUpConfirmPasswordInput s').
Proof.
  intros s s' H. unfold ResetInputBoxes in H.
  repeat match type of H with
         | bind ?m _ = Some _ =>
             let E := fresh "E" in
             destruct m eqn:E; cbn [bind] in H; [|discriminate]
         end.
  injection H as <-. cbn.
  repeat split; eapply ResetInputBox_cleared; eassumption.
Qed.

Lemma login_click_misses : forall fr,
  clicked fr loginButton = true ->
  CheckCollisionPointRec (mousePoint fr)
    (rectangle (screenWidth / 2 - 120) 250 240 40) = false
  /\ CheckCollisionPointRec (mousePoint fr)
       (rectangle (screenWidth / 2 - 120) 320 240 40) = false
  /\ clicked fr signInBackButton = false.
Proof.
  intros fr H. apply clicked_inv in H. destruct H as [H P].
  unfold loginButton in H. repeat split.
  - disjoint_rects H.
  - disjoint_rects H.
  - unfold clicked, IsMouseOver, signInBackButton. rewrite P, andb_true_r.
    disjoint_rects H.
Qed.

(** On the SignIn screen a click on Login, with [u] and [p] the strings
    the username and password boxes hold: if AuthenticateUser accepts them
    the session is opened for [u], the welcome message is shown, the boxes
    are cleared (the password no longer sits in its box) and the screen is
    the item list; if not, the failure message is shown, nothing else
    changes and the screen stays SignIn. The store is not touched. *)
Theorem SignIn_click_outcomes :
  forall (fr : Frame) (s : State) (u p : list Z),
  reachable s ->
  currentScreen s = SCREEN_SIGN_IN ->
  clicked fr loginButton = true ->
  cstr (text (signInUsernameInput s)) = Some u ->
  cstr (text (signInPasswordInput s)) = Some p ->
  exists s',
    step fr s = Some s'
    /\ users s' = users s
    /\ users_file s' = users_file s
    /\ items s' = items s
    /\ uiMessageTimer s' = UI_MESSAGE_DURATION
    /\ if AuthenticateUser s u p
       then currentScreen s' = SCREEN_ITEM_LIST
            /\ loggedInUsername s' = u
            /\ uiMessage s' = MsgWelcome u
            /\ cleared (signInUsernameInput s')
            /\ cleared (signInPasswordInput s')
       else currentScreen s' = SCREEN_SIGN_IN
            /\ loggedInUsername s' = loggedInUsername s
            /\ uiMessage s' = MsgText "Login failed. Check username/password.".
Proof.
  intros fr s u p R Scr Click Hu Hp.
  assert (W := reachable_wf s R).
  destruct (login_click_misses fr Click) as (M3 & M4 & Back).
  destruct (clicked_inv fr _ Click) as [_ P].
  destruct (proj1 W) as (_ & _ & [W3 R3] & [W4 R4] & _).
  rewrite <- R3 in M3. rewrite <- R4 in M4.
  assert (Lu : 0 <= strlen u <= MAX_INPUT_CHARS).
  { destruct (box_wf_cstr _ W3) as (u' & E & K). congruence. }
  assert (Zu : strz u = u) by exact (cstr_nonzero _ _ Hu).
  destruct (update_timer_shape fr s) as (m & t & Et).
  unfold step. rewrite Et.
  cbn [currentScreen set_uiMessageTimer set_uiMessage]. rewrite Scr.
  unfold update_sign_in.
  cbn [signInUsernameInput signInPasswordInput set_uiMessageTimer set_uiMessage].
  rewrite (UpdateInputBox_click_outside fr _ _ P M3). cbn [bind].
  rewrite (UpdateInputBox_click_outside fr _ _ P M4). cbn [bind].
  rewrite Click.
  cbn [signInUsernameInput signInPasswordInput set_signInInputs deactivated text].
  rewrite Hu, Hp. cbn [bind].
  match goal with
  | |- context [AuthenticateUser ?x u p] =>
      change (AuthenticateUser x u p) with (AuthenticateUser s u p)
  end.
  destruct (AuthenticateUser s u p).
  - rewrite strcpy_into_fits
      by (unfold MAX_NAME_LENGTH, MAX_INPUT_CHARS in *; lia).
    rewrite Zu. cbn [bind].
    cbn [loggedInUsername set_currentScreen set_loggedInUsername].
    rewrite SetUIMessage_fits by (rewrite <- Zu; apply welcome_fits; exact Lu).
    cbn [bind].
    match goal with
    | |- context [ResetInputBoxes ?x] =>
        destruct (ResetInputBoxes_wf x) as (s2 & E2 & W2 & K2);
        [| pose proof (ResetInputBoxes_cleared x s2 E2) as C2; rewrite E2 ]
    end.
    { destruct (proj1 W) as (B1 & B2 & B3 & B4 & B5 & B6 & B7).
      repeat split; cbn; try apply B1; try apply B2; try apply B5;
        try apply B6; try apply B7; try reflexivity;
        try apply W3; try apply W4; assumption. }
    apply core_fields in K2. cbn in K2.
    destruct K2 as (K1 & K3 & K4 & K5 & K6 & K7 & K8 & K9 & K10).
    cbn [bind]. rewrite Back. cbn [bind].
    unfold draw_reads. rewrite K5. cbn [bind].
    exists s2. split; [reflexivity|].
    destruct C2 as (_ & _ & C3 & C4 & _).
    repeat split; try assumption; apply C3 || apply C4.
  - set_literals. cbn [bind]. rewrite Back. cbn [bind]. unfold draw_reads.
    cbn [currentScreen with_message set_uiMessageTimer set_uiMessage
         set_signInInputs].
    rewrite Scr. cbn [bind]. eexists. split; [reflexivity|].
    repeat split. exact Scr.
Qed.

Lemma SignIn_click_outcomes_witness :
  exists s',
    step (click_at 400 410)
      (state_of (run_from_start (firstn 12 (sign_up_and_in "bob" "12345"))))
    = Some s'
    /\ users s' = [mkUser (str "bob") 194116516]
    /\ users_file s' = Some (str "bob 194116516" ++ [10])
    /\ items s' = items empty_store
    /\ uiMessageTimer s' = UI_MESSAGE_DURATION
    /\ currentScreen s' = SCREEN_ITEM_LIST
    /\ loggedInUsername s' = str "bob"
    /\ uiMessage s' = MsgWelcome (str "bob")
    /\ cleared (signInUsernameInput s')
    /\ cleared (signInPasswordInput s').
Proof.
  apply (SignIn_click_outcomes (click_at 400 410)
           (state_of (run_from_start (firstn 12 (sign_up_and_in "bob" "12345"))))
           (str "bob") (str "12345")).
  - apply (run_from_start_reachable (firstn 12 (sign_up_and_in "bob" "12345"))).
    vm_compute. reflexivity.
  - vm_compute. reflexivity.
  - vm_compute. reflexivity.
  - vm_compute. reflexivity.
  - vm_compute. reflexivity.
Defined.

(** ** What the Register click does *)

Ltac signup_rejected Scr Back :=
  set_literals; cbn [bind]; set_literals; cbn [bind];
  rewrite Back; cbn [bind]; unfold draw_reads;
  cbn [currentScreen with_message set_uiMessageTimer set_uiMessage
       set_signUpInputs set_users users users_file loggedInUsername];
  rewrite Scr; cbn [bind]; eexists; split; [reflexivity|];
  cbn [currentScreen with_message set_uiMessageTimer set_uiMessage
       set_signUpInputs set_users users users_file loggedInUsername uiMessage
       orb andb negb];
  repeat split; exact Scr.

(** On the SignUp screen a click on Register, with [u], [p] and [c] the
    strings the three boxes hold. The checks are made in the order lengths,
    confirmation, name taken, capacity. When all pass, the account
    [(u, HashPassword p)] is appended; it is written to the file, and the
    screen becomes SignIn, only if the file can be opened: if not, the
    account stays in memory, the screen stays SignUp and the message is the
    failure one. At capacity the message is that same failure message, not
    the one RegisterUser sets. The session is not touched. *)
Theorem SignUp_click_outcomes :
  forall (fr : Frame) (s : State) (u p c : list Z),
  reachable s ->
  currentScreen s = SCREEN_SIGN_UP ->
  clicked fr registerButton = true ->
  cstr (text (signUpUsernameInput s)) = Some u ->
  cstr (text (signUpPasswordInput s)) = Some p ->
  cstr (text (signUpConfirmPasswordInput s)) = Some c ->
  exists s',
    step fr s = Some s'
    /\ uiMessage s' = signup_message s (usersFileWritable fr) u p c
    /\ uiMessageTimer s' = UI_MESSAGE_DURATION
    /\ users s' = (if signup_accepts s u p c
                   then users s ++ [mkUser u (HashPassword p)]
                   else users s)
    /\ users_file s' = (if signup_accepts s u p c && usersFileWritable fr
                        then Some (print_users (users s'))
                        else users_file s)
    /\ currentScreen s' = (if signup_accepts s u p c && usersFileWritable fr
                           then SCREEN_SIGN_IN else SCREEN_SIGN_UP)
    /\ loggedInUsername s' = loggedInUsername s.
Proof.
  intros fr s u p c R Scr Click Hu Hp Hc.
  assert (W := reachable_wf s R).
  destruct (proj1 W) as (_ & _ & _ & _ & [W5 R5] & [W6 R6] & [W7 R7]).
  destruct (register_click_misses fr Click) as (M5 & M6 & M7 & Back).
  destruct (clicked_inv fr _ Click) as [_ P].
  rewrite <- R5 in M5. rewrite <- R6 in M6. rewrite <- R7 in M7.
  assert (Lu : 0 <= strlen u <= MAX_INPUT_CHARS).
  { destruct (box_wf_cstr _ W5) as (u' & E & K). congruence. }
  assert (Zu : strz u = u) by exact (cstr_nonzero _ _ Hu).
  destruct (update_timer_shape fr s) as (m & t & Et).
  unfold step. rewrite Et.
  cbn [currentScreen set_uiMessageTimer set_uiMessage]. rewrite Scr.
  unfold update_sign_up.
  cbn [signUpUsernameInput signUpPasswordInput signUpConfirmPasswordInput
       set_uiMessageTimer set_uiMessage].
  rewrite (UpdateInputBox_click_outside fr _ _ P M5). cbn [bind].
  rewrite (UpdateInputBox_click_outside fr _ _ P M6). cbn [bind].
  rewrite (UpdateInputBox_click_outside fr _ _ P M7). cbn [bind].
  rewrite Click. unfold register_click, signup_message, signup_accepts.
  cbn [signUpUsernameInput signUpPasswordInput signUpConfirmPasswordInput
       set_signUpInputs deactivated text].
  rewrite Hu. cbn [bind].
  destruct (strlen u <? 3) eqn:E3; [signup_rejected Scr Back|].
  rewrite Hp. cbn [bind].
  destruct (strlen p <? 5) eqn:E5; [signup_rejected Scr Back|].
  rewrite Hc. cbn [bind].
  destruct (streq p c) eqn:Ec; cbn [negb]; [|signup_rejected Scr Back].
  match goal with
  | |- context [UsernameExists ?x u] =>
      change (UsernameExists x u) with (UsernameExists s u)
  end.
  destruct (UsernameExists s u) eqn:Eu; [signup_rejected Scr Back|].
  destruct (userCount s <? MAX_USERS) eqn:Ecap.
  - (* the account is appended *)
    apply Z.ltb_lt in Ecap.
    match goal with
    | |- context [RegisterUser u p ?w ?x] =>
        rewrite (RegisterUser_appends u p w x)
          by (try exact Eu; try exact Ecap;
              unfold MAX_NAME_LENGTH, MAX_INPUT_CHARS in *; lia)
    end.
    rewrite Zu. unfold SaveUsers.
    destruct (usersFileWritable fr) eqn:Wr; cbn [bind andb orb negb].
    + set_literals. cbn [bind].
      match goal with
      | |- context [ResetInputBoxes ?x] =>
          destruct (ResetInputBoxes_wf x) as (s2 & E2 & W2 & K2);
          [| rewrite E2 ]
      end.
      { destruct (proj1 W) as (B1 & B2 & B3 & B4 & B5 & B6 & B7).
        repeat split; cbn; try apply B1; try apply B2; try apply B3;
          try apply B4; try reflexivity;
          try apply W5; try apply W6; try apply W7; assumption. }
      apply core_fields in K2. cbn in K2.
      destruct K2 as (K1 & K3 & K4 & K5 & K6 & K7 & K8 & K9 & K10).
      cbn [bind]. rewrite Back. cbn [bind].
      unfold draw_reads. rewrite K5. cbn [bind].
      exists s2. split; [reflexivity|].
      rewrite K6. repeat split; assumption.
    + signup_rejected Scr Back.
  - (* the store is full: RegisterUser refuses, its message is replaced *)
    unfold RegisterUser.
    match goal with
    | |- context [MAX_USERS <=? userCount ?x] =>
        change (userCount x) with (userCount s)
    end.
    apply Z.ltb_ge in Ecap. apply Z.leb_le in Ecap. rewrite Ecap.
    signup_rejected Scr Back.
Qed.

Lemma SignUp_click_outcomes_witness :
  exists s',
    step click_register_readonly at_sign_up_bob = Some s'
    /\ uiMessage s' = MsgText "Registration failed. Try again."
    /\ uiMessageTimer s' = UI_MESSAGE_DURATION
    /\ users s' = [mkUser (str "bob") 194116516]
    /\ users_file s' = None
    /\ currentScreen s' = SCREEN_SIGN_UP
    /\ loggedInUsername s' = [].
Proof.
  apply (SignUp_click_outcomes click_register_readonly at_sign_up_bob
           (str "bob") (str "12345") (str "12345")).
  - apply (run_from_start_reachable (firstn 7 (sign_up_and_in "bob" "12345"))).
    vm_compute. reflexivity.
  - reflexivity.
  - reflexivity.
  - reflexivity.
  - reflexivity.
  - reflexivity.
Defined.

(** ** What a click on the item list does *)

Lemma itemRect_rows : forall p i,
  CheckCollisionPointRec p (itemRect i) = true ->
  (inject_Z (100 + i * 60) <= vec_y p /\ vec_y p < inject_Z (150 + i * 60))%Q.
Proof.
  intros p i H. unfold itemRect in H. apply CheckCollisionPointRec_iff in H.
  destruct H as (_ & _ & H1 & H2). split; [exact H1|].
  replace (150 + i * 60) with ((100 + i * 60) + 50) by lia.
  rewrite inject_Z_plus. exact H2.
Qed.

(** The rows of the list do not overlap. *)
Lemma itemRect_hit_unique : forall p i j,
  CheckCollisionPointRec p (itemRect i) = true ->
  CheckCollisionPointRec p (itemRect j) = true ->
  i = j.
Proof.
  intros p i j Hi Hj.
  apply itemRect_rows in Hi, Hj. destruct Hi as [A B], Hj as [C D].
  assert (X : (inject_Z (100 + i * 60) < inject_Z (150 + j * 60))%Q)
    by (eapply Qle_lt_trans; eassumption).
  assert (Y : (inject_Z (100 + j * 60) < inject_Z (150 + i * 60))%Q)
    by (eapply Qle_lt_trans; eassumption).
  rewrite <- Zlt_Qlt in X, Y. lia.
Qed.

(** The rows lie below the Logout button. *)
Lemma itemRect_misses_logout : forall p i,
  0 <= i ->
  CheckCollisionPointRec p (itemRect i) = true ->
  CheckCollisionPointRec p logoutButtonRect = false.
Proof.
  intros p i Hi H. apply itemRect_rows in H. destruct H as [A _].
  destruct (CheckCollisionPointRec p logoutButtonRect) eqn:E; [|reflexivity].
  unfold logoutButtonRect in E. apply CheckCollisionPointRec_iff in E.
  destruct E as (_ & _ & _ & E). rewrite <- inject_Z_plus in E.
  assert (X : (inject_Z (100 + i * 60) < inject_Z (20 + 40))%Q)
    by (eapply Qle_lt_trans; eassumption).
  rewrite <- Zlt_Qlt in X. lia.
Qed.

Lemma item_list_loop_first : forall fr fuel i s j,
  i <= j < i + Z.of_nat fuel ->
  CheckCollisionPointRec (mousePoint fr) (itemRect j) = true ->
  (forall k, i <= k < j ->
     CheckCollisionPointRec (mousePoint fr) (itemRect k) = false) ->
  item_list_loop fr fuel i s
  = Some (with_message (MsgText "")
            (set_currentScreen SCREEN_ITEM_DETAILS (set_selectedItemIndex j s))).
Proof.
  induction fuel as [|n IH]; intros i s j Hj Hit Before; [lia|].
  cbn [item_list_loop].
  destruct (Z.eq_dec i j) as [->|N].
  - rewrite Hit. reflexivity.
  - rewrite (Before i) by lia. apply IH; [lia | exact Hit |].
    intros k Hk. apply Before. lia.
Qed.

Lemma item_list_loop_none : forall fr fuel i s,
  (forall k, i <= k < i + Z.of_nat fuel ->
     CheckCollisionPointRec (mousePoint fr) (itemRect k) = false) ->
  item_list_loop fr fuel i s = Some s.
Proof.
  induction fuel as [|n IH]; intros i s H; [reflexivity|].
  cbn [item_list_loop]. rewrite (H i) by lia. apply IH.
  intros k Hk. apply H. lia.
Qed.

(** On the item list, a click on the row of item [i] opens the details of
    that item and of no other (the rows do not overlap and lie clear of the
    Logout button), whatever the item's state; a click on Logout ends the
    session, returns to the menu and selects nothing. Neither touches the
    items or the accounts. *)
Theorem ItemList_click_outcomes :
  forall (fr : Frame) (s : State),
  reachable s ->
  currentScreen s = SCREEN_ITEM_LIST ->
  mousePressed fr = true ->
  (forall i, 0 <= i < itemCount s ->
     CheckCollisionPointRec (mousePoint fr) (itemRect i) = true ->
     exists s' it,
       step fr s = Some s'
       /\ currentScreen s' = SCREEN_ITEM_DETAILS
       /\ selectedItemIndex s' = i
       /\ item_at s' i = Some it
       /\ uiMessage s' = MsgText ""
       /\ loggedInUsername s' = loggedInUsername s
       /\ items s' = items s /\ users s' = users s)
  /\ (CheckCollisionPointRec (mousePoint fr) logoutButtonRect = true ->
      exists s',
        step fr s = Some s'
        /\ currentScreen s' = SCREEN_AUTH_MENU
        /\ loggedInUsername s' = []
        /\ selectedItemIndex s' = selectedItemIndex s
        /\ uiMessage s' = MsgText "Logged out successfully."
        /\ items s' = items s /\ users s' = users s).
Proof.
  intros fr s R Scr P.
  destruct (reachable_wf s R) as (_ & Len & Cnt & _ & _).
  destruct (update_timer_shape fr s) as (m & t & Et).
  split.
  - intros i Hi Hit.
    destruct (item_at_defined s i Len) as (it & Eit); [lia|].
    unfold step. rewrite Et.
    cbn [currentScreen set_uiMessageTimer set_uiMessage]. rewrite Scr.
    unfold update_item_list. rewrite P.
    cbn [itemCount set_uiMessageTimer set_uiMessage].
    rewrite (item_list_loop_first fr _ 0 _ i); [| lia | exact Hit |].
    + unfold clicked, IsMouseOver.
      rewrite (itemRect_misses_logout _ i (proj1 Hi) Hit).
      cbn [andb bind]. unfold draw_reads.
      cbn [currentScreen selectedItemIndex with_message set_uiMessageTimer
           set_uiMessage set_currentScreen set_selectedItemIndex].
      destruct (i =? -1) eqn:E1; [apply Z.eqb_eq in E1; lia|].
      match goal with
      | |- context [item_at ?x i] => change (item_at x i) with (item_at s i)
      end.
      rewrite Eit. cbn [bind]. eexists _, it. split; [reflexivity|].
      repeat split. exact Eit.
    + intros k Hk.
      destruct (CheckCollisionPointRec (mousePoint fr) (itemRect k)) eqn:E;
        [|reflexivity].
      pose proof (itemRect_hit_unique _ _ _ E Hit). lia.
  - intros Hit.
    unfold step. rewrite Et.
    cbn [currentScreen set_uiMessageTimer set_uiMessage]. rewrite Scr.
    unfold update_item_list. rewrite P.
    rewrite item_list_loop_none.
    + unfold clicked, IsMouseOver. rewrite Hit, P. cbn [andb bind].
      set_literals. cbn [bind].
      unfold draw_reads. cbn. eexists. split; [reflexivity|].
      repeat split.
    + intros k Hk.
      destruct (CheckCollisionPointRec (mousePoint fr) (itemRect k)) eqn:E;
        [|reflexivity].
      rewrite (itemRect_misses_logout _ k) in Hit; [discriminate | lia | exact E].
Qed.

Lemma ItemList_click_outcomes_witness :
  (exists s' it,
     step (click_at 100 230) at_item_list = Some s'
     /\ currentScreen s' = SCREEN_ITEM_DETAILS
     /\ selectedItemIndex s' = 2
     /\ item_at s' 2 = Some it
     /\ uiMessage s' = MsgText ""
     /\ loggedInUsername s' = loggedInUsername at_item_list
     /\ items s' = items at_item_list /\ users s' = users at_item_list)
  /\ (exists s',
        step (click_at 700 30) at_item_list = Some s'
        /\ currentScreen s' = SCREEN_AUTH_MENU
        /\ loggedInUsername s' = []
        /\ selectedItemIndex s' = selectedItemIndex at_item_list
        /\ uiMessage s' = MsgText "Logged out successfully."
        /\ items s' = items at_item_list /\ users s' = users at_item_list).
Proof.
  assert (R : reachable at_item_list).
  { apply (run_from_start_reachable (sign_up_and_in "bob" "12345")).
    vm_compute. reflexivity. }
  split.
  - apply (proj1 (ItemList_click_outcomes (click_at 100 230) at_item_list R
                    eq_refl eq_refl) 2).
    + vm_compute. split; [discriminate | reflexivity].
    + reflexivity.
  - apply (proj2 (ItemList_click_outcomes (click_at 700 30) at_item_list R
                    eq_refl eq_refl)).
    reflexivity.
Defined.

(** ** The message line *)

Lemma startup_message : forall file s,
  startup file = Some s ->
  uiMessage s = MsgText "" /\ uiMessageTimer s = f32_zero.
Proof.
  intros file s H. unfold startup, LoadUsers in H. cbn in H.
  destruct file as [contents|]; cbn in H.
  - destruct (LoadUsers_loop _ contents []); cbn in H; [|discriminate].
    injection H as <-. split; reflexivity.
  - injection H as <-. split; reflexivity.
Qed.

Ltac message_done :=
  to_fields; cbn in *;
  first
    [ left; split; congruence
    | right; split;
      [ congruence
      | repeat match goal with K : uiMessage _ = _ |- _ => rewrite K end;
        reflexivity ] ].

(** The update of one screen leaves the message and its timer alone, or
    ends with a message set in this frame: one of [frame_texts], or a
    formatted one, and its timer at the full duration. *)
Lemma dispatch_message : forall fr s s',
  dispatch fr s = Some s' ->
  (uiMessage s' = uiMessage s /\ uiMessageTimer s' = uiMessageTimer s)
  \/ (uiMessageTimer s' = UI_MESSAGE_DURATION
      /\ frame_message (uiMessage s') = true).
Proof.
  intros fr s s' H. unfold dispatch in H.
  destruct (currentScreen s) eqn:Scr.
  - unfold update_auth_menu in H. unfold_some H; message_done.
  - unfold update_sign_in in H. unfold_some H; message_done.
  - unfold update_sign_up, register_click in H. unfold_some H; message_done.
  - unfold update_item_list in H. unfold_some H; message_done.
  - unfold update_item_details in H. unfold_some H; message_done.
  - unfold update_place_bid, bid_click, set_item_at in H.
    unfold_some H; message_done.
Qed.

Lemma update_timer_message : forall fr s,
  (uiMessage (update_timer fr s) = uiMessage s
   \/ uiMessage (update_timer fr s) = MsgText "")
  /\ (f32_le (uiMessageTimer (update_timer fr s)) f32_zero = true ->
      uiMessage (update_timer fr s) = MsgText ""
      \/ (uiMessage (update_timer fr s) = uiMessage s
          /\ uiMessageTimer (update_timer fr s) = uiMessageTimer s)).
Proof.
  intros fr s. unfold update_timer.
  destruct (f32_gt (uiMessageTimer s) f32_zero) eqn:G.
  - cbn [uiMessageTimer set_uiMessageTimer].
    destruct (f32_le (f32_sub (uiMessageTimer s) (frameTime fr)) f32_zero) eqn:L.
    + split; [right; reflexivity | left; reflexivity].
    + split; [left; reflexivity|]. cbn. intro K. congruence.
  - split; [left; reflexivity | right; split; reflexivity].
Qed.

(** The message line is empty once its timer has run out: in every state
    the program reaches, a timer that is not positive (and not a NaN)
    comes with the empty message. *)
Theorem no_message_after_its_timer : forall s : State,
  reachable s ->
  f32_le (uiMessageTimer s) f32_zero = true ->
  uiMessage s = MsgText "".
Proof.
  induction 1 as [file s H | fr s s' R IH H]; intro T.
  - apply (startup_message file s H).
  - apply step_inv in H. apply dispatch_message in H.
    destruct H as [[Hm Ht] | [Ht _]].
    + rewrite Hm. rewrite Ht in T.
      destruct (proj2 (update_timer_message fr s) T) as [K | [Km Kt]];
        [exact K|].
      rewrite Km. apply IH. rewrite <- Kt. exact T.
    + rewrite Ht in T. vm_compute in T. discriminate T.
Qed.

Lemma no_message_after_its_timer_witness :
  uiMessage at_sign_up_later = MsgText "".
Proof.
  apply (no_message_after_its_timer at_sign_up_later).
  - apply (run_from_start_reachable [click_at 400 350; idle_for 5]).
    vm_compute. reflexivity.
  - vm_compute. reflexivity.
Defined.

Lemma reachable_frame_message : forall s,
  reachable s -> frame_message (uiMessage s) = true.
Proof.
  induction 1 as [file s H | fr s s' R IH H].
  - rewrite (proj1 (startup_message file s H)). reflexivity.
  - apply step_inv in H. apply dispatch_message in H.
    destruct H as [[Hm _] | [_ Hm]]; [|exact Hm].
    rewrite Hm.
    destruct (proj1 (update_timer_message fr s)) as [K | K]; rewrite K;
      [exact IH | reflexivity].
Qed.

(** The two messages RegisterUser sets are never what a frame ends with:
    SignUp, its only caller, replaces them before the frame is drawn, so
    that a full store is reported as "Registration failed. Try again.". *)
Theorem RegisterUser_messages_are_never_shown : forall s : State,
  reachable s ->
  uiMessage s <> MsgText "Cannot register: maximum user limit reached."
  /\ uiMessage s <> MsgText "Registration failed: Username already exists.".
Proof.
  intros s R. apply reachable_frame_message in R.
  split; intro E; rewrite E in R; vm_compute in R; discriminate R.
Qed.

Lemma RegisterUser_messages_are_never_shown_witness :
  uiMessage at_full_store_register
    <> MsgText "Cannot register: maximum user limit reached."
  /\ uiMessage at_full_store_register
     <> MsgText "Registration failed: Username already exists.".
Proof.
  apply (RegisterUser_messages_are_never_shown at_full_store_register).
  apply (run_reachable (firstn 8 (sign_up_and_in "zed" "12345"))
           (state_of (startup (Some full_users_file)))).
  - apply (reach_start (Some full_users_file)). vm_compute. reflexivity.
  - vm_compute. reflexivity.
Defined.

(** ** A form is opened empty *)

Lemma all_cleared_boxes : forall s s',
  all_cleared s ->
  bidAmountInput s' = bidAmountInput s ->
  bidderNameInput s' = bidderNameInput s ->
  signInUsernameInput s' = signInUsernameInput s ->
  signInPasswordInput s' = signInPasswordInput s ->
  signUpUsernameInput s' = signUpUsernameInput s ->
  signUpPasswordInput s' = signUpPasswordInput s ->
  signUpConfirmPasswordInput s' = signUpConfirmPasswordInput s ->
  all_cleared s'.
Proof.
  unfold all_cleared. intros s s' H E1 E2 E3 E4 E5 E6 E7.
  rewrite E1, E2, E3, E4, E5, E6, E7. exact H.
Qed.

Ltac note_resets :=
  repeat match goal with
         | H : ResetInputBoxes ?x = Some ?y |- _ =>
             lazymatch goal with
             | _ : all_cleared y |- _ => fail
             | _ => pose proof (ResetInputBoxes_cleared x y H : all_cleared y)
             end
         end.

Ltac cleared_done Hne Hform :=
  note_resets; to_fields; cbn in *;
  first
    [ exfalso; congruence
    | exfalso; destruct Hform as [Hform | [Hform | Hform]]; congruence
    | match goal with
      | K : all_cleared ?y |- all_cleared _ =>
          apply (all_cleared_boxes y); [exact K | reflexivity ..]
      end ].

Lemma dispatch_cleared : forall fr s s',
  dispatch fr s = Some s' ->
  currentScreen s' <> currentScreen s ->
  form_screen (currentScreen s') ->
  all_cleared s'.
Proof.
  intros fr s s' H Hne Hform. unfold dispatch in H.
  destruct (currentScreen s) eqn:Scr.
  - unfold update_auth_menu in H. unfold_some H; cleared_done Hne Hform.
  - unfold update_sign_in in H. unfold_some H; cleared_done Hne Hform.
  - unfold update_sign_up, register_click in H.
    unfold_some H; cleared_done Hne Hform.
  - unfold update_item_list in H. unfold_some H; cleared_done Hne Hform.
  - unfold update_item_details in H. unfold_some H; cleared_done Hne Hform.
  - unfold update_place_bid, bid_click, set_item_at in H.
    unfold_some H; cleared_done Hne Hform.
Qed.

(** Whenever a frame brings up the SignIn, SignUp or PlaceBid screen from
    another screen, every input box holds the empty string, has a letter
    count of 0 and is not focused: no form opens on what was typed into it
    before, a password included. *)
Theorem a_form_is_opened_empty : forall (fr : Frame) (s s' : State),
  step fr s = Some s' ->
  currentScreen s' <> currentScreen s ->
  form_screen (currentScreen s') ->
  all_cleared s'.
Proof.
  intros fr s s' H Hne Hform. apply step_inv in H.
  destruct (update_timer_core fr s) as (_ & _ & _ & Escr & _).
  rewrite <- Escr in Hne. exact (dispatch_cleared fr _ s' H Hne Hform).
Qed.

Lemma a_form_is_opened_empty_witness :
  all_cleared (state_of (step (click_at 400 420) at_sign_up_bob)).
Proof.
  apply (a_form_is_opened_empty (click_at 400 420) at_sign_up_bob).
  - vm_compute. reflexivity.
  - vm_compute. discriminate.
  - left. vm_compute. reflexivity.
Defined.

(** ** What LoadUsers reads of a longer or damaged file *)

Lemma print_users_app : forall a b,
  print_users (a ++ b) = print_users a ++ print_users b.
Proof. intros a b. unfold print_users. apply flat_map_app. Qed.

Lemma LoadUsers_loop_prefix : forall us slots rest acc,
  Forall storable_user us -> (List.length us <= slots)%nat ->
  LoadUsers_loop slots (print_users us ++ rest) acc
  = LoadUsers_loop (slots - List.length us) rest (acc ++ us).
Proof.
  induction us as [|u us IH]; intros slots rest acc Hus Hlen.
  - rewrite app_nil_r. cbn [print_users flat_map app List.length].
    rewrite Nat.sub_0_r. reflexivity.
  - destruct slots as [|k]; [simpl in Hlen; lia|].
    inversion Hus as [|? ? [(Ne & Pl & Ln) Hh] Hrest]; subst.
    cbn [LoadUsers_loop print_users flat_map]. unfold print_user.
    rewrite (strz_plain _ Pl).
    repeat rewrite <- app_assoc. cbn [app].
    rewrite (scan_s_plain (username u) 32 _ Ne Pl eq_refl).
    destruct (Z.of_nat (List.length (username u)) <? MAX_NAME_LENGTH) eqn:C;
      [|apply Z.ltb_ge in C; lia].
    rewrite (scan_u_printed (hashedPassword u) _ Hh).
    destruct (hashedPassword u <? UINT_MOD) eqn:D;
      [|apply Z.ltb_ge in D; lia].
    change (flat_map print_user us) with (print_users us).
    assert (Skip : forall k' a x,
              LoadUsers_loop k' (10 :: x) a = LoadUsers_loop k' x a).
    { intros k' a x. destruct k'; [reflexivity|]. reflexivity. }
    rewrite Skip, IH by (assumption || (simpl in Hlen; lia)).
    rewrite <- app_assoc. cbn [app List.length Nat.sub]. unfold to_uint, signed.
    rewrite Z.mod_small by exact Hh. rewrite (strz_plain _ Pl).
    destruct u. reflexivity.
Qed.

Lemma LoadUsers_loop_unreadable : forall slots rest acc,
  line_unreadable rest -> LoadUsers_loop slots rest acc = Some acc.
Proof.
  intros slots rest acc H. destruct slots as [|k]; [reflexivity|].
  unfold line_unreadable in H. cbn [LoadUsers_loop].
  destruct (scan_s rest) as [[tok r]|]; [|reflexivity].
  destruct H as [L N].
  destruct (Z.of_nat (List.length tok) <? MAX_NAME_LENGTH) eqn:C;
    [|apply Z.ltb_ge in C; lia].
  rewrite N. reflexivity.
Qed.

(** LoadUsers on a file that starts with the lines of the storable users
    [us]: it stops after MAX_USERS of them, or at the first line after them
    that [fscanf] cannot read as a name and a number, and ignores whatever
    follows. The users it leaves are then the first MAX_USERS of [us],
    whatever the store held before; it answers true and changes nothing
    else. *)
Theorem LoadUsers_stops_at_capacity_or_bad_line :
  forall (s : State) (us : list User) (rest : list Z),
  users_file s = Some (print_users us ++ rest) ->
  Forall storable_user us ->
  MAX_USERS <= Z.of_nat (List.length us) \/ line_unreadable rest ->
  LoadUsers s
  = Some (true, set_users (firstn (Z.to_nat MAX_USERS) us) s).
Proof.
  intros s us rest F Hus H. unfold LoadUsers. rewrite F.
  assert (L : LoadUsers_loop (Z.to_nat MAX_USERS) (print_users us ++ rest) []
              = Some (firstn (Z.to_nat MAX_USERS) us)).
  { destruct (Z_lt_le_dec (Z.of_nat (List.length us)) MAX_USERS) as [Few | Many].
    - destruct H as [H | H]; [lia|].
      rewrite LoadUsers_loop_prefix by (try exact Hus; lia).
      rewrite LoadUsers_loop_unreadable by exact H.
      rewrite firstn_all2 by lia. reflexivity.
    - rewrite <- (firstn_skipn (Z.to_nat MAX_USERS) us) at 1.
      rewrite print_users_app, <- app_assoc.
      assert (Len : List.length (firstn (Z.to_nat MAX_USERS) us)
                    = Z.to_nat MAX_USERS)
        by (apply firstn_length_le; lia).
      rewrite LoadUsers_loop_prefix.
      + rewrite Len, Nat.sub_diag. reflexivity.
      + rewrite <- (firstn_skipn (Z.to_nat MAX_USERS) us) in Hus.
        apply Forall_app in Hus. exact (proj1 Hus).
      + lia. }
  rewrite L. reflexivity.
Qed.

Lemma LoadUsers_stops_at_capacity_or_bad_line_witness :
  LoadUsers (set_users_file (Some (print_users eleven_users ++ [])) empty_store)
  = Some (true,
          set_users (firstn (Z.to_nat MAX_USERS) eleven_users)
            (set_users_file (Some (print_users eleven_users ++ [])) empty_store)).
Proof.
  apply (LoadUsers_stops_at_capacity_or_bad_line
           (set_users_file (Some (print_users eleven_users ++ [])) empty_store)
           eleven_users []).
  - reflexivity.
  - repeat (constructor;
            [split;
             [split; [discriminate|]; split;
              [repeat (constructor; [split; [reflexivity | discriminate]|]);
               constructor
              | vm_compute; reflexivity]
             | vm_compute; split; [discriminate | reflexivity]]|]).
    constructor.
  - left. vm_compute. discriminate.
Defined.

(** ** Passwords that open the same account *)

Lemma HashPassword_loop_two : forall h a b rest,
  a <> 0 -> b <> 0 ->
  HashPassword_loop h (a :: b :: rest)
  = HashPassword_loop ((h * 33 * 33 + (33 * a + b)) mod 2 ^ 32) rest.
Proof.
  intros h a b rest Ha Hb. cbn [HashPassword_loop].
  destruct (a =? 0) eqn:Ea; [apply Z.eqb_eq in Ea; contradiction|].
  destruct (b =? 0) eqn:Eb; [apply Z.eqb_eq in Eb; contradiction|].
  rewrite !hash_step. f_equal.
  rewrite (Z.add_mod (_ mod _ * 33) b) by lia.
  rewrite Z.mul_mod_idemp_l by lia.
  rewrite <- Z.add_mod by lia. f_equal. lia.
Qed.

(** The hash does not tell apart two passwords whose first two characters
    have the same value of [33 * a + b], such as "ab..." and "bA...":
    after RegisterUser with one of them, AuthenticateUser accepts the
    other for that username. *)
Theorem colliding_password_is_accepted :
  forall (u rest : list Z) (a b a' b' : Z) (writable : bool) (s : State),
  strlen u < MAX_NAME_LENGTH ->
  UsernameExists s u = false ->
  userCount s < MAX_USERS ->
  a <> 0 -> b <> 0 -> a' <> 0 -> b' <> 0 ->
  33 * a + b = 33 * a' + b' ->
  exists ok s',
    RegisterUser u (a :: b :: rest) writable s = Some (ok, s')
    /\ AuthenticateUser s' u (a' :: b' :: rest) = true.
Proof.
  intros u rest a b a' b' writable s L E C Ha Hb Ha' Hb' Eq.
  rewrite (RegisterUser_appends u (a :: b :: rest) writable s L C E).
  destruct (SaveUsers writable _) as [ok s'] eqn:S.
  exists ok, s'. split; [reflexivity|].
  assert (U : users s'
              = users s ++ [mkUser (strz u) (HashPassword (a :: b :: rest))]).
  { change s' with (snd (ok, s')). rewrite <- S. apply users_SaveUsers. }
  unfold AuthenticateUser. rewrite U, existsb_app. apply orb_true_iff. right.
  cbn [existsb username hashedPassword]. unfold streq, HashPassword.
  rewrite strz_idem, list_eqb_refl.
  rewrite (HashPassword_loop_two _ a b rest Ha Hb).
  rewrite (HashPassword_loop_two _ a' b' rest Ha' Hb').
  rewrite Eq, Z.eqb_refl. reflexivity.
Qed.

Lemma colliding_password_is_accepted_witness :
  exists ok s',
    RegisterUser (str "alice") (str "ab123") true empty_store = Some (ok, s')
    /\ AuthenticateUser s' (str "alice") (str "bA123") = true.
Proof.
  apply (colliding_password_is_accepted (str "alice") (str "123") 97 98 98 65
           true empty_store).
  - vm_compute. reflexivity.
  - reflexivity.
  - vm_compute. reflexivity.
  - discriminate.
  - discriminate.
  - discriminate.
  - discriminate.
  - reflexivity.
Defined.

(** ** DrawInputBox masks the passwords *)

Lemma cell_set_app : forall (done : list (option Z)) rest v,
  rest <> [] ->
  cell_set (done ++ rest) (List.length done) v
  = Some (done ++ Some v :: tl rest).
Proof.
  induction done as [|c done IH]; intros rest v Hr.
  - destruct rest; [contradiction | reflexivity].
  - cbn [app List.length cell_set]. rewrite IH by exact Hr. reflexivity.
Qed.

Lemma cell_set_stars : forall n free v,
  cell_set (repeat (Some 42) n ++ repeat None (S free)) n v
  = Some (repeat (Some 42) n ++ Some v :: repeat None free).
Proof.
  intros n free v.
  pose proof (cell_set_app (repeat (Some 42) n) (repeat None (S free)) v) as C.
  rewrite repeat_length in C. apply C. discriminate.
Qed.

Lemma mask_loop_stars : forall fuel done free,
  (fuel <= free)%nat ->
  mask_loop fuel (Z.of_nat done) (repeat (Some 42) done ++ repeat None free)
  = Some (repeat (Some 42) (done + fuel) ++ repeat None (free - fuel)).
Proof.
  induction fuel as [|k IH]; intros done free H.
  - rewrite Nat.add_0_r, Nat.sub_0_r. reflexivity.
  - cbn [mask_loop]. unfold cell_set_int.
    destruct (Z.of_nat done <? 0) eqn:E; [apply Z.ltb_lt in E; lia|].
    rewrite Nat2Z.id.
    destruct free as [|f]; [lia|].
    rewrite (cell_set_stars done f 42).
    cbn [bind repeat tl].
    replace (repeat (Some 42) done ++ Some 42 :: repeat None f)
      with (repeat (Some 42) (S done) ++ repeat (@None Z) f).
    + replace (Z.of_nat done + 1) with (Z.of_nat (S done)) by lia.
      rewrite IH by lia.
      replace (done + S k)%nat with (S done + k)%nat by lia.
      reflexivity.
    + cbn [repeat]. rewrite repeat_cons, <- app_assoc. reflexivity.
Qed.

Lemma cells_str_stars : forall n rest,
  cells_str (repeat (Some 42) n ++ Some 0 :: rest) = Some (repeat 42 n).
Proof.
  induction n as [|n IH]; intro rest; [reflexivity|].
  cbn [repeat app cells_str]. change (42 =? 0) with false. cbn iota.
  rewrite IH. reflexivity.
Qed.

(** For a password box whose letter count is within the capacity,
    DrawInputBox stays inside [maskedText], reads no cell it has not
    written and draws one star per counted letter: no character of the text
    is drawn, and the number of stars is the letter count, not the length
    of the string the box holds. For the other boxes it draws that string. *)
Theorem DrawInputBox_masks_passwords : forall b : InputBox,
  0 <= letterCount b <= MAX_INPUT_CHARS ->
  DrawInputBox b
  = if isPassword b then Some (repeat 42 (Z.to_nat (letterCount b)))
    else cstr (text b).
Proof.
  intros b H. unfold DrawInputBox. destruct (isPassword b); [|reflexivity].
  pose proof (mask_loop_stars (Z.to_nat (letterCount b)) 0
                (Z.to_nat (MAX_INPUT_CHARS + 1))) as M.
  cbn [repeat app Z.of_nat Nat.add] in M.
  rewrite M by (unfold MAX_INPUT_CHARS in *; lia). cbn [bind].
  unfold cell_set_int.
  destruct (letterCount b <? 0) eqn:E; [apply Z.ltb_lt in E; lia|].
  assert (F : (Z.to_nat (MAX_INPUT_CHARS + 1) - Z.to_nat (letterCount b)
               = S (Z.to_nat (MAX_INPUT_CHARS - letterCount b)))%nat)
    by (unfold MAX_INPUT_CHARS in *; lia).
  rewrite F, cell_set_stars. cbn [bind].
  apply cells_str_stars.
Qed.

Lemma DrawInputBox_masks_passwords_witness :
  DrawInputBox (signUpPasswordInput at_sign_up_bob)
  = Some (repeat 42 5).
Proof.
  apply (DrawInputBox_masks_passwords (signUpPasswordInput at_sign_up_bob)).
  vm_compute. split; discriminate.
Defined.

(** ** The letters counted by a box are the letters typed *)

Lemma array_set_inv : forall a i v a',
  array_set a i v = Some a' ->
  nth_error a' i = Some v
  /\ (forall j, j <> i -> nth_error a' j = nth_error a j).
Proof.
  intros a i v a' H.
  assert (L : (i < List.length a)%nat).
  { revert i a' H. induction a as [|x a IH]; intros i a' H; [discriminate|].
    destruct i as [|i]; cbn [List.length]; [lia|]. cbn [array_set] in H.
    destruct (array_set a i v) as [r|] eqn:E; [|discriminate].
    specialize (IH i r E). lia. }
  destruct (array_set_spec a i v L) as (a2 & E & _ & N & O).
  rewrite E in H. injection H as <-. split; assumption.
Qed.

Lemma array_set_int_inv : forall a i v a',
  array_set_int a i v = Some a' ->
  0 <= i
  /\ nth_error a' (Z.to_nat i) = Some v
  /\ (forall j, j <> Z.to_nat i -> nth_error a' j = nth_error a j).
Proof.
  intros a i v a' H. unfold array_set_int in H.
  destruct (i <? 0) eqn:E; [discriminate|]. apply Z.ltb_ge in E.
  split; [exact E|]. apply array_set_inv. exact H.
Qed.

Lemma type_chars_typed : forall queue b b' q',
  typed_prefix b ->
  type_chars b queue = Some (b', q') ->
  typed_prefix b'.
Proof.
  induction queue as [|key rest IH]; intros b b' q' P H; cbn [type_chars] in H.
  - injection H as <- _. exact P.
  - destruct (0 <? key); [|injection H as <- _; exact P].
    destruct ((KEY_MIN <=? key) && (key <=? KEY_MAX)
              && (letterCount b <? MAX_INPUT_CHARS)) eqn:E;
      [|exact (IH b b' q' P H)].
    apply andb_true_iff in E. destruct E as [E _].
    apply andb_true_iff in E. destruct E as [E1 E2].
    apply Z.leb_le in E1, E2.
    destruct (array_set_int (text b) (letterCount b) key) as [t'|] eqn:A;
      cbn [bind] in H; [|discriminate].
    apply array_set_int_inv in A. destruct A as (C & N & O).
    refine (IH _ b' q' _ H). intros i Hi. cbn [letterCount text] in *.
    destruct (Nat.eq_dec i (Z.to_nat (letterCount b))) as [->|Ne].
    + exists key. split; [exact N | lia].
    + rewrite (O i Ne). apply P. lia.
Qed.

Lemma UpdateInputBox_typed : forall fr queue b b' q',
  typed_prefix b ->
  UpdateInputBox fr queue b = Some (b', q') ->
  typed_prefix b'.
Proof.
  intros fr queue b b' q' P H. unfold UpdateInputBox in H.
  set (b0 := if mousePressed fr then _ else b) in H.
  assert (P0 : typed_prefix b0).
  { subst b0. destruct (mousePressed fr); [|exact P].
    destruct (CheckCollisionPointRec _ _); exact P. }
  clearbody b0.
  destruct (active b0); [|injection H as <- _; exact P0].
  destruct (type_chars b0 queue) as [[b1 q1]|] eqn:T; cbn [bind] in H;
    [|discriminate].
  pose proof (type_chars_typed queue b0 b1 q1 P0 T) as P1.
  destruct (backspacePressed fr && (0 <? letterCount b1)).
  - destruct (array_set_int (text b1) (letterCount b1 - 1) 0) as [t'|] eqn:A;
      cbn [bind] in H; [|discriminate].
    apply array_set_int_inv in A. destruct A as (C & _ & O).
    assert (P2 : typed_prefix
                   (mkInputBox (rect b1) t' (letterCount b1 - 1) (active b1)
                      (borderColor b1) (isPassword b1))).
    { intros i Hi. cbn [letterCount text] in *.
      rewrite (O i) by lia. apply P1. lia. }
    destruct (enterPressed fr); injection H as <- _; exact P2.
  - cbn [bind] in H. destruct (enterPressed fr); injection H as <- _; exact P1.
Qed.

Lemma ResetInputBox_typed : forall b b',
  ResetInputBox b = Some b' -> typed_prefix b'.
Proof.
  intros b b' H. apply ResetInputBox_cleared in H. destruct H as (_ & L & _).
  intros i Hi. lia.
Qed.

Lemma ResetInputBoxes_typed : forall s s',
  ResetInputBoxes s = Some s' -> boxes_typed s'.
Proof.
  intros s s' H. unfold ResetInputBoxes in H.
  repeat match type of H with
         | bind ?m _ = Some _ =>
             let E := fresh "E" in
             destruct m eqn:E; cbn [bind] in H; [|discriminate]
         end.
  injection H as <-. cbn.
  repeat split; eapply ResetInputBox_typed; eassumption.
Qed.

Lemma RegisterUser_boxes : forall u p w s ok s',
  RegisterUser u p w s = Some (ok, s') ->
  all_boxes s' = all_boxes s.
Proof.
  intros u p w s ok s' H. unfold RegisterUser in H.
  destruct (MAX_USERS <=? userCount s); [injection H as _ <-; reflexivity|].
  destruct (UsernameExists s u); [injection H as _ <-; reflexivity|].
  destruct (strcpy_into MAX_NAME_LENGTH u); cbn [bind] in H; [|discriminate].
  unfold SaveUsers in H. destruct w; injection H as _ <-; reflexivity.
Qed.

Ltac typed_done :=
  repeat match goal with
         | H : UpdateInputBox _ _ _ = Some _ |- _ =>
             apply UpdateInputBox_typed in H; [|tauto]
         | H : ResetInputBoxes _ = Some _ |- _ =>
             apply ResetInputBoxes_typed in H
         | H : RegisterUser _ _ _ _ = Some _ |- _ =>
             apply RegisterUser_boxes in H; unfold all_boxes in H;
             injection H; clear H; intros
         | H : Some _ = Some _ |- _ => injection H as <-
         end;
  unfold boxes_typed in *; cbn in *;
  repeat match goal with K : _ = _ :> InputBox |- _ => rewrite K end;
  tauto.

Lemma dispatch_typed : forall fr s s',
  dispatch fr s = Some s' -> boxes_typed s -> boxes_typed s'.
Proof.
  intros fr s s' H P. unfold dispatch in H.
  assert (P' := P). unfold boxes_typed in P'.
  destruct (currentScreen s) eqn:Scr.
  - unfold update_auth_menu in H. unfold_some H; typed_done.
  - unfold update_sign_in in H. unfold_some H; typed_done.
  - unfold update_sign_up, register_click in H. unfold_some H; typed_done.
  - unfold update_item_list in H. unfold_some H; typed_done.
  - unfold update_item_details in H. unfold_some H; typed_done.
  - unfold update_place_bid, bid_click, set_item_at in H.
    unfold_some H; typed_done.
Qed.

Lemma reachable_typed : forall s, reachable s -> boxes_typed s.
Proof.
  induction 1 as [file s H | fr s s' R IH H].
  - unfold startup in H.
    destruct (LoadUsers (InitAuctionData (globals file))) as [[ok s1]|];
      cbn [bind] in H; [|discriminate].
    injection H as <-. unfold boxes_typed, typed_prefix, new_box. cbn.
    repeat split; intros i Hi; lia.
  - apply step_inv in H. apply (dispatch_typed fr _ s' H).
    destruct (update_timer_shape fr s) as (m & t & ->). exact IH.
Qed.

Lemma typed_prefix_strlen : forall l n,
  (forall i : nat, (i < n)%nat ->
     exists c, nth_error l i = Some c /\ KEY_MIN <= c <= KEY_MAX) ->
  (n <= List.length (strz l))%nat.
Proof.
  induction l as [|x l IH]; intros n H.
  - destruct n; [lia|]. destruct (H O ltac:(lia)) as (c & E & _). discriminate.
  - destruct n as [|n]; [lia|].
    destruct (H O ltac:(lia)) as (c & E & R). cbn in E. injection E as ->.
    cbn [strz]. unfold KEY_MIN in R.
    destruct (c =? 0) eqn:Z0; [apply Z.eqb_eq in Z0; lia|].
    cbn [List.length]. apply le_n_S. apply IH.
    intros i Hi. apply (H (S i)). lia.
Qed.

(** In every state the program reaches and for each of its input boxes,
    the first [letterCount] cells of the text are keys that were typed
    (characters 32 to 125), so that the string the box holds starts with
    the letters typed and is never shorter than the letter count. *)
Theorem typed_letters_start_the_text : forall (s : State) (b : InputBox),
  reachable s ->
  In b (all_boxes s) ->
  typed_prefix b /\ letterCount b <= strlen (text b).
Proof.
  intros s b R I. apply reachable_typed in R.
  assert (P : typed_prefix b).
  { unfold boxes_typed in R. unfold all_boxes in I. cbn [In] in I.
    intuition (subst; assumption). }
  split; [exact P|]. unfold strlen.
  destruct (Z_le_gt_dec (letterCount b) 0) as [N | Pos]; [lia|].
  pose proof (typed_prefix_strlen (text b) (Z.to_nat (letterCount b))) as L.
  assert (K : (Z.to_nat (letterCount b) <= List.length (strz (text b)))%nat).
  { apply L. intros i Hi. apply P. lia. }
  lia.
Qed.

Lemma typed_letters_start_the_text_witness :
  typed_prefix (bidAmountInput at_bid_entered)
  /\ letterCount (bidAmountInput at_bid_entered)
     <= strlen (text (bidAmountInput at_bid_entered)).
Proof.
  apply (typed_letters_start_the_text at_bid_entered).
  - apply (run_reachable [click_at 310 310; type_at 310 310 "1600";
                          click_at 310 390; type_at 310 390 "bob"] at_place_bid).
    + apply (run_from_start_reachable
               (sign_up_and_in "bob" "12345"
                ++ [click_at 100 110; click_at 700 560])).
      vm_compute. reflexivity.
    + vm_compute. reflexivity.
  - left. reflexivity.
Defined.

(** ** The selected item and the screen *)

Ltac sel_done Scr Inv :=
  intro N; to_fields; cbn in *;
  repeat match goal with K : currentScreen _ = _ |- _ => rewrite K in * end;
  cbn in *; try discriminate; try reflexivity;
  try (repeat match goal with K : selectedItemIndex _ = _ |- _ => rewrite K end;
       apply Inv; rewrite ?Scr; reflexivity).

Lemma dispatch_deselects : forall fr s s',
  dispatch fr s = Some s' ->
  (no_item_screen (currentScreen s) = true -> selectedItemIndex s = -1) ->
  no_item_screen (currentScreen s') = true -> selectedItemIndex s' = -1.
Proof.
  intros fr s s' H Inv. unfold dispatch in H.
  destruct (currentScreen s) eqn:Scr.
  - unfold update_auth_menu in H. unfold_some H; sel_done Scr Inv.
  - unfold update_sign_in in H. unfold_some H; sel_done Scr Inv.
  - unfold update_sign_up, register_click in H. unfold_some H; sel_done Scr Inv.
  - unfold update_item_list in H. specialize (Inv eq_refl).
    destruct (mousePressed fr) eqn:P; cbn [bind] in H.
    + destruct (item_list_loop_shape fr (Z.to_nat (itemCount s)) 0 s)
        as [E | (j & Hj & Hit & _ & E)]; rewrite E in H; cbn [bind] in H.
      * destruct (clicked fr logoutButtonRect); set_literals_in H;
          injection H as <-; cbn; intros _; exact Inv.
      * unfold clicked, IsMouseOver in H.
        rewrite (itemRect_misses_logout _ j (proj1 Hj) Hit) in H.
        cbn [andb] in H. injection H as <-. cbn. discriminate.
    + destruct (clicked fr logoutButtonRect); set_literals_in H;
        injection H as <-; cbn; intros _; exact Inv.
  - unfold update_item_details in H.
    destruct (clicked fr backButtonRect).
    + set_literals_in H.
      cbn [bind selectedItemIndex with_message set_uiMessage set_uiMessageTimer
           set_selectedItemIndex set_currentScreen] in H.
      change (-1 =? -1) with true in H. cbn [bind andb] in H.
      injection H as <-. reflexivity.
    + unfold_some H; sel_done Scr Inv.
  - unfold update_place_bid, bid_click, set_item_at in H.
    unfold_some H; sel_done Scr Inv.
Qed.

Lemma reachable_deselected : forall s,
  reachable s ->
  no_item_screen (currentScreen s) = true -> selectedItemIndex s = -1.
Proof.
  induction 1 as [file s H | fr s s' R IH H].
  - intros _. unfold startup in H.
    destruct (LoadUsers (InitAuctionData (globals file))) as [[ok s1]|] eqn:E;
      cbn [bind] in H; [|discriminate].
    injection H as <-. apply LoadUsers_fields in E.
    destruct E as (_ & _ & E & _). cbn. rewrite E. reflexivity.
  - apply step_inv in H. apply (dispatch_deselects fr _ s' H).
    destruct (update_timer_core fr s) as (_ & _ & Es & Escr & _).
    rewrite Es, Escr. exact IH.
Qed.

(** In every state the program reaches, the selection goes with the
    screen: on ItemDetails and PlaceBid the selected index is one of the
    seeded items (the "No item selected" text of the details screen is
    never drawn), and on every other screen it is -1. *)
Theorem selection_goes_with_the_screen : forall s : State,
  reachable s ->
  if no_item_screen (currentScreen s)
  then selectedItemIndex s = -1
  else 0 <= selectedItemIndex s < itemCount s
       /\ exists it, item_at s (selectedItemIndex s) = Some it.
Proof.
  intros s R. destruct (no_item_screen (currentScreen s)) eqn:N.
  - exact (reachable_deselected s R N).
  - destruct (reachable_wf s R) as (_ & Len & Cnt & _ & Sel).
    assert (B : 0 <= selectedItemIndex s < itemCount s)
      by (destruct (currentScreen s); try discriminate N; exact Sel).
    split; [exact B|]. apply item_at_defined; [exact Len | lia].
Qed.

Lemma selection_goes_with_the_screen_witness :
  0 <= selectedItemIndex at_closed_item < itemCount at_closed_item
  /\ exists it, item_at at_closed_item (selectedItemIndex at_closed_item) = Some it.
Proof.
  apply (selection_goes_with_the_screen at_closed_item).
  exact at_closed_item_reachable.
Defined.

(** ** The catalog *)

Lemma startup_items : forall file s,
  startup file = Some s -> items s = seeded_items /\ itemCount s = 3.
Proof.
  intros file s H. unfold startup in H.
  destruct (LoadUsers (InitAuctionData (globals file))) as [[ok s1]|] eqn:E;
    cbn [bind] in H; [|discriminate].
  injection H as <-. apply LoadUsers_fields in E.
  destruct E as (Ei & Ec & _). cbn. rewrite Ei, Ec. split; reflexivity.
Qed.

(** In every state the program reaches there are the three items of
    InitAuctionData, with the names, descriptions and open or closed
    status it gave them, in its order, followed by the two unused cells:
    no item is added, removed, renamed, closed or reopened. *)
Theorem catalog_is_the_seeded_one : forall s : State,
  reachable s ->
  itemCount s = 3
  /\ map item_identity (items s) = map item_identity seeded_items.
Proof.
  induction 1 as [file s H | fr s s' R IH H].
  - destruct (startup_items file s H) as [Ei Ec]. rewrite Ei. auto.
  - apply step_inv in H. destruct (dispatch_static fr _ s' H) as (M & C).
    destruct (update_timer_core fr s) as (Ei & Ec & _).
    rewrite M, C, Ei, Ec. exact IH.
Qed.

Lemma catalog_is_the_seeded_one_witness :
  itemCount (state_of (step (click_at 300 490) at_bid_entered)) = 3
  /\ map item_identity (items (state_of (step (click_at 300 490) at_bid_entered)))
     = map item_identity seeded_items.
Proof.
  apply (catalog_is_the_seeded_one
           (state_of (step (click_at 300 490) at_bid_entered))).
  apply (run_reachable [click_at 310 310; type_at 310 310 "1600";
                        click_at 310 390; type_at 310 390 "bob";
                        click_at 300 490]
           at_place_bid).
  - exact at_place_bid_reachable.
  - vm_compute. reflexivity.
Defined.

(** ** The navigation buttons *)

Lemma clicked_elsewhere : forall fr r r',
  clicked fr r = true ->
  (CheckCollisionPointRec (mousePoint fr) r = true ->
   CheckCollisionPointRec (mousePoint fr) r' = false) ->
  clicked fr r' = false.
Proof.
  intros fr r r' H D. apply clicked_inv in H. destruct H as [H P].
  unfold clicked, IsMouseOver. rewrite (D H). reflexivity.
Qed.

Ltac other_button H :=
  apply (clicked_elsewhere _ _ _ H); clear H; intro H;
  match goal with
  | |- CheckCollisionPointRec _ ?r = false =>
      unfold signInButton, signUpButton, loginButton, signInBackButton,
        registerButton, signUpBackButton, backButtonRect, placeBidButtonRect,
        bidButtonRect, cancelButtonRect in *
  end;
  disjoint_rects H.

Ltac stored_done :=
  to_fields; unfold stored; cbn in *;
  repeat match goal with
         | K : _ = _ |- _ => rewrite K
         end;
  repeat split; try reflexivity; try congruence.

Lemma update_timer_stored : forall fr s,
  stored (update_timer fr s) = stored s
  /\ selectedItemIndex (update_timer fr s) = selectedItemIndex s
  /\ currentScreen (update_timer fr s) = currentScreen s.
Proof.
  intros fr s. destruct (update_timer_shape fr s) as (m & t & ->).
  repeat split.
Qed.

Lemma goes_to_intro : forall fr s s' screen sel m,
  reachable s ->
  (forall s1, dispatch fr (update_timer fr s) = Some s1 ->
     currentScreen s1 = screen /\ selectedItemIndex s1 = sel
     /\ uiMessage s1 = MsgText m
     /\ stored s1 = stored (update_timer fr s)) ->
  step fr s = Some s' ->
  goes_to fr s screen sel m.
Proof.
  intros fr s s' screen sel m R K H. exists s'. split; [exact H|].
  apply step_inv in H. destruct (K s' H) as (K1 & K2 & K3 & K4).
  rewrite K4, (proj1 (update_timer_stored fr s)). auto.
Qed.

(** Every navigation button does what its label says, from every state
    the program reaches: Sign In and Sign Up open their forms; Back on a
    form returns to the menu; Back on the details returns to the list and
    drops the selection; Place Bid on an open item opens the bid form for
    that item; Cancel returns to the details of that item. Each frame is
    defined and leaves the items, the accounts, the users file and the
    session alone. *)
Theorem navigation_buttons_work : forall (fr : Frame) (s : State),
  reachable s ->
  (currentScreen s = SCREEN_AUTH_MENU -> clicked fr signInButton = true ->
   goes_to fr s SCREEN_SIGN_IN (selectedItemIndex s) "Enter your credentials.")
  /\ (currentScreen s = SCREEN_AUTH_MENU -> clicked fr signUpButton = true ->
      goes_to fr s SCREEN_SIGN_UP (selectedItemIndex s)
        "Choose a username and password.")
  /\ (currentScreen s = SCREEN_SIGN_IN -> clicked fr signInBackButton = true ->
      goes_to fr s SCREEN_AUTH_MENU (selectedItemIndex s) "")
  /\ (currentScreen s = SCREEN_SIGN_UP -> clicked fr signUpBackButton = true ->
      goes_to fr s SCREEN_AUTH_MENU (selectedItemIndex s) "")
  /\ (currentScreen s = SCREEN_ITEM_DETAILS -> clicked fr backButtonRect = true ->
      goes_to fr s SCREEN_ITEM_LIST (-1) "")
  /\ (currentScreen s = SCREEN_ITEM_DETAILS ->
      clicked fr placeBidButtonRect = true ->
      (exists it, item_at s (selectedItemIndex s) = Some it
                  /\ auctionClosed it = false) ->
      goes_to fr s SCREEN_PLACE_BID (selectedItemIndex s)
        "Enter your bid and name.")
  /\ (currentScreen s = SCREEN_PLACE_BID -> clicked fr cancelButtonRect = true ->
      goes_to fr s SCREEN_ITEM_DETAILS (selectedItemIndex s) "").
Proof.
  intros fr s R.
  destruct (update_timer_stored fr s) as (_ & Tsel & Tscr).
  repeat split; intros Scr Click.
  - (* Sign In *)
    assert (O : clicked fr signUpButton = false) by other_button Click.
    destruct (reachable_step_defined fr s R) as (s' & H);
      [rewrite Scr; discriminate|].
    apply (goes_to_intro fr s s'); [exact R | | exact H].
    intros s1 D. unfold dispatch in D. rewrite Tscr, Scr in D.
    unfold update_auth_menu in D. rewrite Click, O in D.
    rewrite <- Tsel. unfold_some D; stored_done.
  - (* Sign Up *)
    assert (O : clicked fr signInButton = false) by other_button Click.
    destruct (reachable_step_defined fr s R) as (s' & H);
      [rewrite Scr; discriminate|].
    apply (goes_to_intro fr s s'); [exact R | | exact H].
    intros s1 D. unfold dispatch in D. rewrite Tscr, Scr in D.
    unfold update_auth_menu in D. rewrite Click, O in D.
    rewrite <- Tsel. unfold_some D; stored_done.
  - (* Back on SignIn *)
    assert (O : clicked fr loginButton = false) by other_button Click.
    destruct (reachable_step_defined fr s R) as (s' & H);
      [rewrite Scr; discriminate|].
    apply (goes_to_intro fr s s'); [exact R | | exact H].
    intros s1 D. unfold dispatch in D. rewrite Tscr, Scr in D.
    unfold update_sign_in in D. rewrite Click, O in D.
    rewrite <- Tsel. unfold_some D; stored_done.
  - (* Back on SignUp *)
    assert (O : clicked fr registerButton = false) by other_button Click.
    destruct (reachable_step_defined fr s R) as (s' & H);
      [rewrite Scr; discriminate|].
    apply (goes_to_intro fr s s'); [exact R | | exact H].
    intros s1 D. unfold dispatch in D. rewrite Tscr, Scr in D.
    unfold update_sign_up in D. rewrite Click, O in D.
    rewrite <- Tsel. unfold_some D; stored_done.
  - (* Back on ItemDetails *)
    destruct (reachable_step_defined fr s R) as (s' & H);
      [rewrite Scr; discriminate|].
    apply (goes_to_intro fr s s'); [exact R | | exact H].
    intros s1 D. unfold dispatch in D. rewrite Tscr, Scr in D.
    unfold update_item_details in D. rewrite Click in D.
    set_literals_in D.
    cbn [bind selectedItemIndex with_message set_uiMessage set_uiMessageTimer
         set_selectedItemIndex set_currentScreen] in D.
    change (-1 =? -1) with true in D. cbn [bind andb] in D.
    injection D as <-. repeat split.
  - (* Place Bid *)
    intros (it & Hit & Open).
    assert (O : clicked fr backButtonRect = false) by other_button Click.
    destruct (reachable_step_defined fr s R) as (s' & H);
      [rewrite Scr; discriminate|].
    apply (goes_to_intro fr s s'); [exact R | | exact H].
    intros s1 D. unfold dispatch in D. rewrite Tscr, Scr in D.
    unfold update_item_details in D. rewrite Click, O in D.
    cbn [bind] in D.
    rewrite item_at_update_timer, Tsel, Hit in D.
    destruct (selectedItemIndex s =? -1) eqn:E.
    + apply Z.eqb_eq in E. rewrite E in Hit. discriminate Hit.
    + cbn [bind] in D. rewrite Open in D. cbn [bind negb andb] in D.
      rewrite <- Tsel. unfold_some D; stored_done.
  - (* Cancel *)
    assert (O : clicked fr bidButtonRect = false) by other_button Click.
    destruct (reachable_step_defined fr s R) as (s' & H);
      [intros _; exact O|].
    apply (goes_to_intro fr s s'); [exact R | | exact H].
    intros s1 D. unfold dispatch in D. rewrite Tscr, Scr in D.
    unfold update_place_bid in D. rewrite Click, O in D.
    rewrite <- Tsel. unfold_some D; stored_done.
Qed.

Lemma navigation_buttons_work_witness :
  goes_to (click_at 480 490) at_bid_entered SCREEN_ITEM_DETAILS 0 "".
Proof.
  assert (R : reachable at_bid_entered).
  { apply (run_reachable [click_at 310 310; type_at 310 310 "1600";
                          click_at 310 390; type_at 310 390 "bob"] at_place_bid).
    - exact at_place_bid_reachable.
    - vm_compute. reflexivity. }
  apply (proj2 (proj2 (proj2 (proj2 (proj2 (proj2
           (navigation_buttons_work (click_at 480 490) at_bid_entered R))))))).
  - reflexivity.
  - reflexivity.
Defined.
